(** * KPI table construction and trend charts

    A shallow embedding of [src/calculate_kpis.py] and
    [src/visualize_trends.py].

    The two scripts are thin pandas programs: they read two CSV files,
    rename two labels of the balance sheet, inner-join both frames on
    [Year], derive ten ratio columns, persist the result and (in the
    second script) draw four line charts.  The embedding therefore has
    three layers:

    - a data model of the pandas frame (labelled, typed columns);
    - the pandas operations the scripts call ([rename], [merge],
      [df[label]], [df[label] = column], column arithmetic), written as
      total functions that return either a value or the exception pandas
      raises;
    - the scripts themselves, in an exception-and-state monad over the
      file system and a log of the input/output operations performed.

    Scope of the data model: a column is either [int64] or [float64]
    (missing cells are the float NaN, as pandas stores them).  Text and
    boolean columns are not modelled.  The CSV parser, the CSV printer and
    the chart renderer are parameters of the development. *)

From Stdlib Require Import ZArith Floats Ascii String.
From stdpp Require Import base option list strings gmap.

Open Scope Z_scope.

(* stdpp's solvers clear hypotheses that may be absent. *)
Set Warnings "-clear-no-such-hyp".

(** ** Numbers *)

(** [int64] arithmetic wraps around silently in numpy. *)
Definition wrap64 (z : Z) : Z := (z + 2 ^ 63) `mod` 2 ^ 64 - 2 ^ 63.

(** Conversion [int64 -> float64] (round to nearest even), as numpy does
    before a true division. *)
Definition float_of_int64 (z : Z) : float :=
  if bool_decide (z = - 2 ^ 63) then (- 0x1p63)%float
  else if bool_decide (z < 0) then (- PrimFloat.of_uint63 (Uint63.of_Z (- z)))%float
  else PrimFloat.of_uint63 (Uint63.of_Z z).

(** One cell of a frame. *)
Inductive cell :=
| I64 (z : Z)
| F64 (f : float).

Definition cell_to_float (c : cell) : float :=
  match c with
  | I64 z => float_of_int64 z
  | F64 f => f
  end.

(** [a / b] on two cells: always a float, IEEE 754 division; no guard. *)
Definition cell_truediv (a b : cell) : cell :=
  F64 (cell_to_float a / cell_to_float b)%float.

(** [a - b] on two cells: integer (wrapping) when both are integers. *)
Definition cell_sub (a b : cell) : cell :=
  match a, b with
  | I64 x, I64 y => I64 (wrap64 (x - y))
  | _, _ => F64 (cell_to_float a - cell_to_float b)%float
  end.



(** ** Columns and frames *)

(** A pandas column carries one dtype for all its cells. *)
Inductive column :=
| IntCol (xs : list Z)
| FloatCol (xs : list float).

Definition cells (c : column) : list cell :=
  match c with
  | IntCol xs => I64 <$> xs
  | FloatCol xs => F64 <$> xs
  end.

Definition to_floats (c : column) : list float :=
  match c with
  | IntCol xs => float_of_int64 <$> xs
  | FloatCol xs => xs
  end.

(** A frame: its columns in order, each with its label.  [read_csv]
    yields unique labels; [rename] may create repeated ones. *)
Abbreviation DataFrame := (list (string * column)).

(** [df.columns] *)
Definition labels (d : DataFrame) : list string := d.*1.

(** All columns that carry [name], in frame order. *)
Definition select (d : DataFrame) (name : string) : list column :=
  (filter (λ p, p.1 = name) d).*2.

(** The cell of column [name] in row [i] (when the label is unique). *)
Definition value (d : DataFrame) (name : string) (i : nat) : option cell :=
  match select d name with
  | [c] => cells c !! i
  | _ => None
  end.

(** ** Exceptions and results *)

Inductive exn :=
| FileNotFoundError (path : string)
| KeyError (label : string)
| KeyErrorNotInIndex (missing : list string)
| ValueError (msg : string)
| MergeError (dups : list string)
| OtherError (msg : string).

Inductive result (A : Type) :=
| Ok (a : A)
| Raise (e : exn).
Arguments Ok {A} a.
Arguments Raise {A} e.

#[global] Instance result_ret : MRet result := λ A a, Ok a.
#[global] Instance result_bind : MBind result := λ A B f r,
  match r with
  | Ok a => f a
  | Raise e => Raise e
  end.
#[global] Instance result_fmap : FMap result := λ A B f r,
  match r with
  | Ok a => Ok (f a)
  | Raise e => Raise e
  end.

(** ** pandas operations *)

Module pd.

(** What [df[name]] evaluates to: a column when the label is unique, a
    two-dimensional frame when several columns carry it. *)
Inductive selection :=
| Series (c : column)
| Frame (cs : list column).

(** [df[name]] *)
Definition getitem (d : DataFrame) (name : string) : result selection :=
  match select d name with
  | [] => Raise (KeyError name)
  | [c] => Ok (Series c)
  | cs => Ok (Frame cs)
  end.

(** [df[[n1; ...; nk]]]: the sub-frame of the named columns; every name
    must be a label of the frame. *)
Definition getitem_list (d : DataFrame) (names : list string) : result DataFrame :=
  match filter (λ n, n ∉ labels d) names with
  | [] => Ok (names ≫= λ n, filter (λ p, p.1 = n) d)
  | missing => Raise (KeyErrorNotInIndex missing)
  end.

(** [df[name] = c]: replaces the column(s) labelled [name] where they
    stand, or appends a new last column when the label is new. *)
Definition setitem (d : DataFrame) (name : string) (c : column) : DataFrame :=
  if bool_decide (name ∈ labels d)
  then (λ p, if bool_decide (p.1 = name) then (name, c) else p) <$> d
  else d ++ [(name, c)].

(** Element-wise [a / b] of two columns of one frame. *)
Definition col_truediv (a b : column) : column :=
  FloatCol (zip_with PrimFloat.div (to_floats a) (to_floats b)).

(** Element-wise [a - b] of two columns of one frame. *)
Definition col_sub (a b : column) : column :=
  match a, b with
  | IntCol xs, IntCol ys => IntCol (zip_with (λ x y, wrap64 (x - y)) xs ys)
  | _, _ => FloatCol (zip_with PrimFloat.sub (to_floats a) (to_floats b))
  end.

Definition alignment_error : exn :=
  ValueError "cannot reindex on an axis with duplicate labels".

(** Arithmetic on what [df[...]] returned.  A two-dimensional operand
    (a repeated label) cannot be aligned with the other operand. *)
Definition truediv (a b : selection) : result selection :=
  match a, b with
  | Series x, Series y => Ok (Series (col_truediv x y))
  | _, _ => Raise alignment_error
  end.

Definition sub (a b : selection) : result selection :=
  match a, b with
  | Series x, Series y => Ok (Series (col_sub x y))
  | _, _ => Raise alignment_error
  end.

(** [df[name] = s] for the result of an arithmetic expression. *)
Definition assign (d : DataFrame) (name : string) (s : selection) : result DataFrame :=
  match s with
  | Series c => Ok (setitem d name c)
  | Frame _ =>
      Raise (ValueError "Cannot set a DataFrame with multiple columns to a single column")
  end.

(** [df.rename(columns=mapping, inplace=True)]: labels found in the
    mapping are replaced, all others are kept; a key of the mapping
    that is no label of the frame is ignored.  The value returned is
    the new content of the (mutated) frame. *)
Definition rename (mapping : list (string * string)) (d : DataFrame) : DataFrame :=
  (λ p, (default p.1 (list_to_map (M := gmap string string) mapping !! p.1), p.2)) <$> d.

(** *** Inner join *)

(** Two join keys match when they are equal numbers; as in pandas,
    missing keys (NaN) match each other. *)
Definition key_eqb (a b : cell) : bool :=
  match a, b with
  | I64 x, I64 y => bool_decide (x = y)
  | _, _ =>
      let x := cell_to_float a in
      let y := cell_to_float b in
      (PrimFloat.is_nan x && PrimFloat.is_nan y) || (x =? y)%float
  end.

Definition enumerate {A} (l : list A) : list (nat * A) :=
  zip (seq 0 (length l)) l.

(** Row positions [(i, j)] of the inner join: left rows in their order,
    and for each the matching right rows in their order (the documented
    order; pandas releases before 2.2 group repeated left keys together,
    which makes no difference when the left keys are unique). *)
Definition join_positions (lk rk : list cell) : list (nat * nat) :=
  enumerate lk ≫= λ '(i, k),
    (λ p, (i, p.1)) <$> filter (λ p, key_eqb k p.2 = true) (enumerate rk).

(** [column.take(positions)] *)
Definition take_rows (pos : list nat) (c : column) : column :=
  match c with
  | IntCol xs => IntCol (omap (λ i, xs !! i) pos)
  | FloatCol xs => FloatCol (omap (λ i, xs !! i) pos)
  end.

(** The key column of a frame: the label must be present and unique. *)
Definition key_column (d : DataFrame) (on : string) : result column :=
  match select d on with
  | [] => Raise (KeyError on)
  | [c] => Ok c
  | _ => Raise (ValueError ("The column label '" +:+ on +:+ "' is not unique."))
  end.

(** [duplicated l]: for each position, whether the element already
    occurred at an earlier position. *)
Fixpoint duplicated_from (seen l : list string) : list bool :=
  match l with
  | [] => []
  | x :: l => bool_decide (x ∈ seen) :: duplicated_from (x :: seen) l
  end.
Definition duplicated (l : list string) : list bool := duplicated_from [] l.

(** Labels that became duplicates through the suffix (not those that
    were repeated before it). *)
Definition suffix_dups (orig new : list string) : list string :=
  (filter (λ p, p.2 = true)
     (zip new (zip_with (λ n o, n && negb o) (duplicated new) (duplicated orig)))).*1.

(** Non-key labels common to both sides get [_x] on the left and [_y]
    on the right. *)
Definition with_suffix (overlap : list string) (suffix x : string) : string :=
  if bool_decide (x ∈ overlap) then x +:+ suffix else x.

(** [left.merge(right, on=on)] with the defaults [how="inner"],
    [suffixes=("_x", "_y")]: the key is looked up on both sides (the
    right one first), the right frame loses its key column, labels both
    sides share get a suffix, and the rows are those of the join
    positions.  The key column of the result is the left one. *)
Definition merge (left right : DataFrame) (on : string) : result DataFrame :=
  rk ← key_column right on;
  lk ← key_column left on;
  let right' := filter (λ p, p.1 ≠ on) right in
  let overlap := filter (λ l, l ∈ labels right') (labels left) in
  let llabels := with_suffix overlap "_x" <$> labels left in
  let rlabels := with_suffix overlap "_y" <$> labels right' in
  match suffix_dups (labels left) llabels ++ suffix_dups (labels right') rlabels with
  | [] =>
      let pos := join_positions (cells lk) (cells rk) in
      Ok (zip llabels (take_rows pos.*1 <$> left.*2)
          ++ zip rlabels (take_rows pos.*2 <$> right'.*2))
  | dups => Raise (MergeError dups)
  end.

End pd.

(** ** The world: files and a log of input/output operations *)

(** A chart as matplotlib is asked to draw it by [plot_trend]. *)
Record figure := Figure {
  fig_figsize : Z * Z;
  fig_x : pd.selection;
  fig_y : pd.selection;
  fig_marker : string;
  fig_title : string;
  fig_xlabel : string;
  fig_ylabel : string;
  fig_grid_linestyle : string;
  fig_grid_alpha : float
}.

Inductive event :=
| EvExists (path : string)
| EvRead (path : string)
| EvWrite (path : string)
| EvPrint (view : DataFrame).

(** Files are keyed by their path relative to the project root and hold
    their bytes.  Directories are not modelled ([os.makedirs] at import
    time has no counterpart). *)
Record world := World {
  fs : gmap string string;
  trace : list event
}.

(** Computations that may raise; what was written before the exception
    stays written. *)
Definition M (A : Type) : Type := world → result A * world.

#[global] Instance M_ret : MRet M := λ A a w, (Ok a, w).
#[global] Instance M_bind : MBind M := λ A B f m w,
  match m w with
  | (Ok a, w') => f a w'
  | (Raise e, w') => (Raise e, w')
  end.

Definition raise {A} (e : exn) : M A := λ w, (Raise e, w).
Definition lift {A} (r : result A) : M A := λ w, (r, w).
Definition log (e : event) : M unit :=
  λ w, (Ok (), World (fs w) (trace w ++ [e])).

(** [os.path.join(a, b)] *)
Definition is_absolute (p : string) : bool :=
  match p with
  | String "/"%char _ => true
  | _ => false
  end.

Fixpoint ends_with_sep (p : string) : bool :=
  match p with
  | EmptyString => false
  | String c EmptyString => bool_decide (c = "/"%char)
  | String _ p => ends_with_sep p
  end.

Definition path_join (a b : string) : string :=
  if is_absolute b then b
  else if bool_decide (a = "") || ends_with_sep a then a +:+ b
  else a +:+ "/" +:+ b.

(** Paths are taken relative to the project root. *)
Definition PROJECT_ROOT : string := "".
Definition DATA_DIR : string := path_join (path_join PROJECT_ROOT "data") "sample".
Definition OUTPUT_DIR : string := path_join PROJECT_ROOT "output".

(** [os.path.exists(path)] *)
Definition path_exists (path : string) : M bool :=
  λ w, (Ok (bool_decide (is_Some (fs w !! path))), World (fs w) (trace w ++ [EvExists path])).

(** [print(view)] *)
Definition print (view : DataFrame) : M unit := log (EvPrint view).

(** One assignment [df[target] = df[num] / df[den]]. *)
Definition set_ratio (d : DataFrame) (target num den : string) : result DataFrame :=
  a ← pd.getitem d num;
  b ← pd.getitem d den;
  q ← pd.truediv a b;
  pd.assign d target q.

(** One assignment [df[target] = (df[a] - df[b]) / df[den]]. *)
Definition set_diff_ratio (d : DataFrame) (target a b den : string) : result DataFrame :=
  x ← pd.getitem d a;
  y ← pd.getitem d b;
  s ← pd.sub x y;
  z ← pd.getitem d den;
  q ← pd.truediv s z;
  pd.assign d target q.

(** The frames a script holds when it ends. *)
Record frames := Frames {
  income : DataFrame;
  balance : DataFrame;
  df : DataFrame
}.

(** pandas' CSV parser (what [pd.read_csv] makes of a file's bytes),
    pandas' CSV printer (the bytes [to_csv(..., index=False)] writes) and
    matplotlib's renderer (the bytes [savefig] writes). *)
Class Backend := {
  parse_csv : string → result DataFrame;
  format_csv : DataFrame → string;
  render_png : figure → string
}.

Section InputOutput.
Context `{Backend}.

(** [pd.read_csv(path)] *)
Definition read_csv (path : string) : M DataFrame :=
  λ w,
    let w' := World (fs w) (trace w ++ [EvRead path]) in
    match fs w !! path with
    | None => (Raise (FileNotFoundError path), w')
    | Some bytes => (parse_csv bytes, w')
    end.

(** [df.to_csv(path, index=False)]: overwrites. *)
Definition to_csv (d : DataFrame) (path : string) : M unit :=
  λ w, (Ok (), World (<[path := format_csv d]> (fs w)) (trace w ++ [EvWrite path])).

(** [plt.savefig(path)] of the current figure: overwrites. *)
Definition savefig (fig : figure) (path : string) : M unit :=
  λ w, (Ok (), World (<[path := render_png fig]> (fs w)) (trace w ++ [EvWrite path])).

End InputOutput.

(** ** [calculate_kpis.py] *)
Module calculate_kpis.
Section Script.
Context `{Backend}.

(** The script, top to bottom; the result holds the module's three
    frames when it ends. *)
Definition script : M frames :=
  income ← read_csv (path_join DATA_DIR "comcast_income_statement.csv");
  balance ← read_csv (path_join DATA_DIR "comcast_balance_sheet.csv");
  let balance :=
    pd.rename [("TotalCurrentAssets", "CurrentAssets");
               ("TotalCurrentLiabilities", "CurrentLiabilities")] balance in
  df ← lift (pd.merge income balance "Year");
  df ← lift (set_ratio df "OperatingMargin" "OperatingIncome" "Revenue");
  df ← lift (set_ratio df "NetMargin" "NetIncome" "Revenue");
  df ← lift (set_ratio df "ROA" "NetIncome" "TotalAssets");
  df ← lift (set_ratio df "ROE" "NetIncome" "TotalEquity");
  df ← lift (set_ratio df "CurrentRatio" "CurrentAssets" "CurrentLiabilities");
  df ← lift (set_diff_ratio df "QuickRatio" "CurrentAssets" "Inventory" "CurrentLiabilities");
  df ← lift (set_ratio df "DebtToEquity" "TotalLiabilities" "TotalEquity");
  df ← lift (set_ratio df "InterestCoverage" "OperatingIncome" "InterestExpense");
  df ← lift (set_ratio df "AssetTurnover" "Revenue" "TotalAssets");
  df ← lift (set_ratio df "ReceivablesTurnover" "Revenue" "AccountsReceivable");
  _ ← to_csv df (path_join OUTPUT_DIR "kpi_table.csv");
  view ← lift (pd.getitem_list df ["Year"; "OperatingMargin"; "NetMargin"; "ROA"; "ROE"]);
  _ ← print view;
  mret (Frames income balance df).

End Script.
End calculate_kpis.

(** ** [visualize_trends.py] *)
Module visualize_trends.
Section Script.
Context `{Backend}.

(** The body of [build_kpi_table]; the result holds the function's
    three local frames at its [return]. *)
Definition build_kpi_table_locals : M frames :=
  let income_path := path_join DATA_DIR "comcast_income_statement.csv" in
  let balance_path := path_join DATA_DIR "comcast_balance_sheet.csv" in
  income ← read_csv income_path;
  balance ← read_csv balance_path;
  let balance :=
    pd.rename [("TotalCurrentAssets", "CurrentAssets");
               ("TotalCurrentLiabilities", "CurrentLiabilities")] balance in
  df ← lift (pd.merge income balance "Year");
  df ← lift (set_ratio df "OperatingMargin" "OperatingIncome" "Revenue");
  df ← lift (set_ratio df "NetMargin" "NetIncome" "Revenue");
  df ← lift (set_ratio df "ROA" "NetIncome" "TotalAssets");
  df ← lift (set_ratio df "ROE" "NetIncome" "TotalEquity");
  df ← lift (set_ratio df "CurrentRatio" "CurrentAssets" "CurrentLiabilities");
  df ← lift (set_diff_ratio df "QuickRatio" "CurrentAssets" "Inventory" "CurrentLiabilities");
  df ← lift (set_ratio df "DebtToEquity" "TotalLiabilities" "TotalEquity");
  df ← lift (set_ratio df "InterestCoverage" "OperatingIncome" "InterestExpense");
  df ← lift (set_ratio df "AssetTurnover" "Revenue" "TotalAssets");
  df ← lift (set_ratio df "ReceivablesTurnover" "Revenue" "AccountsReceivable");
  let kpi_path := path_join OUTPUT_DIR "kpi_table.csv" in
  _ ← to_csv df kpi_path;
  mret (Frames income balance df).

(** [build_kpi_table()]: returns [df]. *)
Definition build_kpi_table : M DataFrame :=
  l ← build_kpi_table_locals;
  mret (df l).

Definition load_or_build_kpi_table : M DataFrame :=
  let kpi_path := path_join OUTPUT_DIR "kpi_table.csv" in
  found ← path_exists kpi_path;
  if found : bool then read_csv kpi_path
  else build_kpi_table.

Definition plot_trend (df : DataFrame) (kpi_column ylabel output_filename : string)
  : M unit :=
  if negb (bool_decide ("Year" ∈ labels df))
  then raise (ValueError "Expected a 'Year' column in the KPI table.")
  else if negb (bool_decide (kpi_column ∈ labels df))
  then raise (ValueError ("Expected '" +:+ kpi_column +:+ "' column in the KPI table."))
  else
    x ← lift (pd.getitem df "Year");
    y ← lift (pd.getitem df kpi_column);
    let fig :=
      {| fig_figsize := (8, 4);
         fig_x := x;
         fig_y := y;
         fig_marker := "o";
         fig_title := kpi_column +:+ " Trend Over Time";
         fig_xlabel := "Year";
         fig_ylabel := ylabel;
         fig_grid_linestyle := "--";
         fig_grid_alpha := 0.5%float |} in
    let output_path := path_join OUTPUT_DIR output_filename in
    savefig fig output_path.

(** One entry of the [charts] list of [generate_trend_charts]. *)
Record chart := Chart {
  chart_column : string;
  chart_ylabel : string;
  chart_filename : string
}.

Definition charts : list chart :=
  [ Chart "OperatingMargin" "Operating Margin" "operating_margin_trend.png";
    Chart "NetMargin" "Net Margin" "net_margin_trend.png";
    Chart "ROE" "Return on Equity" "roe_trend.png";
    Chart "DebtToEquity" "Debt-to-Equity" "debt_to_equity_trend.png" ].

(** [for x in xs: body(x)] *)
Fixpoint for_each {A} (xs : list A) (body : A → M unit) : M unit :=
  match xs with
  | [] => mret ()
  | x :: xs => _ ← body x; for_each xs body
  end.

Definition generate_trend_charts (df : DataFrame) : M unit :=
  for_each charts (λ chart,
    plot_trend df (chart_column chart) (chart_ylabel chart) (chart_filename chart)).

(** The [__main__] block. *)
Definition main : M unit :=
  kpi_df ← load_or_build_kpi_table;
  _ ← generate_trend_charts kpi_df;
  view ← lift (pd.getitem_list kpi_df
                 ["Year"; "OperatingMargin"; "NetMargin"; "ROA"; "ROE"; "DebtToEquity"]);
  print view.

End Script.
End visualize_trends.

(** ** Vocabulary of the statements *)

Definition income_path : string := path_join DATA_DIR "comcast_income_statement.csv".
Definition balance_path : string := path_join DATA_DIR "comcast_balance_sheet.csv".
Definition kpi_path : string := path_join OUTPUT_DIR "kpi_table.csv".

(** The mapping both scripts pass to [rename]. *)
Definition renaming : list (string * string) :=
  [("TotalCurrentAssets", "CurrentAssets");
   ("TotalCurrentLiabilities", "CurrentLiabilities")].

(** The ten derived columns, in the order of their assignments. *)
Definition derived_columns : list string :=
  ["OperatingMargin"; "NetMargin"; "ROA"; "ROE"; "CurrentRatio"; "QuickRatio";
   "DebtToEquity"; "InterestCoverage"; "AssetTurnover"; "ReceivablesTurnover"].

(** The columns of the two source files (section 6 of the spec). *)
Definition income_columns : list string :=
  ["Year"; "Revenue"; "OperatingIncome"; "NetIncome"; "InterestExpense"].
Definition balance_columns : list string :=
  ["Year"; "TotalAssets"; "TotalEquity"; "TotalLiabilities"; "Inventory";
   "AccountsReceivable"; "TotalCurrentAssets"; "TotalCurrentLiabilities"].

(** The ten assignments as one function of the merged frame. *)
Definition derive (m : DataFrame) : result DataFrame :=
  d ← set_ratio m "OperatingMargin" "OperatingIncome" "Revenue";
  d ← set_ratio d "NetMargin" "NetIncome" "Revenue";
  d ← set_ratio d "ROA" "NetIncome" "TotalAssets";
  d ← set_ratio d "ROE" "NetIncome" "TotalEquity";
  d ← set_ratio d "CurrentRatio" "CurrentAssets" "CurrentLiabilities";
  d ← set_diff_ratio d "QuickRatio" "CurrentAssets" "Inventory" "CurrentLiabilities";
  d ← set_ratio d "DebtToEquity" "TotalLiabilities" "TotalEquity";
  d ← set_ratio d "InterestCoverage" "OperatingIncome" "InterestExpense";
  d ← set_ratio d "AssetTurnover" "Revenue" "TotalAssets";
  set_ratio d "ReceivablesTurnover" "Revenue" "AccountsReceivable".

(** Rename, join and derive, as one function of the two frames read. *)
Definition kpi_frame (income balance : DataFrame) : result DataFrame :=
  m ← pd.merge income (pd.rename renaming balance) "Year";
  derive m.

(** The ratio of two columns in row [i] of a frame. *)
Definition ratio_at (d : DataFrame) (num den : string) (i : nat) : option cell :=
  a ← value d num i;
  b ← value d den i;
  Some (cell_truediv a b).

(** The quick ratio in row [i] of a frame. *)
Definition diff_ratio_at (d : DataFrame) (a b den : string) (i : nat) : option cell :=
  x ← value d a i;
  y ← value d b i;
  z ← value d den i;
  Some (cell_truediv (cell_sub x y) z).

(** The two source files hold (the bytes of) [income] and [balance]. *)
Definition loaded `{Backend} (w : world) (income balance : DataFrame) : Prop :=
  (read_csv income_path w).1 = Ok income ∧ (read_csv balance_path w).1 = Ok balance.

(** Inputs with the schemas of the spec: unique labels, the documented
    columns present, no label shared but [Year], and no column already
    carrying one of the two new names. *)
Definition valid_inputs (income balance : DataFrame) : Prop :=
  NoDup (labels income) ∧ NoDup (labels balance) ∧
  income_columns ⊆ labels income ∧ balance_columns ⊆ labels balance ∧
  Forall (λ l, l ∈ labels (pd.rename renaming balance) → l = "Year") (labels income) ∧
  ("CurrentAssets" ∉ labels balance) ∧ ("CurrentLiabilities" ∉ labels balance).

#[global] Instance valid_inputs_dec income balance : Decision (valid_inputs income balance).
Proof. unfold valid_inputs. apply _. Defined.

(** The years of a frame whose [Year] column is an integer column. *)
Definition int_years (d : DataFrame) (ys : list Z) : Prop :=
  select d "Year" = [IntCol ys].

(** The errors [plot_trend] raises for a missing column: each message
    carries the label of the column it did not find. *)
Definition missing_year : exn :=
  ValueError "Expected a 'Year' column in the KPI table.".
Definition missing_column (column : string) : exn :=
  ValueError ("Expected '" +:+ column +:+ "' column in the KPI table.").

(** The eleven source columns the ten assignments read. *)
Record sources := Sources {
  OperatingIncome : column;
  Revenue : column;
  NetIncome : column;
  TotalAssets : column;
  TotalEquity : column;
  CurrentAssets : column;
  CurrentLiabilities : column;
  Inventory : column;
  TotalLiabilities : column;
  InterestExpense : column;
  AccountsReceivable : column
}.

(** Frame [m] carries each source label exactly once, with these columns. *)
Definition sources_of (m : DataFrame) (s : sources) : Prop :=
  select m "OperatingIncome" = [OperatingIncome s] ∧
  select m "Revenue" = [Revenue s] ∧
  select m "NetIncome" = [NetIncome s] ∧
  select m "TotalAssets" = [TotalAssets s] ∧
  select m "TotalEquity" = [TotalEquity s] ∧
  select m "CurrentAssets" = [CurrentAssets s] ∧
  select m "CurrentLiabilities" = [CurrentLiabilities s] ∧
  select m "Inventory" = [Inventory s] ∧
  select m "TotalLiabilities" = [TotalLiabilities s] ∧
  select m "InterestExpense" = [InterestExpense s] ∧
  select m "AccountsReceivable" = [AccountsReceivable s].

(** Frame [m] after the ten assignments, given its source columns. *)
Definition with_kpis (m : DataFrame) (s : sources) : DataFrame :=
  let d := pd.setitem m "OperatingMargin" (pd.col_truediv (OperatingIncome s) (Revenue s)) in
  let d := pd.setitem d "NetMargin" (pd.col_truediv (NetIncome s) (Revenue s)) in
  let d := pd.setitem d "ROA" (pd.col_truediv (NetIncome s) (TotalAssets s)) in
  let d := pd.setitem d "ROE" (pd.col_truediv (NetIncome s) (TotalEquity s)) in
  let d := pd.setitem d "CurrentRatio"
             (pd.col_truediv (CurrentAssets s) (CurrentLiabilities s)) in
  let d := pd.setitem d "QuickRatio"
             (pd.col_truediv (pd.col_sub (CurrentAssets s) (Inventory s))
                (CurrentLiabilities s)) in
  let d := pd.setitem d "DebtToEquity" (pd.col_truediv (TotalLiabilities s) (TotalEquity s)) in
  let d := pd.setitem d "InterestCoverage"
             (pd.col_truediv (OperatingIncome s) (InterestExpense s)) in
  let d := pd.setitem d "AssetTurnover" (pd.col_truediv (Revenue s) (TotalAssets s)) in
  pd.setitem d "ReceivablesTurnover" (pd.col_truediv (Revenue s) (AccountsReceivable s)).

(** The ten derived columns with their labels, in assignment order. *)
Definition kpi_columns (s : sources) : DataFrame :=
  [("OperatingMargin", pd.col_truediv (OperatingIncome s) (Revenue s));
   ("NetMargin", pd.col_truediv (NetIncome s) (Revenue s));
   ("ROA", pd.col_truediv (NetIncome s) (TotalAssets s));
   ("ROE", pd.col_truediv (NetIncome s) (TotalEquity s));
   ("CurrentRatio", pd.col_truediv (CurrentAssets s) (CurrentLiabilities s));
   ("QuickRatio",
    pd.col_truediv (pd.col_sub (CurrentAssets s) (Inventory s)) (CurrentLiabilities s));
   ("DebtToEquity", pd.col_truediv (TotalLiabilities s) (TotalEquity s));
   ("InterestCoverage", pd.col_truediv (OperatingIncome s) (InterestExpense s));
   ("AssetTurnover", pd.col_truediv (Revenue s) (TotalAssets s));
   ("ReceivablesTurnover", pd.col_truediv (Revenue s) (AccountsReceivable s))].

(** [s] ends with [suffix]. *)
Fixpoint ends_with (suffix s : string) : bool :=
  String.eqb s suffix ||
  match s with
  | EmptyString => false
  | String _ s' => ends_with suffix s'
  end.

(** What [pd.read_csv(path)] returns in world [w]. *)
Definition read_result `{Backend} (w : world) (path : string) : result DataFrame :=
  (read_csv path w).1.

(** World [w] after the given further input/output operations. *)
Definition logged (w : world) (events : list event) : world :=
  World (fs w) (trace w ++ events).

(** Row [i] of frame [d] satisfies the ten formulas of the spec. *)
Definition row_formulas (d : DataFrame) (i : nat) : Prop :=
  value d "OperatingMargin" i = ratio_at d "OperatingIncome" "Revenue" i ∧
  value d "NetMargin" i = ratio_at d "NetIncome" "Revenue" i ∧
  value d "ROA" i = ratio_at d "NetIncome" "TotalAssets" i ∧
  value d "ROE" i = ratio_at d "NetIncome" "TotalEquity" i ∧
  value d "CurrentRatio" i = ratio_at d "CurrentAssets" "CurrentLiabilities" i ∧
  value d "QuickRatio" i
    = diff_ratio_at d "CurrentAssets" "Inventory" "CurrentLiabilities" i ∧
  value d "DebtToEquity" i = ratio_at d "TotalLiabilities" "TotalEquity" i ∧
  value d "InterestCoverage" i = ratio_at d "OperatingIncome" "InterestExpense" i ∧
  value d "AssetTurnover" i = ratio_at d "Revenue" "TotalAssets" i ∧
  value d "ReceivablesTurnover" i = ratio_at d "Revenue" "AccountsReceivable" i.

(** The nine plain ratios: derived column, numerator, denominator. *)
Definition ratio_table : list (string * string * string) :=
  [("OperatingMargin", "OperatingIncome", "Revenue");
   ("NetMargin", "NetIncome", "Revenue");
   ("ROA", "NetIncome", "TotalAssets");
   ("ROE", "NetIncome", "TotalEquity");
   ("CurrentRatio", "CurrentAssets", "CurrentLiabilities");
   ("DebtToEquity", "TotalLiabilities", "TotalEquity");
   ("InterestCoverage", "OperatingIncome", "InterestExpense");
   ("AssetTurnover", "Revenue", "TotalAssets");
   ("ReceivablesTurnover", "Revenue", "AccountsReceivable")].

(** ** Auxiliary definitions for the statements about [rename] and [merge] *)

(** The label [rename] gives to a column labelled [l]. *)
Definition renamed (l : string) : string :=
  default l (list_to_map (M := gmap string string) renaming !! l).

(** The right frame of a merge without its key column. *)
Definition without (on : string) (right : DataFrame) : DataFrame :=
  filter (λ p, p.1 ≠ on) right.

(** The non-key labels both sides of a merge carry. *)
Definition overlap (on : string) (left right : DataFrame) : list string :=
  filter (λ l, l ∈ labels (without on right)) (labels left).

(** The frame an inner join yields from the row positions [pos]. *)
Definition joined (on : string) (left right : DataFrame) (pos : list (nat * nat))
  : DataFrame :=
  ((λ p, (pd.with_suffix (overlap on left right) "_x" p.1, pd.take_rows pos.*1 p.2))
     <$> left)
  ++ ((λ p, (pd.with_suffix (overlap on left right) "_y" p.1, pd.take_rows pos.*2 p.2))
        <$> without on right).

(** Enumeration from an offset. *)
Definition enumerate_from {A} (k : nat) (l : list A) : list (nat * A) :=
  zip (seq k (length l)) l.

(** The balance rows that match year [y], from offset [k]. *)
Definition matches (y : Z) (k : nat) (zs : list Z) : list (nat * cell) :=
  filter (λ p, pd.key_eqb (I64 y) p.2 = true) (enumerate_from k (I64 <$> zs)).

(** The outcome of [build_kpi_table]'s body, by cases on what the two
    reads and the computation yield. *)
Definition build_outcome `{Backend} (w : world) : result frames * world :=
  match read_result w income_path with
  | Raise e => (Raise e, logged w [EvRead income_path])
  | Ok income =>
      match read_result w balance_path with
      | Raise e => (Raise e, logged w [EvRead income_path; EvRead balance_path])
      | Ok balance =>
          match kpi_frame income balance with
          | Raise e => (Raise e, logged w [EvRead income_path; EvRead balance_path])
          | Ok d =>
              (Ok (Frames income (pd.rename renaming balance) d),
               World (<[kpi_path := format_csv d]> (fs w))
                 (trace w ++ [EvRead income_path; EvRead balance_path; EvWrite kpi_path]))
          end
      end
  end.


(** Inputs that are as the spec describes them up to the liquidity
    ratios: unique labels, no label shared but [Year], and the columns
    the join and the profitability ratios read. *)
Definition valid_before_liquidity (income balance : DataFrame) : Prop :=
  NoDup (labels income) ∧ NoDup (labels balance) ∧
  income_columns ⊆ labels income ∧
  ["Year"; "TotalAssets"; "TotalEquity"] ⊆ labels balance ∧
  Forall (λ l, l ∈ labels (pd.rename renaming balance) → l = "Year") (labels income).

#[global] Instance valid_before_liquidity_dec income balance :
  Decision (valid_before_liquidity income balance).
Proof. unfold valid_before_liquidity. apply _. Defined.

(** ** Auxiliary definitions for the statements about the charts *)

(** Where [plot_trend] saves the chart of an entry of [charts]. *)
Definition chart_path (c : visualize_trends.chart) : string :=
  path_join OUTPUT_DIR (visualize_trends.chart_filename c).

(** The longest prefix of [cs] whose columns frame [d] carries. *)
Fixpoint charts_before_failure (d : DataFrame) (cs : list visualize_trends.chart)
  : list visualize_trends.chart :=
  match cs with
  | [] => []
  | c :: cs =>
      if bool_decide (visualize_trends.chart_column c ∈ labels d)
      then c :: charts_before_failure d cs
      else []
  end.

(** The column of the first entry of [cs] that frame [d] does not carry. *)
Fixpoint first_missing (d : DataFrame) (cs : list visualize_trends.chart) : option string :=
  match cs with
  | [] => None
  | c :: cs =>
      if bool_decide (visualize_trends.chart_column c ∈ labels d)
      then first_missing d cs
      else Some (visualize_trends.chart_column c)
  end.

(** The figure [plot_trend] draws from its arguments and the two
    selections. *)
Definition trend_figure (x y : pd.selection) (kpi_column ylabel : string) : figure :=
  {| fig_figsize := (8, 4);
     fig_x := x;
     fig_y := y;
     fig_marker := "o";
     fig_title := kpi_column +:+ " Trend Over Time";
     fig_xlabel := "Year";
     fig_ylabel := ylabel;
     fig_grid_linestyle := "--";
     fig_grid_alpha := 0.5%float |}.

(** ** Sample data

    The end-to-end scenario of the spec: income rows for 2021 to 2023
    (with [Revenue = 0] in 2022), balance rows for 2021 and 2022 only. *)
Module sample.

Definition income_frame : DataFrame :=
  [("Year", IntCol [2021; 2022; 2023]);
   ("Revenue", IntCol [100; 0; 300]);
   ("OperatingIncome", IntCol [20; 5; 60]);
   ("NetIncome", IntCol [10; 0; 30]);
   ("InterestExpense", IntCol [4; 5; 6])].

Definition balance_frame : DataFrame :=
  [("Year", IntCol [2021; 2022]);
   ("TotalAssets", IntCol [200; 220]);
   ("TotalEquity", IntCol [80; 90]);
   ("TotalLiabilities", IntCol [120; 130]);
   ("Inventory", IntCol [5; 6]);
   ("AccountsReceivable", IntCol [10; 11]);
   ("TotalCurrentAssets", IntCol [50; 55]);
   ("TotalCurrentLiabilities", IntCol [25; 30])].

(** A balance sheet that lacks [TotalCurrentAssets]. *)
Definition balance_without_current_assets : DataFrame :=
  filter (λ p, p.1 ≠ "TotalCurrentAssets") balance_frame.

(** A KPI table left by an earlier run (stale, and without [ROE]). *)
Definition cached_frame : DataFrame :=
  [("Year", IntCol [2019; 2020]);
   ("OperatingMargin", FloatCol [0.25; 0.5]%float);
   ("NetMargin", FloatCol [0.125; 0.25]%float)].

Definition income_csv : string := "income statement 2021-2023".
Definition balance_csv : string := "balance sheet 2021-2022".
Definition balance_without_current_assets_csv : string :=
  "balance sheet 2021-2022 without TotalCurrentAssets".
Definition cached_csv : string := "kpi table 2019-2020".

(** A stand-in backend: it parses the four sample files and prints a
    frame as its header line. *)
Definition backend : Backend := {|
  parse_csv bytes :=
    if bool_decide (bytes = income_csv) then Ok income_frame
    else if bool_decide (bytes = balance_csv) then Ok balance_frame
    else if bool_decide (bytes = balance_without_current_assets_csv)
    then Ok balance_without_current_assets
    else if bool_decide (bytes = cached_csv) then Ok cached_frame
    else Raise (OtherError "ParserError");
  format_csv d := String.concat "," (labels d);
  render_png fig := fig_title fig
|}.

(** The two source files, no KPI table yet. *)
Definition fresh_world : world :=
  World (<[income_path := income_csv]> (<[balance_path := balance_csv]> ∅)) [].

(** The same with a KPI table left by an earlier run. *)
Definition cached_world : world :=
  World (<[kpi_path := cached_csv]> (fs fresh_world)) [].

(** A balance sheet file that lacks [TotalCurrentAssets]. *)
Definition incomplete_world : world :=
  World (<[income_path := income_csv]>
           (<[balance_path := balance_without_current_assets_csv]> ∅)) [].

(** The KPI table the sample files yield. *)
Definition kpi_table : DataFrame := Eval vm_compute in
    match (@visualize_trends.build_kpi_table backend fresh_world).1 with
    | Ok d => d
    | Raise _ => []
    end.

End sample.

(** ** Auxiliary definitions for the further properties *)

(** The number of rows of a column. *)
Definition nrows (c : column) : nat := length (cells c).

(** Every column of the frame has [n] rows, as in every pandas frame. *)
Definition rectangular (d : DataFrame) (n : nat) : Prop :=
  Forall (λ p, nrows p.2 = n) d.

#[global] Instance rectangular_dec d n : Decision (rectangular d n).
Proof. unfold rectangular. apply _. Defined.


(** The columns the [__main__] block of [visualize_trends.py] prints. *)
Definition main_view_columns : list string :=
  ["Year"; "OperatingMargin"; "NetMargin"; "ROA"; "ROE"; "DebtToEquity"].

(** The columns [calculate_kpis.py] prints. *)
Definition script_view_columns : list string :=
  ["Year"; "OperatingMargin"; "NetMargin"; "ROA"; "ROE"].

(** A computation changes no file outside [paths], whatever its outcome. *)
Definition touches_only {A} (m : M A) (paths : list string) : Prop :=
  ∀ w p, p ∉ paths → fs (m w).2 !! p = fs w !! p.

(** The files the charts are saved to. *)
Definition chart_paths : list string := chart_path <$> visualize_trends.charts.

(** The number of balance rows of year [y]. *)
Definition occurrences (y : Z) (zs : list Z) : nat := length (filter (λ z, y = z) zs).

(** What the [__main__] block of [visualize_trends.py] does with a KPI
    table [d] it has obtained: the charts written before a failure, and
    its result. *)
Definition main_charts (d : DataFrame) : list event :=
  (EvWrite ∘ chart_path) <$> charts_before_failure d visualize_trends.charts.

Definition main_result (d : DataFrame) : result unit :=
  match first_missing d visualize_trends.charts with
  | Some column => Raise (missing_column column)
  | None =>
      match pd.getitem_list d main_view_columns with
      | Ok _ => Ok ()
      | Raise e => Raise e
      end
  end.

Definition main_print (d : DataFrame) : list event :=
  match first_missing d visualize_trends.charts, pd.getitem_list d main_view_columns with
  | None, Ok view => [EvPrint view]
  | _, _ => []
  end.

(** A missing cell: pandas stores it as the float NaN. *)
Definition is_missing (c : cell) : bool :=
  match c with
  | I64 _ => false
  | F64 f => PrimFloat.is_nan f
  end.

(** ** Further sample data *)
Module more_samples.

(** A backend that parses the listed files and prints a frame as its
    header line. *)
Definition table_backend (files : list (string * DataFrame)) : Backend := {|
  parse_csv bytes :=
    match list_to_map (M := gmap string DataFrame) files !! bytes with
    | Some d => Ok d
    | None => Raise (OtherError "ParserError")
    end;
  format_csv d := String.concat "," (labels d);
  render_png fig := fig_title fig
|}.

(** A world whose two source files hold the bytes ["income"] and
    ["balance"]. *)
Definition source_world : world :=
  World (<[income_path := "income"]> (<[balance_path := "balance"]> ∅)) [].

(** The backend that reads [income] and [balance] from these files. *)
Definition backend_of (income balance : DataFrame) : Backend :=
  table_backend [("income", income); ("balance", balance)].

(** A balance sheet for years the income statement does not have. *)
Definition later_balance : DataFrame :=
  [("Year", IntCol [2030; 2031]);
   ("TotalAssets", IntCol [200; 220]);
   ("TotalEquity", IntCol [80; 90]);
   ("TotalLiabilities", IntCol [120; 130]);
   ("Inventory", IntCol [5; 6]);
   ("AccountsReceivable", IntCol [10; 11]);
   ("TotalCurrentAssets", IntCol [50; 55]);
   ("TotalCurrentLiabilities", IntCol [25; 30])].

(** A balance sheet with two rows for 2021. *)
Definition restated_balance : DataFrame :=
  [("Year", IntCol [2021; 2022; 2021]);
   ("TotalAssets", IntCol [200; 220; 210]);
   ("TotalEquity", IntCol [80; 90; 84]);
   ("TotalLiabilities", IntCol [120; 130; 126]);
   ("Inventory", IntCol [5; 6; 5]);
   ("AccountsReceivable", IntCol [10; 11; 10]);
   ("TotalCurrentAssets", IntCol [50; 55; 52]);
   ("TotalCurrentLiabilities", IntCol [25; 30; 26])].


(** A balance sheet without a [Year] column. *)
Definition balance_without_year : DataFrame :=
  filter (λ p, p.1 ≠ "Year") sample.balance_frame.

(** A KPI table left by an earlier run that has the four chart columns
    but no [ROA]. *)
Definition cached_without_roa : DataFrame :=
  [("Year", IntCol [2019; 2020]);
   ("OperatingMargin", FloatCol [0.25; 0.5]%float);
   ("NetMargin", FloatCol [0.125; 0.25]%float);
   ("ROE", FloatCol [0.5; 0.75]%float);
   ("DebtToEquity", FloatCol [1.5; 1.25]%float)].

(** A world that holds only that KPI table: the source files are gone. *)
Definition cache_only_world : world :=
  World (<[kpi_path := "cache"]> ∅) [].

Definition cache_backend : Backend := table_backend [("cache", cached_without_roa)].

(** The source files of a company whose balance sheet already uses the
    short names [CurrentAssets] and [CurrentLiabilities]. *)
Definition short_names_world : world :=
  World (<[income_path := "income"]> (<[balance_path := "short"]> ∅)) [].

Definition short_names_backend : Backend :=
  table_backend [("income", sample.income_frame); ("balance", sample.balance_frame);
                 ("short", pd.rename renaming sample.balance_frame)].

(** An income statement whose net income of 2022 is missing. *)
Definition income_with_gap : DataFrame :=
  [("Year", IntCol [2021; 2022; 2023]);
   ("Revenue", IntCol [100; 0; 300]);
   ("OperatingIncome", IntCol [20; 5; 60]);
   ("NetIncome", FloatCol [10; nan; 30]%float);
   ("InterestExpense", IntCol [4; 5; 6])].

(** A backend that also reads back the KPI table of the sample files
    from the header line it prints for it. *)
Definition round_trip_backend : Backend :=
  table_backend [("income", sample.income_frame); ("balance", sample.balance_frame);
                 (String.concat "," (labels sample.kpi_table), sample.kpi_table)].

End more_samples.

(** * Properties *)

(** ** Frames: selection and assignment *)

Section Frames.
Implicit Types (d : DataFrame) (n t : string) (c : column).

Lemma labels_cons t c d : labels ((t, c) :: d) = t :: labels d.
Proof. done. Qed.

Lemma labels_app d1 d2 : labels (d1 ++ d2) = labels d1 ++ labels d2.
Proof. unfold labels. by rewrite fmap_app. Qed.

Lemma select_nil n : select [] n = [].
Proof. done. Qed.

Lemma select_app d1 d2 n : select (d1 ++ d2) n = select d1 n ++ select d2 n.
Proof. unfold select. by rewrite filter_app, fmap_app. Qed.

Lemma select_cons_eq d n c : select ((n, c) :: d) n = c :: select d n.
Proof. unfold select. by rewrite filter_cons_True. Qed.

Lemma select_cons_ne d n t c : t ≠ n → select ((t, c) :: d) n = select d n.
Proof. intros. unfold select. by rewrite filter_cons_False. Qed.

Lemma select_absent d n : n ∉ labels d → select d n = [].
Proof.
  induction d as [|[t c] d IH]; [done|].
  rewrite labels_cons, not_elem_of_cons. intros [? ?].
  rewrite select_cons_ne by done. by apply IH.
Qed.

Lemma select_present d n : n ∈ labels d → select d n ≠ [].
Proof.
  induction d as [|[t c] d IH].
  - by intros ?%elem_of_nil.
  - rewrite labels_cons. destruct (decide (t = n)) as [->|].
    + by rewrite select_cons_eq.
    + rewrite select_cons_ne by done. rewrite elem_of_cons.
      intros [?|?]; [congruence|]. by apply IH.
Qed.

Lemma select_nil_iff d n : select d n = [] ↔ n ∉ labels d.
Proof.
  split; [|apply select_absent].
  intros Hs Hin. by apply select_present in Hin.
Qed.

Lemma select_unique d n :
  NoDup (labels d) → n ∈ labels d → ∃ c, select d n = [c].
Proof.
  induction d as [|[t c] d IH].
  - by intros _ ?%elem_of_nil.
  - rewrite labels_cons, NoDup_cons. intros [Hnot Hnd].
    destruct (decide (t = n)) as [->|].
    + intros _. exists c. rewrite select_cons_eq. by rewrite select_absent.
    + rewrite select_cons_ne by done. rewrite elem_of_cons.
      intros [?|?]; [congruence|]. by apply IH.
Qed.

Lemma select_singleton_in d n c : select d n = [c] → n ∈ labels d.
Proof.
  intros Hs. destruct (decide (n ∈ labels d)) as [|Hn]; [done|].
  apply select_absent in Hn. congruence.
Qed.

(** Selection through a relabelling that neither creates nor destroys
    the label looked for. *)
Lemma select_relabel (f : string → string) (g : column → column) d n :
  (∀ l, l ∈ labels d → f l = n ↔ l = n) →
  select ((λ p, (f p.1, g p.2)) <$> d) n = g <$> select d n.
Proof.
  induction d as [|[t c] d IH]; [done|]. intros Hf.
  rewrite fmap_cons. cbn [fst snd].
  assert (∀ l, l ∈ labels d → f l = n ↔ l = n) as Hd.
  { intros l Hl. apply Hf. rewrite labels_cons. by right. }
  destruct (decide (t = n)) as [->|Hne].
  - assert (f n = n) as -> by (apply Hf; [rewrite labels_cons; by left|done]).
    rewrite !select_cons_eq, fmap_cons. f_equal. by apply IH.
  - rewrite !select_cons_ne; [by apply IH|done|].
    intros Hfn. apply Hne, Hf; [rewrite labels_cons; by left|done].
Qed.

Lemma setitem_fresh d t c : t ∉ labels d → pd.setitem d t c = d ++ [(t, c)].
Proof. intros. unfold pd.setitem. by rewrite bool_decide_eq_false_2. Qed.

Lemma labels_setitem_fresh d t c :
  t ∉ labels d → labels (pd.setitem d t c) = labels d ++ [t].
Proof.
  intros. unfold pd.setitem. rewrite bool_decide_eq_false_2 by done.
  by rewrite labels_app.
Qed.

Lemma labels_setitem_old d t c :
  t ∈ labels d → labels (pd.setitem d t c) = labels d.
Proof.
  intros. unfold pd.setitem. rewrite bool_decide_eq_true_2 by done.
  unfold labels. rewrite <- list_fmap_compose. apply list_fmap_ext.
  intros i [l x] _; cbn. by case_bool_decide.
Qed.

Lemma elem_of_labels_setitem d t c n :
  n ∈ labels (pd.setitem d t c) ↔ n = t ∨ n ∈ labels d.
Proof.
  destruct (decide (t ∈ labels d)).
  - rewrite labels_setitem_old by done. naive_solver.
  - rewrite labels_setitem_fresh by done. set_solver.
Qed.

Lemma select_setitem_ne d t c n :
  n ≠ t → select (pd.setitem d t c) n = select d n.
Proof.
  intros Hne. unfold pd.setitem. case_bool_decide.
  - clear H. induction d as [|[l x] d IH]; [done|].
    rewrite fmap_cons. cbn [fst]. case_bool_decide; simplify_eq.
    + rewrite !select_cons_ne by done. apply IH.
    + destruct (decide (l = n)) as [->|].
      * rewrite !select_cons_eq. by f_equal.
      * by rewrite !select_cons_ne.
  - rewrite select_app. rewrite (select_cons_ne [] n t c) by done.
    by rewrite app_nil_r.
Qed.

Lemma select_setitem_fresh d t c :
  t ∉ labels d → select (pd.setitem d t c) t = [c].
Proof.
  intros Hn. unfold pd.setitem. rewrite bool_decide_eq_false_2 by done.
  rewrite select_app, select_absent by done. by rewrite select_cons_eq.
Qed.

(** ** Cells of derived columns *)

Lemma to_floats_lookup c i : to_floats c !! i = cell_to_float <$> cells c !! i.
Proof. destruct c; cbn; rewrite !list_lookup_fmap; by destruct (xs !! i). Qed.

Lemma cells_col_truediv x y i :
  cells (pd.col_truediv x y) !! i =
  a ← cells x !! i; b ← cells y !! i; Some (cell_truediv a b).
Proof.
  unfold pd.col_truediv. cbn [cells].
  rewrite list_lookup_fmap, lookup_zip_with, !to_floats_lookup.
  by destruct (cells x !! i), (cells y !! i).
Qed.

Lemma cells_col_sub x y i :
  cells (pd.col_sub x y) !! i =
  a ← cells x !! i; b ← cells y !! i; Some (cell_sub a b).
Proof.
  destruct x as [xs|xs], y as [ys|ys]; cbn [pd.col_sub cells to_floats];
    rewrite !list_lookup_fmap, lookup_zip_with, ?list_lookup_fmap;
    by destruct (xs !! i), (ys !! i).
Qed.

Lemma value_unique d n c i : select d n = [c] → value d n i = cells c !! i.
Proof. unfold value. by intros ->. Qed.

End Frames.

Section FramesMore.
Implicit Types (d : DataFrame) (n t : string) (c : column).

Lemma select_length_NoDup d n : NoDup (labels d) → (length (select d n) ≤ 1)%nat.
Proof.
  intros Hnd. destruct (decide (n ∈ labels d)) as [Hin|Hout].
  - destruct (select_unique d n Hnd Hin) as [c ->]. done.
  - rewrite select_absent by done. cbn. lia.
Qed.

Lemma select_setitem_same d t c :
  (length (select d t) ≤ 1)%nat → select (pd.setitem d t c) t = [c].
Proof.
  intros Hlen. destruct (decide (t ∈ labels d)) as [Hin|Hout];
    [|by apply select_setitem_fresh].
  unfold pd.setitem. rewrite bool_decide_eq_true_2 by done.
  assert (select ((λ p, if bool_decide (p.1 = t) then (t, c) else p) <$> d) t
          = (λ _, c) <$> select d t) as ->.
  { clear. induction d as [|[l x] d IH]; [done|].
    rewrite fmap_cons. cbn [fst]. case_bool_decide as Hl.
    - subst l. rewrite !select_cons_eq, fmap_cons. by f_equal.
    - by rewrite !select_cons_ne. }
  apply select_present in Hin.
  destruct (select d t) as [|x [|y l]]; [done|done|cbn in Hlen; lia].
Qed.
End FramesMore.

(** ** The ten assignments *)

Section Derive.
Implicit Types (d m : DataFrame) (n t : string) (c : column).

Lemma getitem_Series d n c : pd.getitem d n = Ok (pd.Series c) ↔ select d n = [c].
Proof.
  unfold pd.getitem. destruct (select d n) as [|x [|y l]]; naive_solver.
Qed.

Lemma getitem_Raise d n e :
  pd.getitem d n = Raise e ↔ select d n = [] ∧ e = KeyError n.
Proof.
  unfold pd.getitem. destruct (select d n) as [|x [|y l]]; naive_solver.
Qed.

Lemma set_ratio_Ok d t n1 n2 d' :
  set_ratio d t n1 n2 = Ok d' ↔
  ∃ x y, select d n1 = [x] ∧ select d n2 = [y] ∧ d' = pd.setitem d t (pd.col_truediv x y).
Proof.
  unfold set_ratio, pd.getitem.
  destruct (select d n1) as [|x [|? ?]], (select d n2) as [|y [|? ?]]; cbn;
    naive_solver.
Qed.

Lemma set_diff_ratio_Ok d t n1 n2 n3 d' :
  set_diff_ratio d t n1 n2 n3 = Ok d' ↔
  ∃ x y z, select d n1 = [x] ∧ select d n2 = [y] ∧ select d n3 = [z] ∧
           d' = pd.setitem d t (pd.col_truediv (pd.col_sub x y) z).
Proof.
  unfold set_diff_ratio, pd.getitem.
  destruct (select d n1) as [|x [|? ?]], (select d n2) as [|y [|? ?]],
    (select d n3) as [|z [|? ?]]; cbn; naive_solver.
Qed.

Lemma bind_Ok {A B} (r : result A) (f : A → result B) b :
  r ≫= f = Ok b ↔ ∃ a, r = Ok a ∧ f a = Ok b.
Proof. destruct r; cbn; naive_solver. Qed.

(** Rewrites selections of a source label through the assignments made
    so far. *)
Ltac through_assignments :=
  repeat (rewrite select_setitem_ne in * by discriminate).

Ltac same_selection :=
  repeat match goal with
         | H1 : select ?d ?n = [_], H2 : select ?d ?n = [_] |- _ =>
             rewrite H1 in H2; injection H2 as <-
         end.

Lemma derive_Ok m d :
  derive m = Ok d ↔ ∃ s, sources_of m s ∧ d = with_kpis m s.
Proof.
  unfold derive, sources_of, with_kpis. split.
  - intros Hd.
    repeat (apply bind_Ok in Hd as (? & [(? & ? & ? & ? & ->)%set_ratio_Ok
                                        |(? & ? & ? & ? & ? & ? & ->)%set_diff_ratio_Ok] & Hd)
            || (apply bind_Ok in Hd as (? & Hs & Hd);
                first [apply set_ratio_Ok in Hs as (? & ? & ? & ? & ->)
                      |apply set_diff_ratio_Ok in Hs as (? & ? & ? & ? & ? & ? & ->)])).
    apply set_ratio_Ok in Hd as (? & ? & ? & ? & ->).
    through_assignments. same_selection.
    eexists (Sources _ _ _ _ _ _ _ _ _ _ _). cbn. by repeat split.
  - intros ([] & Hs & ->). cbn in Hs |- *.
    destruct Hs as (?&?&?&?&?&?&?&?&?&?&?).
    repeat (apply bind_Ok; eexists; split;
            [first [apply set_ratio_Ok | apply set_diff_ratio_Ok];
             through_assignments; eauto 10 |]).
    apply set_ratio_Ok. through_assignments. eauto 10.
Qed.
End Derive.

Section WithKpis.
Implicit Types (d m : DataFrame) (n t : string) (c : column) (s : sources).

Lemma select_with_kpis_source m s n :
  n ∉ derived_columns → select (with_kpis m s) n = select m n.
Proof.
  unfold derived_columns. rewrite !not_elem_of_cons.
  intros (?&?&?&?&?&?&?&?&?&?&_). unfold with_kpis.
  by rewrite !select_setitem_ne.
Qed.

Lemma labels_with_kpis_mono m s n : n ∈ labels m → n ∈ labels (with_kpis m s).
Proof. intros. unfold with_kpis. rewrite !elem_of_labels_setitem. tauto. Qed.

Lemma labels_with_kpis_derived m s n :
  n ∈ derived_columns → n ∈ labels (with_kpis m s).
Proof.
  unfold derived_columns. rewrite !elem_of_cons, elem_of_nil.
  unfold with_kpis. rewrite !elem_of_labels_setitem. tauto.
Qed.

Lemma labels_with_kpis_fresh m s :
  Forall (λ t, t ∉ labels m) derived_columns →
  labels (with_kpis m s) = labels m ++ derived_columns.
Proof.
  unfold derived_columns. rewrite !Forall_cons.
  intros (?&?&?&?&?&?&?&?&?&?&_). unfold with_kpis.
  repeat (rewrite labels_setitem_fresh;
          [|rewrite ?elem_of_app, ?elem_of_labels_setitem, ?elem_of_cons, ?elem_of_nil;
            intros ?; intuition discriminate]).
  by rewrite <- !app_assoc.
Qed.

Lemma with_kpis_fresh m s :
  Forall (λ t, t ∉ labels m) derived_columns →
  with_kpis m s = m ++ kpi_columns s.
Proof.
  unfold derived_columns. rewrite !Forall_cons.
  intros (?&?&?&?&?&?&?&?&?&?&_). unfold with_kpis, kpi_columns.
  repeat (rewrite setitem_fresh;
          [|rewrite ?elem_of_app, ?elem_of_labels_setitem, ?elem_of_cons, ?elem_of_nil;
            intros ?; intuition discriminate]).
  by rewrite <- !app_assoc.
Qed.
End WithKpis.

(** ** Rename and merge *)

Section Merge.
Implicit Types (d m left right : DataFrame) (n t on : string) (c : column).

Lemma ends_with_app suffix l : ends_with suffix (l +:+ suffix) = true.
Proof.
  induction l as [|a l IH].
  - change (ends_with suffix suffix = true).
    destruct suffix; cbn [ends_with]; by rewrite String.eqb_refl.
  - change (ends_with suffix (String a (l +:+ suffix)) = true).
    cbn [ends_with]. by rewrite IH, orb_true_r.
Qed.

Lemma with_suffix_inv overlap suffix l n :
  ends_with suffix n = false →
  pd.with_suffix overlap suffix l = n ↔ l = n ∧ n ∉ overlap.
Proof.
  intros Hn. unfold pd.with_suffix. case_bool_decide as Hl; split.
  - intros <-. by rewrite ends_with_app in Hn.
  - by intros [-> ?].
  - by intros <-.
  - by intros [-> ?].
Qed.

(** *** Rename *)

Lemma renamed_cases l :
  (l = "TotalCurrentAssets" ∧ renamed l = "CurrentAssets") ∨
  (l = "TotalCurrentLiabilities" ∧ renamed l = "CurrentLiabilities") ∨
  (l ≠ "TotalCurrentAssets" ∧ l ≠ "TotalCurrentLiabilities" ∧ renamed l = l).
Proof.
  unfold renamed, renaming. cbn [list_to_map foldr uncurry fst snd].
  destruct (decide (l = "TotalCurrentAssets")) as [->|];
    [left; by rewrite lookup_insert_eq|].
  destruct (decide (l = "TotalCurrentLiabilities")) as [->|].
  - right; left. rewrite lookup_insert_ne by done. by rewrite lookup_insert_eq.
  - right; right. by rewrite !lookup_insert_ne, lookup_empty by done.
Qed.

Lemma rename_fmap d : pd.rename renaming d = (λ p, (renamed p.1, id p.2)) <$> d.
Proof. done. Qed.

Lemma rename_columns d : (pd.rename renaming d).*2 = d.*2.
Proof.
  rewrite rename_fmap, <- list_fmap_compose. by apply list_fmap_ext.
Qed.

Lemma labels_rename d : labels (pd.rename renaming d) = renamed <$> labels d.
Proof.
  rewrite rename_fmap. unfold labels. rewrite <- !list_fmap_compose.
  by apply list_fmap_ext.
Qed.

(** A label that is neither an old nor a new name is not affected. *)
Lemma select_rename_other d n :
  n ∉ ["TotalCurrentAssets"; "TotalCurrentLiabilities";
       "CurrentAssets"; "CurrentLiabilities"] →
  select (pd.rename renaming d) n = select d n.
Proof.
  rewrite !not_elem_of_cons. intros (?&?&?&?&_).
  rewrite rename_fmap, select_relabel, list_fmap_id; [done|].
  intros l _. destruct (renamed_cases l) as [[-> ->]|[[-> ->]|(?&?&->)]]; naive_solver.
Qed.

Lemma select_rename_new d old new :
  (old, new) ∈ renaming → new ∉ labels d →
  select (pd.rename renaming d) new = select d old.
Proof.
  intros Hin Hnew. rewrite rename_fmap.
  induction d as [|[l c] d IH]; [done|].
  rewrite labels_cons, not_elem_of_cons in Hnew. destruct Hnew as [Hl Hd].
  rewrite fmap_cons. cbn [fst snd id].
  unfold renaming in Hin. rewrite !elem_of_cons, elem_of_nil in Hin.
  destruct (renamed_cases l) as [[-> ->]|[[-> ->]|(?&?&->)]];
    destruct Hin as [?|[?|[]]]; simplify_eq;
    rewrite ?select_cons_eq, ?select_cons_ne by done;
    first [by apply IH | f_equal; by apply IH].
Qed.

Lemma rename_id d :
  "TotalCurrentAssets" ∉ labels d → "TotalCurrentLiabilities" ∉ labels d →
  pd.rename renaming d = d.
Proof.
  intros H1 H2. rewrite rename_fmap.
  induction d as [|[l c] d IH]; [done|].
  rewrite labels_cons, not_elem_of_cons in H1, H2.
  rewrite fmap_cons, IH by tauto. cbn [fst snd id].
  destruct (renamed_cases l) as [[? ?]|[[? ?]|(?&?&?)]];
    [exfalso; intuition congruence..|congruence].
Qed.

Lemma rename_changes d n :
  n ∈ ["TotalCurrentAssets"; "TotalCurrentLiabilities"] → n ∈ labels d →
  n ∉ labels (pd.rename renaming d).
Proof.
  rewrite labels_rename. intros Hn _ (l & Hl & _)%list_elem_of_fmap.
  rewrite !elem_of_cons, elem_of_nil in Hn.
  destruct Hn as [->|[->|[]]];
    destruct (renamed_cases l) as [[? Hr]|[[? Hr]|(?&?&Hr)]];
    rewrite Hr in Hl; first [discriminate | congruence].
Qed.

End Merge.

Section MergeLemmas.
Implicit Types (d m left right : DataFrame) (n t on : string) (c : column).

Lemma zip_relabel {A B C D} (f : A → C) (g : B → D) (l : list (A * B)) :
  zip (f <$> l.*1) (g <$> l.*2) = (λ p, (f p.1, g p.2)) <$> l.
Proof. induction l as [|[a b] l IH]; [done|]. cbn. by f_equal. Qed.

Lemma zip_relabel_snd {A B D} (g : B → D) (l : list (A * B)) :
  zip l.*1 (g <$> l.*2) = (λ p, (p.1, g p.2)) <$> l.
Proof. induction l as [|[a b] l IH]; [done|]. cbn. by f_equal. Qed.

Lemma key_column_Ok d on c : pd.key_column d on = Ok c ↔ select d on = [c].
Proof.
  unfold pd.key_column. destruct (select d on) as [|? [|? ?]]; naive_solver.
Qed.

Lemma merge_Ok left right on m :
  pd.merge left right on = Ok m →
  ∃ lk rk, select left on = [lk] ∧ select right on = [rk] ∧
           m = joined on left right (pd.join_positions (cells lk) (cells rk)).
Proof.
  unfold pd.merge. intros (rk & Hrk%key_column_Ok & (lk & Hlk%key_column_Ok & Hm)%bind_Ok)%bind_Ok.
  exists lk, rk. split_and!; [done..|].
  destruct (_ ++ _) in Hm; [|done]. injection Hm as <-.
  unfold joined, overlap, without, labels. by rewrite !zip_relabel.
Qed.

Lemma elem_of_labels d n : n ∈ labels d ↔ ∃ c, (n, c) ∈ d.
Proof.
  unfold labels. rewrite list_elem_of_fmap. split.
  - intros ([l c] & -> & ?). by exists c.
  - intros (c & ?). by exists (n, c).
Qed.

Lemma labels_without on right n :
  n ∈ labels (without on right) ↔ n ∈ labels right ∧ n ≠ on.
Proof.
  unfold without. rewrite !elem_of_labels. split.
  - intros (c & [? ?]%list_elem_of_filter). eauto.
  - intros [(c & ?) ?]. exists c. by apply list_elem_of_filter.
Qed.

Lemma select_without on right n :
  n ≠ on → select (without on right) n = select right n.
Proof.
  intros Hn. unfold without, select.
  induction right as [|[l c] r IH]; [done|].
  destruct (decide (l = on)) as [->|].
  - rewrite (filter_cons_False (λ p, p.1 ≠ on)) by (cbn; tauto).
    rewrite (filter_cons_False (λ p, p.1 = n)) by (cbn; congruence). done.
  - rewrite (filter_cons_True (λ p, p.1 ≠ on)) by done.
    destruct (decide (l = n)) as [->|].
    + rewrite !(filter_cons_True (λ p, p.1 = n)) by done. cbn. by f_equal.
    + by rewrite !(filter_cons_False (λ p, p.1 = n)) by done.
Qed.

Lemma elem_of_overlap on left right n :
  n ∈ overlap on left right ↔ n ∈ labels left ∧ n ∈ labels right ∧ n ≠ on.
Proof. unfold overlap. rewrite list_elem_of_filter, labels_without. tauto. Qed.

(** A label without a suffix selects, in the joined frame, the columns
    it selects on either side, unless both sides carry it. *)
Lemma select_joined on left right pos n :
  ends_with "_x" n = false → ends_with "_y" n = false →
  n ∉ overlap on left right →
  select (joined on left right pos) n =
  (pd.take_rows pos.*1 <$> select left n)
  ++ (pd.take_rows pos.*2 <$> select (without on right) n).
Proof.
  intros Hx Hy Hn. unfold joined. rewrite select_app.
  rewrite !select_relabel; [done|..];
    intros l _; rewrite with_suffix_inv by done; tauto.
Qed.

(** Only suffixed labels and labels of the two sides occur in the
    joined frame. *)
Lemma labels_joined on left right pos n :
  ends_with "_x" n = false → ends_with "_y" n = false →
  n ∈ labels (joined on left right pos) →
  n ∈ labels left ∨ n ∈ labels right.
Proof.
  intros Hx Hy. unfold joined. rewrite labels_app, elem_of_app.
  unfold labels. rewrite <- !list_fmap_compose, !list_elem_of_fmap.
  intros [([l c] & Hl & Hin)|([l c] & Hl & Hin)]; cbn in Hl; symmetry in Hl;
    [apply (with_suffix_inv _ _ _ _ Hx) in Hl|apply (with_suffix_inv _ _ _ _ Hy) in Hl];
    destruct Hl as [-> _].
  - left. by exists (n, c).
  - right. apply list_elem_of_filter in Hin as [_ Hin]. by exists (n, c).
Qed.

Lemma labels_joined_left on left right pos n :
  ends_with "_x" n = false → n ∈ labels left → n ∉ overlap on left right →
  n ∈ labels (joined on left right pos).
Proof.
  intros Hx Hl Ho. unfold joined. rewrite labels_app, elem_of_app. left.
  apply elem_of_labels in Hl as [c Hc]. apply elem_of_labels.
  exists (pd.take_rows pos.*1 c). apply list_elem_of_fmap. exists (n, c).
  split; [|done]. cbn. f_equal. symmetry.
  by apply (proj2 (with_suffix_inv _ _ _ _ Hx)).
Qed.

(** *** Disjoint schemas: no suffix, no [MergeError] *)

Lemma suffix_dups_same l : pd.suffix_dups l l = [].
Proof.
  unfold pd.suffix_dups, pd.duplicated.
  enough (∀ seen,
    (filter (λ p : string * bool, p.2 = true)
       (zip l (zip_with (λ a b : bool, a && negb b) (pd.duplicated_from seen l)
                 (pd.duplicated_from seen l)))).*1 = []) by done.
  induction l as [|x l IH]; intros seen; [reflexivity|].
  cbn [zip_with pd.duplicated_from].
  rewrite andb_negb_r. rewrite filter_cons_False by (cbn; congruence).
  apply IH.
Qed.

Lemma with_suffix_nil suffix (l : list string) : pd.with_suffix [] suffix <$> l = l.
Proof.
  rewrite <- (list_fmap_id l) at 2. apply list_fmap_ext. intros i x _.
  unfold pd.with_suffix. rewrite bool_decide_eq_false_2; [done|]. apply not_elem_of_nil.
Qed.

Lemma joined_disjoint on left right pos :
  overlap on left right = [] →
  joined on left right pos =
  ((λ p, (p.1, pd.take_rows pos.*1 p.2)) <$> left)
  ++ ((λ p, (p.1, pd.take_rows pos.*2 p.2)) <$> without on right).
Proof.
  intros Ho. unfold joined. rewrite Ho. f_equal; apply list_fmap_ext;
    intros i [l c] _; cbn; unfold pd.with_suffix;
    rewrite bool_decide_eq_false_2; try done; apply not_elem_of_nil.
Qed.

Lemma merge_disjoint left right on lk rk :
  select left on = [lk] → select right on = [rk] →
  overlap on left right = [] →
  pd.merge left right on =
  Ok (joined on left right (pd.join_positions (cells lk) (cells rk))).
Proof.
  intros Hl%key_column_Ok Hr%key_column_Ok Ho. unfold pd.merge.
  rewrite Hr. cbn. rewrite Hl. cbn.
  fold (without on right). fold (overlap on left right). rewrite Ho.
  rewrite !with_suffix_nil, !suffix_dups_same. cbn.
  f_equal. rewrite joined_disjoint by done. unfold labels.
  by rewrite !zip_relabel_snd.
Qed.

End MergeLemmas.

(** ** Join positions on integer keys *)

Section JoinPositions.
Implicit Types (ys zs : list Z) (y : Z) (k : nat).

Lemma enumerate_from_cons {A} k (x : A) l :
  enumerate_from k (x :: l) = (k, x) :: enumerate_from (S k) l.
Proof. done. Qed.

Lemma matches_cons y k z zs :
  matches y k (z :: zs) =
  if decide (y = z) then (k, I64 z) :: matches y (S k) zs else matches y (S k) zs.
Proof.
  unfold matches. rewrite fmap_cons, enumerate_from_cons.
  destruct (decide (y = z)) as [->|].
  - rewrite filter_cons_True; [done|]. cbn. by rewrite bool_decide_eq_true_2.
  - rewrite filter_cons_False; [done|]. cbn. by rewrite bool_decide_eq_false_2.
Qed.

Lemma matches_absent y k zs : y ∉ zs → matches y k zs = [].
Proof.
  revert k. induction zs as [|z zs IH]; intros k; [done|].
  rewrite not_elem_of_cons. intros [? ?]. rewrite matches_cons.
  rewrite decide_False by done. by apply IH.
Qed.

Lemma matches_present y k zs :
  NoDup zs → y ∈ zs →
  ∃ j, matches y k zs = [((k + j)%nat, I64 y)] ∧ zs !! j = Some y.
Proof.
  revert k. induction zs as [|z zs IH]; intros k.
  - by intros _ ?%elem_of_nil.
  - rewrite NoDup_cons, matches_cons. intros [Hz Hnd] Hin.
    destruct (decide (y = z)) as [->|Hne].
    + exists 0%nat. rewrite matches_absent by done. by rewrite Nat.add_0_r.
    + apply elem_of_cons in Hin as [?|Hin]; [done|].
      destruct (IH (S k) Hnd Hin) as (j & -> & ?).
      exists (S j). split; [|done]. do 2 f_equal. lia.
Qed.

(** With unique balance years, the inner join keeps the income rows
    whose year the balance sheet has, in income order, each once, and
    pairs each with the balance row of that year. *)
Lemma join_positions_int ys zs :
  NoDup zs →
  let pos := pd.join_positions (I64 <$> ys) (I64 <$> zs) in
  pos.*1 = (filter (λ p, p.2 ∈ zs) (pd.enumerate ys)).*1 ∧
  Forall2 (λ j y, zs !! j = Some y) pos.*2 (filter (λ y, y ∈ zs) ys).
Proof.
  intros Hnd. unfold pd.join_positions, pd.enumerate.
  fold (enumerate_from 0 (I64 <$> ys)). fold (enumerate_from 0 ys).
  fold (enumerate_from 0 (I64 <$> zs)).
  match goal with |- context [mbind ?f _] => set (F := f) end.
  assert (∀ k y, F (k, I64 y) = (λ p, (k, p.1)) <$> matches y 0 zs) as HF by done.
  clearbody F. cbv zeta.
  enough (∀ k,
    (enumerate_from k (I64 <$> ys) ≫= F).*1
    = (filter (λ p, p.2 ∈ zs) (enumerate_from k ys)).*1
    ∧ Forall2 (λ j y, zs !! j = Some y) (enumerate_from k (I64 <$> ys) ≫= F).*2
        (filter (λ y, y ∈ zs) ys)) as Hgen by apply Hgen.
  induction ys as [|y ys IH]; intros k; [by split|].
  rewrite fmap_cons, !enumerate_from_cons, bind_cons, HF, !fmap_app.
  destruct (IH (S k)) as [IH1 IH2].
  destruct (decide (y ∈ zs)) as [Hin|Hout].
  - destruct (matches_present y 0 zs Hnd Hin) as (j & -> & Hj).
    rewrite filter_cons_True by done. rewrite filter_cons_True by done.
    cbn. split; [by f_equal|]. by constructor.
  - rewrite matches_absent by done.
    rewrite filter_cons_False by done. rewrite filter_cons_False by done.
    by split.
Qed.

Lemma take_enumerated ys (P : Z → Prop) `{∀ y, Decision (P y)} :
  omap (λ i, ys !! i) (filter (λ p, P p.2) (pd.enumerate ys)).*1 = filter P ys.
Proof.
  unfold pd.enumerate. fold (enumerate_from 0 ys).
  enough (∀ pre, omap (λ i, (pre ++ ys) !! i)
                   (filter (λ p, P p.2) (enumerate_from (length pre) ys)).*1
                 = filter P ys) as Hgen by apply (Hgen []).
  induction ys as [|y ys IH]; intros pre; [done|].
  rewrite enumerate_from_cons.
  specialize (IH (pre ++ [y])). rewrite <- app_assoc, length_app in IH. cbn in IH.
  rewrite Nat.add_1_r in IH.
  destruct (decide (P y)).
  - rewrite !filter_cons_True by done. cbn.
    rewrite list_lookup_middle by done. cbn. by f_equal.
  - by rewrite !filter_cons_False by done.
Qed.

(** The [Year] column of the join. *)
Lemma take_rows_years ys zs :
  NoDup zs →
  pd.take_rows (pd.join_positions (I64 <$> ys) (I64 <$> zs)).*1 (IntCol ys)
  = IntCol (filter (λ y, y ∈ zs) ys).
Proof.
  intros Hnd. destruct (join_positions_int ys zs Hnd) as [-> _].
  cbn. f_equal. pose proof (take_enumerated ys (λ y, y ∈ zs)) as Ht. exact Ht.
Qed.

End JoinPositions.

(** ** Division by zero or by a missing value *)

Section Floats.

Lemma SFeqb_refl_not_nan p : p ≠ S754_nan → SFeqb p p = true.
Proof.
  unfold SFeqb, SFcompare. destruct p as [s|s| |s m e]; try done.
  - by destruct s.
  - intros _. destruct s; rewrite Z.compare_refl, Pos.compare_cont_refl; done.
Qed.

Lemma is_nan_spec f : PrimFloat.is_nan f = true ↔ Prim2SF f = S754_nan.
Proof.
  unfold PrimFloat.is_nan. rewrite FloatAxioms.eqb_spec. split.
  - intros Hn. destruct (Prim2SF f) eqn:Hf; try done;
      rewrite SFeqb_refl_not_nan in Hn; done.
  - by intros ->.
Qed.





End Floats.

(** ** The scripts as functions of the files read *)

Section Runs.
Context `{Backend}.
Implicit Types (w : world) (d : DataFrame).

Lemma lift_bind {A B} (r : result A) (k : A → M B) w :
  (lift r ≫= k) w = match r with Ok a => k a w | Raise e => (Raise e, w) end.
Proof. unfold mbind, M_bind, lift. by destruct r. Qed.

Lemma read_csv_run {B} path (k : DataFrame → M B) w :
  (read_csv path ≫= k) w =
  match read_result w path with
  | Ok d => k d (logged w [EvRead path])
  | Raise e => (Raise e, logged w [EvRead path])
  end.
Proof.
  unfold read_result, mbind, M_bind, read_csv, logged.
  destruct (fs w !! path) as [bytes|]; [|done]. cbn. by destruct (parse_csv bytes).
Qed.

Lemma read_result_fs w w' path :
  fs w' !! path = fs w !! path → read_result w' path = read_result w path.
Proof. unfold read_result, read_csv. intros ->. by destruct (fs w !! path). Qed.

Lemma build_kpi_table_locals_run w :
  visualize_trends.build_kpi_table_locals w = build_outcome w.
Proof.
  unfold visualize_trends.build_kpi_table_locals, build_outcome. cbv zeta.
  fold income_path balance_path kpi_path renaming.
  rewrite read_csv_run. destruct (read_result w income_path) as [income|]; [|done].
  rewrite read_csv_run. rewrite (read_result_fs w (logged w _)) by done.
  destruct (read_result w balance_path) as [balance|];
    [|by unfold logged; cbn; rewrite <- app_assoc].
  unfold kpi_frame, derive.
  repeat (rewrite lift_bind;
          match goal with |- context [match ?r with Ok _ => _ | Raise _ => _ end] =>
            destruct r as [?d|]; cbn [mbind result_bind];
            [|by unfold logged; cbn; rewrite <- app_assoc] end).
  unfold mbind, M_bind, to_csv, mret, M_ret, logged. cbn.
  by rewrite <- !app_assoc.
Qed.

End Runs.

Section KpiFrame.
Implicit Types (d m income balance : DataFrame) (n t : string) (c : column) (s : sources).

Lemma kpi_frame_Ok income balance d :
  kpi_frame income balance = Ok d ↔
  ∃ m s, pd.merge income (pd.rename renaming balance) "Year" = Ok m ∧
         sources_of m s ∧ d = with_kpis m s.
Proof.
  unfold kpi_frame. rewrite bind_Ok. split.
  - intros (m & ? & (s & ? & ?)%derive_Ok). eauto.
  - intros (m & s & ? & ? & ?). exists m. split; [done|]. apply derive_Ok. eauto.
Qed.

Lemma derived_not_renamed t l :
  t ∈ derived_columns → renamed l = t → l = t.
Proof.
  unfold derived_columns. rewrite !elem_of_cons, elem_of_nil. intros Ht Hr.
  destruct (renamed_cases l) as [[-> Hl]|[[-> Hl]|(?&?&Hl)]];
    rewrite Hl in Hr; [exfalso..|done];
    subst t; intuition discriminate.
Qed.

Lemma derived_no_suffix t :
  t ∈ derived_columns → ends_with "_x" t = false ∧ ends_with "_y" t = false.
Proof.
  unfold derived_columns. rewrite !elem_of_cons, elem_of_nil.
  intros Ht. repeat (destruct Ht as [->|Ht]; [by vm_compute|]). done.
Qed.

(** A derived label is new in the merged frame when neither input
    carries it. *)
Lemma derived_fresh_in_merge income balance m :
  pd.merge income (pd.rename renaming balance) "Year" = Ok m →
  Forall (λ t, (t ∉ labels income) ∧ (t ∉ labels balance)) derived_columns →
  Forall (λ t, t ∉ labels m) derived_columns.
Proof.
  intros (lk & rk & _ & _ & ->)%merge_Ok Hf.
  apply Forall_forall. intros t Ht.
  rewrite Forall_forall in Hf. destruct (Hf t Ht) as [Hi Hb].
  destruct (derived_no_suffix t Ht) as [Hx Hy].
  intros Hin. apply (labels_joined _ _ _ _ _ Hx Hy) in Hin as [Hin|Hin]; [by apply Hi|].
  rewrite labels_rename in Hin. apply list_elem_of_fmap in Hin as (l & Hl & Hin).
  symmetry in Hl. apply (derived_not_renamed t l Ht) in Hl as ->. done.
Qed.

Lemma value_ratio d t n1 n2 x y i :
  select d t = [pd.col_truediv x y] → select d n1 = [x] → select d n2 = [y] →
  value d t i = ratio_at d n1 n2 i.
Proof.
  intros Ht H1 H2. unfold ratio_at.
  rewrite (value_unique _ _ _ _ Ht), (value_unique _ _ _ _ H1), (value_unique _ _ _ _ H2).
  apply cells_col_truediv.
Qed.

Lemma value_diff_ratio d t n1 n2 n3 x y z i :
  select d t = [pd.col_truediv (pd.col_sub x y) z] →
  select d n1 = [x] → select d n2 = [y] → select d n3 = [z] →
  value d t i = diff_ratio_at d n1 n2 n3 i.
Proof.
  intros Ht H1 H2 H3. unfold diff_ratio_at.
  rewrite (value_unique _ _ _ _ Ht), (value_unique _ _ _ _ H1),
    (value_unique _ _ _ _ H2), (value_unique _ _ _ _ H3).
  rewrite cells_col_truediv, cells_col_sub.
  by destruct (cells x !! i), (cells y !! i), (cells z !! i).
Qed.

(** The source columns are still there after the assignments. *)
Lemma sources_of_with_kpis m s : sources_of m s → sources_of (with_kpis m s) s.
Proof.
  unfold sources_of. intros Hs.
  rewrite !select_with_kpis_source; [done|..];
    unfold derived_columns; rewrite !not_elem_of_cons; split_and!; try discriminate;
    apply not_elem_of_nil.
Qed.

(** The ten derived columns of a frame whose merged part did not carry
    their labels. *)
Lemma select_kpis m s t c :
  Forall (λ t, t ∉ labels m) derived_columns →
  (t, c) ∈ kpi_columns s →
  select (with_kpis m s) t = [c].
Proof.
  intros Hf Hin. rewrite with_kpis_fresh, select_app by done.
  rewrite Forall_forall in Hf. unfold kpi_columns in Hin.
  rewrite !elem_of_cons, elem_of_nil in Hin.
  repeat (destruct Hin as [Hin|Hin];
          [injection Hin as -> ->;
           rewrite select_absent by (apply Hf; unfold derived_columns; set_solver);
           reflexivity|]).
  done.
Qed.

End KpiFrame.

Section Rows.
Implicit Types (d m income balance : DataFrame) (n t : string) (c : column) (s : sources).

(** A derived label selects exactly the column assigned to it, also
    when the merged frame already carried that label once. *)
Lemma select_kpis_once m s t c :
  (length (select m t) ≤ 1)%nat →
  (t, c) ∈ kpi_columns s →
  select (with_kpis m s) t = [c].
Proof.
  intros Hlen Hin. unfold kpi_columns in Hin.
  rewrite !elem_of_cons, elem_of_nil in Hin. unfold with_kpis.
  repeat (destruct Hin as [Hin|Hin];
          [injection Hin as -> ->;
           rewrite ?select_setitem_ne by discriminate;
           apply select_setitem_same;
           by rewrite ?select_setitem_ne by discriminate|]).
  done.
Qed.

Lemma with_kpis_rows m s i :
  sources_of m s →
  Forall (λ t, (length (select m t) ≤ 1)%nat) derived_columns →
  row_formulas (with_kpis m s) i.
Proof.
  intros Hs Hlen. apply sources_of_with_kpis in Hs.
  destruct Hs as (?&?&?&?&?&?&?&?&?&?&?).
  rewrite Forall_forall in Hlen.
  assert (∀ t c, (t, c) ∈ kpi_columns s → select (with_kpis m s) t = [c]) as Hk.
  { intros t c Hin. apply select_kpis_once; [|done]. apply Hlen.
    apply (list_elem_of_fmap_2 fst) in Hin. exact Hin. }
  unfold row_formulas. split_and!;
    first [eapply value_ratio | eapply value_diff_ratio]; try eassumption;
    apply Hk; unfold kpi_columns; set_solver.
Qed.

Lemma ratio_table_rows d i t n1 n2 :
  row_formulas d i → (t, n1, n2) ∈ ratio_table →
  value d t i = ratio_at d n1 n2 i.
Proof.
  intros (?&?&?&?&?&?&?&?&?&?) Hin. unfold ratio_table in Hin.
  rewrite !elem_of_cons, elem_of_nil in Hin.
  repeat (destruct Hin as [Hin|Hin]; [by simplify_eq|]). done.
Qed.

End Rows.

Section ValidInputs.
Implicit Types (d m income balance : DataFrame) (n t : string) (c : column) (s : sources).

Lemma filter_nil_Forall {A} (P : A → Prop) `{∀ x, Decision (P x)} (l : list A) :
  Forall (λ x, ¬ P x) l → filter P l = [].
Proof.
  induction 1 as [|x l Hx _ IH]; [done|]. by rewrite filter_cons_False.
Qed.

Lemma disjoint_overlap income balance :
  Forall (λ l, l ∈ labels (pd.rename renaming balance) → l = "Year") (labels income) →
  overlap "Year" income (pd.rename renaming balance) = [].
Proof.
  intros Hd. unfold overlap. apply filter_nil_Forall.
  eapply Forall_impl; [exact Hd|]. cbn. intros l Hl [Hin Hne]%labels_without.
  by apply Hne, Hl.
Qed.

(** Where a label without suffix comes from in the merged frame of
    disjoint schemas. *)
Lemma select_merged income balance pos n :
  overlap "Year" income (pd.rename renaming balance) = [] →
  ends_with "_x" n = false → ends_with "_y" n = false → n ≠ "Year" →
  select (joined "Year" income (pd.rename renaming balance) pos) n =
  (pd.take_rows pos.*1 <$> select income n)
  ++ (pd.take_rows pos.*2 <$> select (pd.rename renaming balance) n).
Proof.
  intros Ho Hx Hy Hn. rewrite select_joined; [|done|done|].
  - by rewrite select_without.
  - rewrite Ho. apply not_elem_of_nil.
Qed.

Lemma select_income_side income balance n :
  NoDup (labels income) →
  Forall (λ l, l ∈ labels (pd.rename renaming balance) → l = "Year") (labels income) →
  n ∈ labels income → n ≠ "Year" →
  (∃ c, select income n = [c]) ∧ select (pd.rename renaming balance) n = [].
Proof.
  intros Hnd Hd Hin Hne. split; [by apply select_unique|].
  apply select_absent. intros Hb. rewrite Forall_forall in Hd. by apply Hne, Hd.
Qed.

Lemma select_balance_side income balance n :
  Forall (λ l, l ∈ labels (pd.rename renaming balance) → l = "Year") (labels income) →
  n ∈ labels (pd.rename renaming balance) → n ≠ "Year" →
  select income n = [].
Proof.
  intros Hd Hin Hne. apply select_absent. intros Hi.
  rewrite Forall_forall in Hd. by apply Hne, Hd.
Qed.

(** A column of the income statement, in the merged frame. *)
Lemma merged_income_column income balance pos n :
  NoDup (labels income) →
  Forall (λ l, l ∈ labels (pd.rename renaming balance) → l = "Year") (labels income) →
  n ∈ labels income → n ≠ "Year" →
  ends_with "_x" n = false → ends_with "_y" n = false →
  ∃ c, select (joined "Year" income (pd.rename renaming balance) pos) n = [c].
Proof.
  intros Hni Hd Hn Hne Hx Hy.
  rewrite select_merged by (done || by apply disjoint_overlap).
  destruct (select_income_side income balance n Hni Hd Hn Hne) as [[c ->] ->].
  by eexists.
Qed.

(** A column of the balance sheet that keeps its label. *)
Lemma merged_balance_column income balance pos n :
  NoDup (labels balance) →
  Forall (λ l, l ∈ labels (pd.rename renaming balance) → l = "Year") (labels income) →
  n ∈ labels balance → n ≠ "Year" →
  n ∉ ["TotalCurrentAssets"; "TotalCurrentLiabilities";
       "CurrentAssets"; "CurrentLiabilities"] →
  ends_with "_x" n = false → ends_with "_y" n = false →
  ∃ c, select (joined "Year" income (pd.rename renaming balance) pos) n = [c].
Proof.
  intros Hnb Hd Hn Hne Hr Hx Hy.
  rewrite select_merged by (done || by apply disjoint_overlap).
  pose proof (select_rename_other balance n Hr) as Hsame.
  destruct (select_unique balance n Hnb Hn) as [c Hc].
  rewrite Hsame, Hc, (select_balance_side income balance n Hd); [by eexists| |done].
  eapply select_singleton_in. by rewrite Hsame.
Qed.

(** A column of the balance sheet under its new label. *)
Lemma merged_renamed_column income balance pos old new :
  NoDup (labels balance) →
  Forall (λ l, l ∈ labels (pd.rename renaming balance) → l = "Year") (labels income) →
  (old, new) ∈ renaming → old ∈ labels balance → new ∉ labels balance →
  new ≠ "Year" → ends_with "_x" new = false → ends_with "_y" new = false →
  ∃ c, select (joined "Year" income (pd.rename renaming balance) pos) new = [c].
Proof.
  intros Hnb Hd Hr Hold Hnew Hne Hx Hy.
  rewrite select_merged by (done || by apply disjoint_overlap).
  destruct (select_unique balance old Hnb Hold) as [c Hc].
  assert (select (pd.rename renaming balance) new = [c]) as Hsel
    by (by rewrite (select_rename_new _ old new)).
  rewrite Hsel, (select_balance_side income balance new Hd); [by eexists| |done].
  by eapply select_singleton_in.
Qed.


(** Valid inputs merge, and the merged frame carries every source
    column exactly once and every derived label at most once. *)
Lemma valid_inputs_merge income balance :
  valid_inputs income balance →
  ∃ lk rk m s,
    select income "Year" = [lk] ∧ select balance "Year" = [rk] ∧
    m = joined "Year" income (pd.rename renaming balance)
          (pd.join_positions (cells lk) (cells rk)) ∧
    pd.merge income (pd.rename renaming balance) "Year" = Ok m ∧
    sources_of m s ∧
    Forall (λ t, (length (select m t) ≤ 1)%nat) derived_columns.
Proof.
  intros (Hni & Hnb & Hci & Hcb & Hd & Hca & Hcl).
  pose proof (disjoint_overlap _ _ Hd) as Ho.
  destruct (select_unique income "Year" Hni) as [lk Hlk];
    [apply Hci; unfold income_columns; set_solver|].
  destruct (select_unique balance "Year" Hnb) as [rk Hrk];
    [apply Hcb; unfold balance_columns; set_solver|].
  assert (select (pd.rename renaming balance) "Year" = [rk]) as Hrk'.
  { rewrite select_rename_other; [done|]. rewrite !not_elem_of_cons.
    split_and!; try discriminate. apply not_elem_of_nil. }
  set (pos := pd.join_positions (cells lk) (cells rk)).
  set (m := joined "Year" income (pd.rename renaming balance) pos).
  assert (∀ n, n ∈ income_columns → n ≠ "Year" →
               ends_with "_x" n = false → ends_with "_y" n = false →
               ∃ c, select m n = [c]) as Hinc.
  { intros n Hn. apply merged_income_column; auto. }
  assert (∀ n, n ∈ balance_columns → n ≠ "Year" →
               n ∉ ["TotalCurrentAssets"; "TotalCurrentLiabilities";
                    "CurrentAssets"; "CurrentLiabilities"] →
               ends_with "_x" n = false → ends_with "_y" n = false →
               ∃ c, select m n = [c]) as Hbal.
  { intros n Hn. apply merged_balance_column; auto. }
  assert (∀ old new, (old, new) ∈ renaming → old ∈ balance_columns →
                     new ∉ labels balance → new ≠ "Year" →
                     ends_with "_x" new = false → ends_with "_y" new = false →
                     ∃ c, select m new = [c]) as Hren.
  { intros old new Hr Hold Hnew Hne Hx Hy.
    apply (merged_renamed_column _ _ _ old new); auto. }
  destruct (Hinc "OperatingIncome") as [oi ?];
    [unfold income_columns; set_solver|done|done|done|].
  destruct (Hinc "Revenue") as [rev ?];
    [unfold income_columns; set_solver|done|done|done|].
  destruct (Hinc "NetIncome") as [ni ?];
    [unfold income_columns; set_solver|done|done|done|].
  destruct (Hinc "InterestExpense") as [ie ?];
    [unfold income_columns; set_solver|done|done|done|].
  destruct (Hbal "TotalAssets") as [ta ?];
    [unfold balance_columns; set_solver|done|set_solver|done..|].
  destruct (Hbal "TotalEquity") as [te ?];
    [unfold balance_columns; set_solver|done|set_solver|done..|].
  destruct (Hbal "TotalLiabilities") as [tl ?];
    [unfold balance_columns; set_solver|done|set_solver|done..|].
  destruct (Hbal "Inventory") as [inv ?];
    [unfold balance_columns; set_solver|done|set_solver|done..|].
  destruct (Hbal "AccountsReceivable") as [ar ?];
    [unfold balance_columns; set_solver|done|set_solver|done..|].
  destruct (Hren "TotalCurrentAssets" "CurrentAssets") as [ca ?];
    [unfold renaming; set_solver|unfold balance_columns; set_solver|done..|].
  destruct (Hren "TotalCurrentLiabilities" "CurrentLiabilities") as [cl ?];
    [unfold renaming; set_solver|unfold balance_columns; set_solver|done..|].
  exists lk, rk, m, (Sources oi rev ni ta te ca cl inv tl ie ar).
  split_and!; try done.
  - by apply merge_disjoint.
  - apply Forall_forall. intros t Ht.
    destruct (derived_no_suffix t Ht) as [Hx Hy].
    assert (t ≠ "Year") as Hne.
    { intros ->. unfold derived_columns in Ht. set_solver. }
    subst m. rewrite select_merged by done.
    rewrite length_app, !length_fmap.
    assert (select (pd.rename renaming balance) t = select balance t) as Hsame.
    { apply select_rename_other. unfold derived_columns in Ht.
      rewrite !elem_of_cons, elem_of_nil in Ht. rewrite !not_elem_of_cons.
      split_and!; [intros ->; intuition discriminate..|apply not_elem_of_nil]. }
    destruct (decide (t ∈ labels income)) as [Hi|Hi].
    + destruct (select_income_side income balance t Hni Hd Hi Hne) as [[c ->] ->].
      cbn. lia.
    + rewrite (select_absent income) by done. rewrite Hsame.
      pose proof (select_length_NoDup balance t Hnb). cbn. lia.
Qed.

End ValidInputs.

Section Build.
Context `{Backend}.
Implicit Types (w : world) (d m income balance : DataFrame).

Lemma build_kpi_table_run w :
  visualize_trends.build_kpi_table w =
  match build_outcome w with
  | (Ok l, w') => (Ok (df l), w')
  | (Raise e, w') => (Raise e, w')
  end.
Proof.
  unfold visualize_trends.build_kpi_table, mbind, M_bind.
  rewrite build_kpi_table_locals_run. by destruct (build_outcome w) as [[l|e] w'].
Qed.

Lemma build_outcome_loaded w income balance :
  loaded w income balance →
  build_outcome w =
  match kpi_frame income balance with
  | Raise e => (Raise e, logged w [EvRead income_path; EvRead balance_path])
  | Ok d =>
      (Ok (Frames income (pd.rename renaming balance) d),
       World (<[kpi_path := format_csv d]> (fs w))
         (trace w ++ [EvRead income_path; EvRead balance_path; EvWrite kpi_path]))
  end.
Proof.
  intros [Hi Hb]. unfold build_outcome.
  change (read_result w income_path = Ok income) in Hi.
  change (read_result w balance_path = Ok balance) in Hb.
  by rewrite Hi, Hb.
Qed.

Lemma build_kpi_table_Ok w income balance d w' :
  loaded w income balance →
  visualize_trends.build_kpi_table w = (Ok d, w') →
  kpi_frame income balance = Ok d ∧
  w' = World (<[kpi_path := format_csv d]> (fs w))
         (trace w ++ [EvRead income_path; EvRead balance_path; EvWrite kpi_path]).
Proof.
  intros Hl. rewrite build_kpi_table_run, (build_outcome_loaded _ _ _ Hl).
  destruct (kpi_frame income balance); [|done]. cbn. by intros [= -> <-].
Qed.

Lemma build_kpi_table_valid w income balance d :
  loaded w income balance →
  kpi_frame income balance = Ok d →
  visualize_trends.build_kpi_table w =
  (Ok d, World (<[kpi_path := format_csv d]> (fs w))
           (trace w ++ [EvRead income_path; EvRead balance_path; EvWrite kpi_path])).
Proof.
  intros Hl Hk. by rewrite build_kpi_table_run, (build_outcome_loaded _ _ _ Hl), Hk.
Qed.

End Build.

(** * The claims *)

(** C1. Every row of the table [build_kpi_table] returns satisfies the
    ten formulas of the spec, each derived cell being the quotient of
    the row's source cells, and the ten derived columns are appended to
    the merged frame in the order OperatingMargin, NetMargin, ROA, ROE,
    CurrentRatio, QuickRatio, DebtToEquity, InterestCoverage,
    AssetTurnover, ReceivablesTurnover (the inputs carry none of these
    labels beforehand). *)
Theorem C1_derived_columns `{Backend} w income balance d w' :
  loaded w income balance →
  Forall (λ t, (t ∉ labels income) ∧ (t ∉ labels balance)) derived_columns →
  visualize_trends.build_kpi_table w = (Ok d, w') →
  (∃ m s, pd.merge income (pd.rename renaming balance) "Year" = Ok m ∧
          d = m ++ kpi_columns s ∧
          labels d = labels m ++ derived_columns) ∧
  ∀ i, row_formulas d i.
Proof.
  intros Hl Hfresh Hb.
  apply (build_kpi_table_Ok _ _ _ _ _ Hl) in Hb as [Hk _].
  apply kpi_frame_Ok in Hk as (m & s & Hm & Hs & ->).
  pose proof (derived_fresh_in_merge _ _ _ Hm Hfresh) as Hf.
  split.
  - exists m, s. split_and!; [done|by apply with_kpis_fresh|by apply labels_with_kpis_fresh].
  - intros i. apply with_kpis_rows; [done|].
    eapply Forall_impl; [exact Hf|]. cbn. intros t Ht.
    rewrite select_absent by done. cbn. lia.
Qed.

Lemma C1_derived_columns_witness :
  (∃ m s, pd.merge sample.income_frame (pd.rename renaming sample.balance_frame) "Year"
          = Ok m ∧
          sample.kpi_table = m ++ kpi_columns s ∧
          labels sample.kpi_table = labels m ++ derived_columns) ∧
  ∀ i, row_formulas sample.kpi_table i.
Proof.
  apply (@C1_derived_columns sample.backend sample.fresh_world
           sample.income_frame sample.balance_frame sample.kpi_table
           (@visualize_trends.build_kpi_table sample.backend sample.fresh_world).2).
  - split; vm_compute; reflexivity.
  - apply (bool_decide_unpack _). vm_compute. exact I.
  - vm_compute. reflexivity.
Defined.

(** C2. With unique integer years on both sides, the table
    [build_kpi_table] returns has exactly the years present in both
    inputs, each once, in the row order of the income table; a year of
    one input only never appears.  Every column without suffix that is
    not a derived one is the column of its source table restricted to
    the joined rows, in that order: rows are neither reordered nor
    merged. *)
Theorem C2_inner_join `{Backend} w income balance ys zs d w' :
  loaded w income balance →
  int_years income ys → int_years balance zs →
  NoDup ys → NoDup zs →
  visualize_trends.build_kpi_table w = (Ok d, w') →
  int_years d (filter (λ y, y ∈ zs) ys) ∧
  NoDup (filter (λ y, y ∈ zs) ys) ∧
  (∀ y, y ∈ filter (λ y, y ∈ zs) ys ↔ y ∈ ys ∧ y ∈ zs) ∧
  ∃ pos : list (nat * nat),
    pos.*1 = (filter (λ p, p.2 ∈ zs) (pd.enumerate ys)).*1 ∧
    Forall2 (λ j y, zs !! j = Some y) pos.*2 (filter (λ y, y ∈ zs) ys) ∧
    ∀ n, n ∉ derived_columns →
         ends_with "_x" n = false → ends_with "_y" n = false →
         n ∉ overlap "Year" income (pd.rename renaming balance) →
         select d n =
         (pd.take_rows pos.*1 <$> select income n)
         ++ (pd.take_rows pos.*2 <$> select (without "Year" (pd.rename renaming balance)) n).
Proof.
  unfold int_years. intros Hl Hys Hzs Hny Hnz Hb.
  apply (build_kpi_table_Ok _ _ _ _ _ Hl) in Hb as [Hk _].
  apply kpi_frame_Ok in Hk as (m & s & Hm & Hs & ->).
  apply merge_Ok in Hm as (lk & rk & Hlk & Hrk & ->).
  rewrite select_rename_other in Hrk
    by (rewrite !not_elem_of_cons; split_and!; try discriminate; apply not_elem_of_nil).
  rewrite Hys in Hlk. rewrite Hzs in Hrk. simplify_eq. cbn [cells].
  set (pos := pd.join_positions (I64 <$> ys) (I64 <$> zs)).
  assert (∀ n, n ∉ derived_columns →
               ends_with "_x" n = false → ends_with "_y" n = false →
               n ∉ overlap "Year" income (pd.rename renaming balance) →
               select (with_kpis (joined "Year" income (pd.rename renaming balance) pos) s) n
               = (pd.take_rows pos.*1 <$> select income n)
                 ++ (pd.take_rows pos.*2
                       <$> select (without "Year" (pd.rename renaming balance)) n)) as Hsel.
  { intros n Hd Hx Hy Ho. rewrite select_with_kpis_source by done. by apply select_joined. }
  split_and!.
  - rewrite Hsel; [| |done|done|].
    + rewrite Hys. rewrite (select_absent (without _ _)).
      * cbn [fmap list_fmap app]. f_equal. by apply take_rows_years.
      * rewrite labels_without. tauto.
    + unfold derived_columns. rewrite !not_elem_of_cons.
      split_and!; try discriminate. apply not_elem_of_nil.
    + rewrite elem_of_overlap. tauto.
  - by apply NoDup_filter.
  - intros y. rewrite list_elem_of_filter. tauto.
  - exists pos. destruct (join_positions_int ys zs Hnz) as [H1 H2]. by split_and!.
Qed.

Lemma C2_inner_join_witness :
  int_years sample.kpi_table [2021; 2022] ∧
  select sample.kpi_table "TotalAssets" = [IntCol [200; 220]].
Proof.
  destruct (@C2_inner_join sample.backend sample.fresh_world
              sample.income_frame sample.balance_frame
              [2021; 2022; 2023] [2021; 2022] sample.kpi_table
              (@visualize_trends.build_kpi_table sample.backend sample.fresh_world).2)
    as (Hyears & _ & _ & pos & Hl & Hr & Hsel).
  - split; vm_compute; reflexivity.
  - vm_compute. reflexivity.
  - vm_compute. reflexivity.
  - apply (bool_decide_unpack _). vm_compute. exact I.
  - apply (bool_decide_unpack _). vm_compute. exact I.
  - vm_compute. reflexivity.
  - split; [exact Hyears|]. vm_compute. reflexivity.
Defined.



Section Reporter.
Context `{Backend}.
Implicit Types (w : world) (d : DataFrame).

Lemma build_outcome_trace w :
  ∃ rest, trace (build_outcome w).2 = trace w ++ EvRead income_path :: rest.
Proof.
  unfold build_outcome.
  destruct (read_result w income_path); [|by eexists].
  destruct (read_result w balance_path); [|by eexists].
  destruct (kpi_frame a a0); by eexists.
Qed.

Lemma getitem_present d n : n ∈ labels d → ∃ s, pd.getitem d n = Ok s.
Proof.
  intros Hin%select_present. unfold pd.getitem.
  destruct (select d n) as [|x [|y l]]; [done|by eexists..].
Qed.

Lemma plot_trend_missing d kpi_column ylabel output_filename w :
  "Year" ∉ labels d ∨ kpi_column ∉ labels d →
  visualize_trends.plot_trend d kpi_column ylabel output_filename w =
  (Raise (if bool_decide ("Year" ∈ labels d)
          then missing_column kpi_column else missing_year), w).
Proof.
  intros Hm. unfold visualize_trends.plot_trend.
  case_bool_decide as Hy; cbn [negb]; [|done].
  destruct Hm as [?|Hc]; [done|]. by rewrite bool_decide_eq_false_2.
Qed.

Lemma plot_trend_present d kpi_column ylabel output_filename w :
  "Year" ∈ labels d → kpi_column ∈ labels d →
  ∃ x y,
    pd.getitem d "Year" = Ok x ∧ pd.getitem d kpi_column = Ok y ∧
    visualize_trends.plot_trend d kpi_column ylabel output_filename w =
    (Ok (), World (<[path_join OUTPUT_DIR output_filename
                     := render_png (trend_figure x y kpi_column ylabel)]> (fs w))
              (trace w ++ [EvWrite (path_join OUTPUT_DIR output_filename)])).
Proof.
  intros Hy Hc. destruct (getitem_present d "Year" Hy) as [x Hx].
  destruct (getitem_present d kpi_column Hc) as [y Hc'].
  exists x, y. split_and!; [done..|].
  unfold visualize_trends.plot_trend. rewrite !bool_decide_eq_true_2 by done. cbn [negb].
  rewrite lift_bind, Hx, lift_bind, Hc'. done.
Qed.

Lemma load_or_build_kpi_table_run w :
  visualize_trends.load_or_build_kpi_table w =
  if bool_decide (is_Some (fs w !! kpi_path))
  then read_csv kpi_path (logged w [EvExists kpi_path])
  else visualize_trends.build_kpi_table (logged w [EvExists kpi_path]).
Proof.
  unfold visualize_trends.load_or_build_kpi_table, mbind, M_bind, path_exists.
  change (path_join OUTPUT_DIR "kpi_table.csv") with kpi_path. cbv zeta beta iota.
  by destruct (bool_decide (is_Some (fs w !! kpi_path))).
Qed.

End Reporter.

(** C4. When the KPI table file exists, [load_or_build_kpi_table]
    returns what [read_csv] makes of it, as it is, and touches nothing:
    the only operations are the existence test and the read of that file.
    When the file does not exist, it is [build_kpi_table] run after the
    existence test.  Every run of [build_kpi_table] starts by reading the
    income statement, so the first case does not run the builder. *)
Theorem C4_load_or_build `{Backend} w :
  (∀ bytes, fs w !! kpi_path = Some bytes →
     visualize_trends.load_or_build_kpi_table w =
     (parse_csv bytes, logged w [EvExists kpi_path; EvRead kpi_path])) ∧
  (fs w !! kpi_path = None →
     visualize_trends.load_or_build_kpi_table w =
     visualize_trends.build_kpi_table (logged w [EvExists kpi_path])) ∧
  (∀ w0, ∃ rest,
     trace (visualize_trends.build_kpi_table w0).2 = trace w0 ++ EvRead income_path :: rest).
Proof.
  split_and!.
  - intros bytes Hb. rewrite load_or_build_kpi_table_run.
    rewrite bool_decide_eq_true_2 by (rewrite Hb; eauto).
    unfold read_csv, logged. cbn [fs trace]. rewrite Hb. by rewrite <- app_assoc.
  - intros Hb. rewrite load_or_build_kpi_table_run.
    rewrite bool_decide_eq_false_2; [done|]. rewrite Hb. by intros [? ?].
  - intros w0. rewrite build_kpi_table_run.
    destruct (build_outcome_trace w0) as [rest Hr].
    destruct (build_outcome w0) as [[l|e] w1]; by exists rest.
Qed.

(** C5. On a frame without a [Year] column, or without the requested
    column, [plot_trend] raises the error whose message carries the
    label of the absent column ([Year] first), and leaves the world as it
    was: no chart is written. *)
Theorem C5_plot_trend_missing_column `{Backend} d kpi_column ylabel output_filename w :
  "Year" ∉ labels d ∨ kpi_column ∉ labels d →
  visualize_trends.plot_trend d kpi_column ylabel output_filename w =
  (Raise (if bool_decide ("Year" ∈ labels d)
          then missing_column kpi_column else missing_year), w).
Proof. apply plot_trend_missing. Qed.

Lemma C5_plot_trend_missing_column_witness :
  @visualize_trends.plot_trend sample.backend sample.cached_frame
    "ROE" "Return on Equity" "roe_trend.png" sample.cached_world
  = (Raise (ValueError "Expected 'ROE' column in the KPI table."), sample.cached_world).
Proof.
  apply (@C5_plot_trend_missing_column sample.backend sample.cached_frame
           "ROE" "Return on Equity" "roe_trend.png" sample.cached_world).
  right. apply (bool_decide_unpack _). vm_compute. exact I.
Defined.

Lemma C4_load_or_build_witness :
  @visualize_trends.load_or_build_kpi_table sample.backend sample.cached_world
  = (Ok sample.cached_frame, logged sample.cached_world [EvExists kpi_path; EvRead kpi_path]).
Proof.
  destruct (@C4_load_or_build sample.backend sample.cached_world) as [Hcached _].
  apply (Hcached sample.cached_csv). vm_compute. reflexivity.
Defined.

Section Charts.
Context `{Backend}.
Implicit Types (w : world) (d : DataFrame).

(** One iteration of the loop of [generate_trend_charts], in a world
    reached from [w0] by chart writes only. *)
Lemma chart_step d (c : visualize_trends.chart) (cs : list visualize_trends.chart) w :
  "Year" ∈ labels d →
  visualize_trends.for_each (c :: cs)
    (λ chart, visualize_trends.plot_trend d (visualize_trends.chart_column chart)
                (visualize_trends.chart_ylabel chart)
                (visualize_trends.chart_filename chart)) w =
  if bool_decide (visualize_trends.chart_column c ∈ labels d)
  then
    match pd.getitem d "Year", pd.getitem d (visualize_trends.chart_column c) with
    | Ok x, Ok y =>
        visualize_trends.for_each cs
          (λ chart, visualize_trends.plot_trend d (visualize_trends.chart_column chart)
                      (visualize_trends.chart_ylabel chart)
                      (visualize_trends.chart_filename chart))
          (World (<[chart_path c
                    := render_png (trend_figure x y (visualize_trends.chart_column c)
                                     (visualize_trends.chart_ylabel c))]> (fs w))
             (trace w ++ [EvWrite (chart_path c)]))
    | _, _ => (Raise missing_year, w)
    end
  else (Raise (missing_column (visualize_trends.chart_column c)), w).
Proof.
  intros Hy. cbn [visualize_trends.for_each]. unfold mbind at 1, M_bind at 1.
  case_bool_decide as Hc.
  - destruct (plot_trend_present d (visualize_trends.chart_column c)
                (visualize_trends.chart_ylabel c) (visualize_trends.chart_filename c)
                w Hy Hc) as (x & y & -> & -> & ->). done.
  - rewrite plot_trend_missing by tauto. by rewrite bool_decide_eq_true_2.
Qed.

Lemma for_each_chart_outcome d (cs : list visualize_trends.chart) w :
  "Year" ∈ labels d → NoDup (chart_path <$> cs) →
  let run :=
    visualize_trends.for_each cs
      (λ chart, visualize_trends.plot_trend d (visualize_trends.chart_column chart)
                  (visualize_trends.chart_ylabel chart)
                  (visualize_trends.chart_filename chart)) w in
  run.1 = match first_missing d cs with
          | None => Ok ()
          | Some column => Raise (missing_column column)
          end ∧
  trace run.2 = trace w ++ ((EvWrite ∘ chart_path) <$> charts_before_failure d cs) ∧
  ∀ c, c ∈ cs → c ∉ charts_before_failure d cs →
       fs run.2 !! chart_path c = fs w !! chart_path c.
Proof.
  intros Hy Hnd. cbv zeta. revert w.
  induction cs as [|c cs IH]; intros w.
  - cbn. rewrite app_nil_r. by split_and!.
  - rewrite fmap_cons, NoDup_cons in Hnd. destruct Hnd as [Hc Hnd].
    rewrite chart_step by done. cbn [first_missing charts_before_failure].
    case_bool_decide as Hin.
    + destruct (getitem_present d "Year" Hy) as [x ->].
      destruct (getitem_present d _ Hin) as [y ->].
      match goal with |- context [visualize_trends.for_each cs ?f ?w1] =>
        destruct (IH Hnd w1) as (Hr & Ht & Hf) end.
      split_and!.
      * exact Hr.
      * rewrite Ht. cbn [trace fmap list_fmap compose]. by rewrite <- app_assoc.
      * intros c' Hc' Hout. rewrite not_elem_of_cons in Hout. destruct Hout as [Hne Hout].
        apply elem_of_cons in Hc' as [->|Hc']; [done|].
        rewrite Hf by done. cbn [fs]. apply lookup_insert_ne.
        intros Heq. apply Hc. rewrite Heq. apply list_elem_of_fmap. eauto.
    + cbn. rewrite app_nil_r. by split_and!.
Qed.

Lemma chart_paths_distinct : NoDup (chart_path <$> visualize_trends.charts).
Proof. apply (bool_decide_unpack _). by vm_compute. Qed.

End Charts.

(** C9. [generate_trend_charts] is [plot_trend] run once for each of the
    four hardcoded triples, in the order OperatingMargin, NetMargin, ROE,
    DebtToEquity, with nothing caught in between.  So on a frame without
    [Year] it raises at once; otherwise it raises the error of the first
    chart whose column is missing, after having written exactly the
    charts before it (the later ones are not attempted and their files
    are left as they were), and it succeeds having written all four when
    no column is missing. *)
Theorem C9_generate_trend_charts `{Backend} d w :
  visualize_trends.generate_trend_charts d =
    (_ ← visualize_trends.plot_trend d "OperatingMargin" "Operating Margin"
           "operating_margin_trend.png";
     _ ← visualize_trends.plot_trend d "NetMargin" "Net Margin" "net_margin_trend.png";
     _ ← visualize_trends.plot_trend d "ROE" "Return on Equity" "roe_trend.png";
     _ ← visualize_trends.plot_trend d "DebtToEquity" "Debt-to-Equity"
           "debt_to_equity_trend.png";
     mret ()) ∧
  ("Year" ∉ labels d →
   visualize_trends.generate_trend_charts d w = (Raise missing_year, w)) ∧
  ("Year" ∈ labels d →
   let out := visualize_trends.generate_trend_charts d w in
   out.1 = match first_missing d visualize_trends.charts with
           | None => Ok ()
           | Some column => Raise (missing_column column)
           end ∧
   trace out.2
   = trace w ++ ((EvWrite ∘ chart_path)
                   <$> charts_before_failure d visualize_trends.charts) ∧
   ∀ c, c ∈ visualize_trends.charts →
        c ∉ charts_before_failure d visualize_trends.charts →
        fs out.2 !! chart_path c = fs w !! chart_path c).
Proof.
  split_and!.
  - reflexivity.
  - intros Hy. unfold visualize_trends.generate_trend_charts, visualize_trends.charts.
    cbn [visualize_trends.for_each]. unfold mbind at 1, M_bind at 1.
    rewrite plot_trend_missing by tauto. by rewrite bool_decide_eq_false_2.
  - intros Hy. apply for_each_chart_outcome; [done|]. apply chart_paths_distinct.
Qed.

Lemma C9_generate_trend_charts_witness :
  let out := @visualize_trends.generate_trend_charts sample.backend sample.cached_frame
               sample.cached_world in
  out.1 = Raise (ValueError "Expected 'ROE' column in the KPI table.") ∧
  trace out.2 = [EvWrite "output/operating_margin_trend.png";
                 EvWrite "output/net_margin_trend.png"] ∧
  fs out.2 !! "output/debt_to_equity_trend.png" = None.
Proof.
  destruct (@C9_generate_trend_charts sample.backend sample.cached_frame
              sample.cached_world) as (_ & _ & Hrun).
  destruct Hrun as (Hr & Ht & Hf).
  - apply (bool_decide_unpack _). vm_compute. exact I.
  - cbv zeta. split_and!.
    + rewrite Hr. vm_compute. reflexivity.
    + rewrite Ht. vm_compute. reflexivity.
    + vm_compute. reflexivity.
Defined.

Section MissingColumn.
Implicit Types (d m income balance : DataFrame) (n t : string) (c : column) (s : sources).






End MissingColumn.



Section Inputs.
Context `{Backend}.
Implicit Types (w : world) (d income balance : DataFrame).

Lemma paths_distinct :
  kpi_path ≠ income_path ∧ kpi_path ≠ balance_path ∧ income_path ≠ balance_path.
Proof. split_and!; apply (bool_decide_unpack _); by vm_compute. Qed.

(** The frames printed at the end of [calculate_kpis.py] exist. *)
Lemma kpi_frame_view income balance d :
  kpi_frame income balance = Ok d →
  ∃ view,
    pd.getitem_list d ["Year"; "OperatingMargin"; "NetMargin"; "ROA"; "ROE"] = Ok view.
Proof.
  intros (m & s & Hm & Hs & ->)%kpi_frame_Ok.
  apply merge_Ok in Hm as (lk & rk & Hlk & _ & ->).
  set (d := with_kpis _ s).
  assert ("Year" ∈ labels d) as Hyear.
  { apply labels_with_kpis_mono, labels_joined_left; [done| |].
    - by eapply select_singleton_in.
    - rewrite elem_of_overlap. tauto. }
  assert (∀ t, t ∈ derived_columns → t ∈ labels d) as Hder
    by (intros t Ht; by apply labels_with_kpis_derived).
  unfold pd.getitem_list.
  rewrite !filter_cons_False, filter_nil; [by eexists|..];
    intros Hn; apply Hn; try done;
    apply Hder; unfold derived_columns;
    rewrite !elem_of_cons; tauto.
Qed.

(** [calculate_kpis.py] is the body of [build_kpi_table] followed by a
    print. *)
Lemma script_run w :
  calculate_kpis.script w =
  match build_outcome w with
  | (Ok l, w') =>
      match pd.getitem_list (df l) ["Year"; "OperatingMargin"; "NetMargin"; "ROA"; "ROE"] with
      | Ok view => (Ok l, logged w' [EvPrint view])
      | Raise e => (Raise e, w')
      end
  | (Raise e, w') => (Raise e, w')
  end.
Proof.
  unfold calculate_kpis.script, build_outcome.
  change (path_join DATA_DIR "comcast_income_statement.csv") with income_path.
  change (path_join DATA_DIR "comcast_balance_sheet.csv") with balance_path.
  change (path_join OUTPUT_DIR "kpi_table.csv") with kpi_path.
  rewrite read_csv_run. destruct (read_result w income_path) as [income|]; [|done].
  rewrite read_csv_run. rewrite (read_result_fs w (logged w _)) by done.
  destruct (read_result w balance_path) as [balance|];
    [|by unfold logged; cbn; rewrite <- app_assoc].
  cbv zeta. fold renaming. unfold kpi_frame, derive.
  repeat (rewrite lift_bind;
          match goal with |- context [match ?r with Ok _ => _ | Raise _ => _ end] =>
            destruct r as [?d|]; cbn [mbind result_bind];
            [|by unfold logged; cbn; rewrite <- app_assoc] end).
  unfold mbind at 1, M_bind at 1, to_csv. cbn [fst snd df].
  rewrite lift_bind.
  destruct (pd.getitem_list _ _) as [view|];
    unfold logged, print, log, mbind, M_bind, mret, M_ret; cbn;
    by rewrite <- !app_assoc.
Qed.

End Inputs.

Section Determinism.
Context `{Backend}.
Implicit Types (w : world) (d income balance : DataFrame).

(** What [build_kpi_table]'s body does depends on the two source files
    only, and all it changes is the KPI table file. *)
Lemma build_outcome_ext w w' :
  fs w' !! income_path = fs w !! income_path →
  fs w' !! balance_path = fs w !! balance_path →
  (build_outcome w').1 = (build_outcome w).1 ∧
  fs (build_outcome w').2 =
  match (build_outcome w).1 with
  | Ok l => <[kpi_path := format_csv (df l)]> (fs w')
  | Raise _ => fs w'
  end.
Proof.
  intros Hi Hb. unfold build_outcome.
  rewrite (read_result_fs w w' income_path Hi), (read_result_fs w w' balance_path Hb).
  destruct (read_result w income_path) as [income|]; [|done].
  destruct (read_result w balance_path) as [balance|]; [|done].
  by destruct (kpi_frame income balance).
Qed.

Lemma build_outcome_fs w :
  fs (build_outcome w).2 =
  match (build_outcome w).1 with
  | Ok l => <[kpi_path := format_csv (df l)]> (fs w)
  | Raise _ => fs w
  end.
Proof. by apply build_outcome_ext. Qed.

Lemma build_outcome_sources w :
  fs (build_outcome w).2 !! income_path = fs w !! income_path ∧
  fs (build_outcome w).2 !! balance_path = fs w !! balance_path.
Proof.
  destruct paths_distinct as (Hi & Hb & _). rewrite build_outcome_fs.
  destruct (build_outcome w).1; by rewrite ?lookup_insert_ne.
Qed.

End Determinism.

(** C7 (as amended). [build_kpi_table] does not write the two source
    files and leaves the income frame as loaded; the balance frame keeps
    its data but is renamed in place: when the function returns, its
    labels [TotalCurrentAssets] and [TotalCurrentLiabilities] have become
    [CurrentAssets] and [CurrentLiabilities].  It is unchanged exactly
    when it carried neither of the two labels.  The same holds for the
    frames of [calculate_kpis.py]. *)
Theorem C7_inputs_after_build `{Backend} w inc bal :
  loaded w inc bal →
  (∀ l w',
     visualize_trends.build_kpi_table_locals w = (Ok l, w')
     ∨ calculate_kpis.script w = (Ok l, w') →
     income l = inc ∧
     balance l = pd.rename renaming bal ∧
     (balance l).*2 = bal.*2 ∧
     labels (balance l) = renamed <$> labels bal ∧
     fs w' !! income_path = fs w !! income_path ∧
     fs w' !! balance_path = fs w !! balance_path) ∧
  (pd.rename renaming bal = bal ↔
   ("TotalCurrentAssets" ∉ labels bal) ∧ ("TotalCurrentLiabilities" ∉ labels bal)).
Proof.
  intros Hl. split.
  - intros l w' Hrun.
    assert ((build_outcome w).1 = Ok l ∧ fs w' = fs (build_outcome w).2) as [Hout Hfs].
    { destruct Hrun as [Hrun|Hrun].
      - rewrite build_kpi_table_locals_run in Hrun. by rewrite Hrun.
      - rewrite script_run in Hrun. destruct (build_outcome w) as [[l0|e] w0]; [|done].
        destruct (pd.getitem_list _ _); [|done]. by injection Hrun as -> <-. }
    destruct (build_outcome_sources w) as [Hi Hb]. rewrite Hfs, Hi, Hb.
    rewrite (build_outcome_loaded _ _ _ Hl) in Hout.
    destruct (kpi_frame inc bal); [|done]. injection Hout as <-. cbn.
    split_and!; try done.
    + apply rename_columns.
    + apply labels_rename.
  - split.
    + intros Heq. split; intros Hin.
      * apply (rename_changes bal "TotalCurrentAssets"); [set_solver|done|].
        by rewrite Heq.
      * apply (rename_changes bal "TotalCurrentLiabilities"); [set_solver|done|].
        by rewrite Heq.
    + intros [? ?]. by apply rename_id.
Qed.

Lemma C7_inputs_after_build_witness :
  ∃ l w',
    @visualize_trends.build_kpi_table_locals sample.backend sample.fresh_world = (Ok l, w') ∧
    income l = sample.income_frame ∧
    labels (balance l) =
    ["Year"; "TotalAssets"; "TotalEquity"; "TotalLiabilities"; "Inventory";
     "AccountsReceivable"; "CurrentAssets"; "CurrentLiabilities"].
Proof.
  destruct (@C7_inputs_after_build sample.backend sample.fresh_world
              sample.income_frame sample.balance_frame) as [Hrun _].
  - split; vm_compute; reflexivity.
  - eexists _, _. split; [vm_compute; reflexivity|].
    edestruct Hrun as (Hi & _ & _ & Hlab & _).
    + left. vm_compute. reflexivity.
    + split; [exact Hi|]. vm_compute. reflexivity.
Defined.

(** The claim as the spec states it fails: after [build_kpi_table] has run
    on the sample files, the balance frame it loaded no longer has the
    labels it was loaded with. *)
Lemma C7_counterexample :
  ∃ l w',
    @loaded sample.backend sample.fresh_world sample.income_frame sample.balance_frame ∧
    @visualize_trends.build_kpi_table_locals sample.backend sample.fresh_world = (Ok l, w') ∧
    "TotalCurrentAssets" ∈ labels sample.balance_frame ∧
    ("TotalCurrentAssets" ∉ labels (balance l)) ∧
    balance l ≠ sample.balance_frame.
Proof.
  eexists _, _. split_and!.
  - split; vm_compute; reflexivity.
  - vm_compute. reflexivity.
  - apply (bool_decide_unpack _). vm_compute. exact I.
  - apply (bool_decide_unpack _). vm_compute. exact I.
  - cbn. intros Heq. apply (f_equal labels) in Heq. vm_compute in Heq. discriminate.
Qed.

(** C8. The two scripts compute the same thing: on every world,
    [calculate_kpis.py] and the body of [build_kpi_table] either both
    fail, with the same error and the same final world, or both succeed
    with the same three frames (so the same KPI table: same columns,
    rows and values) and the same files, the first script having printed
    a view of the table in addition. *)
Theorem C8_scripts_agree `{Backend} w :
  match calculate_kpis.script w, visualize_trends.build_kpi_table_locals w with
  | (Ok l1, w1), (Ok l2, w2) =>
      l1 = l2 ∧ fs w1 = fs w2 ∧
      ∃ view,
        pd.getitem_list (df l2) ["Year"; "OperatingMargin"; "NetMargin"; "ROA"; "ROE"]
        = Ok view ∧
        trace w1 = trace w2 ++ [EvPrint view]
  | (Raise e1, w1), (Raise e2, w2) => e1 = e2 ∧ w1 = w2
  | _, _ => False
  end.
Proof.
  rewrite script_run, build_kpi_table_locals_run.
  destruct (build_outcome w) as [[l|e] w'] eqn:Hout; [|done].
  assert (∃ income balance, kpi_frame income balance = Ok (df l)) as (income & balance & Hk).
  { unfold build_outcome in Hout.
    destruct (read_result w income_path) as [income|]; [|done].
    destruct (read_result w balance_path) as [balance|]; [|done].
    destruct (kpi_frame income balance) as [d|] eqn:Hk; [|done].
    injection Hout as <- _. by exists income, balance. }
  destruct (kpi_frame_view _ _ _ Hk) as [view Hv]. rewrite Hv.
  split_and!; [done..|]. by exists view.
Qed.

(** C10. [build_kpi_table] is a function of the two source files: run
    again on the world it leaves, it gives the same result and leaves the
    same files (the KPI table, when one is written, is overwritten with
    the same bytes); and run on any world whose two source files are the
    same it gives the same result and, on success, the same bytes in the
    KPI table file, which are those of the table returned. *)
Theorem C10_build_idempotent `{Backend} w :
  let first := visualize_trends.build_kpi_table w in
  let second := visualize_trends.build_kpi_table first.2 in
  second.1 = first.1 ∧
  fs second.2 = fs first.2 ∧
  (∀ d, first.1 = Ok d → fs first.2 !! kpi_path = Some (format_csv d)) ∧
  ∀ w', fs w' !! income_path = fs w !! income_path →
        fs w' !! balance_path = fs w !! balance_path →
        let other := visualize_trends.build_kpi_table w' in
        other.1 = first.1 ∧
        (∀ d, first.1 = Ok d → fs other.2 !! kpi_path = fs first.2 !! kpi_path).
Proof.
  cbv zeta.
  assert (∀ w0, (visualize_trends.build_kpi_table w0).1 = df <$> (build_outcome w0).1
                ∧ (visualize_trends.build_kpi_table w0).2 = (build_outcome w0).2) as Hrun.
  { intros w0. rewrite build_kpi_table_run. by destruct (build_outcome w0) as [[l|e] w1]. }
  assert (∀ w0 w1, fs w1 !! income_path = fs w0 !! income_path →
                   fs w1 !! balance_path = fs w0 !! balance_path →
                   (visualize_trends.build_kpi_table w1).1
                   = (visualize_trends.build_kpi_table w0).1 ∧
                   fs (visualize_trends.build_kpi_table w1).2 =
                   match (build_outcome w0).1 with
                   | Ok l => <[kpi_path := format_csv (df l)]> (fs w1)
                   | Raise _ => fs w1
                   end) as Hext.
  { intros w0 w1 Hi Hb. destruct (Hrun w0) as [-> _]. destruct (Hrun w1) as [-> ->].
    destruct (build_outcome_ext w0 w1 Hi Hb) as [-> ->]. done. }
  destruct (Hext w w eq_refl eq_refl) as [_ Hfs].
  destruct (build_outcome_sources w) as [Hi Hb].
  destruct (Hrun w) as [H1 H2].
  split_and!.
  - apply Hext; by rewrite H2.
  - destruct (Hext w (visualize_trends.build_kpi_table w).2) as [_ ->];
      [by rewrite H2..|].
    rewrite Hfs. destruct (build_outcome w).1; [|done]. by rewrite insert_insert_eq.
  - intros d Hd. rewrite Hfs. rewrite H1 in Hd.
    destruct (build_outcome w).1 as [l|]; [|done]. injection Hd as <-.
    by rewrite lookup_insert_eq.
  - intros w' Hi' Hb'. destruct (Hext w w' Hi' Hb') as [-> Hfs']. split; [done|].
    intros d Hd. rewrite Hfs', Hfs. rewrite H1 in Hd.
    destruct (build_outcome w).1 as [l|]; [|done]. by rewrite !lookup_insert_eq.
Qed.

Lemma C10_build_idempotent_witness :
  let first := @visualize_trends.build_kpi_table sample.backend sample.fresh_world in
  let second := @visualize_trends.build_kpi_table sample.backend first.2 in
  first.1 = Ok sample.kpi_table ∧ second.1 = Ok sample.kpi_table ∧
  fs second.2 = fs first.2.
Proof.
  destruct (@C10_build_idempotent sample.backend sample.fresh_world) as (H1 & H2 & _).
  cbv zeta. split_and!.
  - vm_compute. reflexivity.
  - rewrite H1. vm_compute. reflexivity.
  - exact H2.
Defined.

(** * Further properties *)

(** ** Failures of the builder *)

Section BuilderFailures.
Context `{Backend}.
Implicit Types (w : world) (d m income balance : DataFrame) (n : string).

Lemma read_result_missing w path :
  fs w !! path = None → read_result w path = Raise (FileNotFoundError path).
Proof. intros Hp. unfold read_result, read_csv. by rewrite Hp. Qed.

Lemma script_outcome w :
  (calculate_kpis.script w).1 = (build_outcome w).1 ∧
  fs (calculate_kpis.script w).2 = fs (build_outcome w).2 ∧
  (∀ e, (build_outcome w).1 = Raise e → calculate_kpis.script w = build_outcome w).
Proof.
  rewrite script_run. destruct (build_outcome w) as [[l|e] w'] eqn:Hout; [|done].
  assert (∃ income balance, kpi_frame income balance = Ok (df l)) as (income & balance & Hk).
  { unfold build_outcome in Hout.
    destruct (read_result w income_path) as [income|]; [|done].
    destruct (read_result w balance_path) as [balance|]; [|done].
    destruct (kpi_frame income balance) as [d|] eqn:Hk; [|done].
    injection Hout as <- _. by exists income, balance. }
  destruct (kpi_frame_view _ _ _ Hk) as [view ->]. done.
Qed.




End BuilderFailures.

(** X1. An error of reading the income statement (the file is absent,
    or pandas cannot parse it) is the error of [build_kpi_table] and of
    [calculate_kpis.py]; the balance sheet is then not even read.  An
    error of reading the balance sheet is raised after the income
    statement was read.  In both cases no file is written; an absent file
    gives [FileNotFoundError] with its path. *)
Theorem source_file_errors `{Backend} w :
  (∀ e, read_result w income_path = Raise e →
        visualize_trends.build_kpi_table w = (Raise e, logged w [EvRead income_path]) ∧
        calculate_kpis.script w = (Raise e, logged w [EvRead income_path])) ∧
  (∀ income e, read_result w income_path = Ok income →
               read_result w balance_path = Raise e →
               visualize_trends.build_kpi_table w
               = (Raise e, logged w [EvRead income_path; EvRead balance_path]) ∧
               calculate_kpis.script w
               = (Raise e, logged w [EvRead income_path; EvRead balance_path])) ∧
  (∀ path, fs w !! path = None → read_result w path = Raise (FileNotFoundError path)).
Proof.
  split_and!.
  - intros e He. rewrite build_kpi_table_run, script_run. unfold build_outcome.
    by rewrite He.
  - intros income e Hi He. rewrite build_kpi_table_run, script_run. unfold build_outcome.
    by rewrite Hi, He.
  - apply read_result_missing.
Qed.

Lemma source_file_errors_witness :
  @visualize_trends.build_kpi_table sample.backend more_samples.cache_only_world
  = (Raise (FileNotFoundError "data/sample/comcast_income_statement.csv"),
     logged more_samples.cache_only_world [EvRead income_path]).
Proof.
  destruct (@source_file_errors sample.backend more_samples.cache_only_world)
    as (Hincome & _ & Hmissing).
  apply Hincome. apply Hmissing. vm_compute. reflexivity.
Defined.

(** X2. Both builders persist all or nothing: whenever they raise, the
    files are exactly as before, and when they succeed the only change is
    that the KPI table file holds the bytes of the table returned
    (whatever it held before). *)
Theorem build_persists_all_or_nothing `{Backend} w :
  let built := visualize_trends.build_kpi_table w in
  let scripted := calculate_kpis.script w in
  (∀ e, built.1 = Raise e → fs built.2 = fs w) ∧
  (∀ d, built.1 = Ok d → fs built.2 = <[kpi_path := format_csv d]> (fs w)) ∧
  (∀ e, scripted.1 = Raise e → fs scripted.2 = fs w) ∧
  (∀ l, scripted.1 = Ok l → fs scripted.2 = <[kpi_path := format_csv (df l)]> (fs w)).
Proof.
  cbv zeta. destruct (script_outcome w) as (Hs1 & Hs2 & _). rewrite Hs1, Hs2.
  rewrite build_kpi_table_run. pose proof (build_outcome_fs w) as Hfs.
  destruct (build_outcome w) as [[l|e] w']; cbn in *; split_and!; intros; by simplify_eq.
Qed.

(** X3. When the income statement or the balance sheet has no [Year]
    column, the merge raises the [KeyError] for [Year]; this happens
    after both reads and before anything is written. *)
Theorem missing_year_column `{Backend} w income balance :
  loaded w income balance →
  NoDup (labels balance) →
  "Year" ∉ labels income ∨ "Year" ∉ labels balance →
  visualize_trends.build_kpi_table w
  = (Raise (KeyError "Year"), logged w [EvRead income_path; EvRead balance_path]).
Proof.
  intros Hl Hnd Hmiss. rewrite build_kpi_table_run, (build_outcome_loaded _ _ _ Hl).
  assert (kpi_frame income balance = Raise (KeyError "Year")) as ->; [|done].
  unfold kpi_frame, pd.merge, pd.key_column.
  rewrite select_rename_other
    by (rewrite !not_elem_of_cons; split_and!; try discriminate; apply not_elem_of_nil).
  destruct (decide ("Year" ∈ labels balance)) as [Hb|Hb].
  - destruct (select_unique balance "Year" Hnd Hb) as [rk ->]. cbn.
    destruct Hmiss as [Hi|?]; [|done]. by rewrite (select_absent income).
  - by rewrite (select_absent balance).
Qed.

Lemma missing_year_column_witness :
  @visualize_trends.build_kpi_table
    (more_samples.backend_of sample.income_frame more_samples.balance_without_year)
    more_samples.source_world
  = (Raise (KeyError "Year"),
     logged more_samples.source_world [EvRead income_path; EvRead balance_path]).
Proof.
  apply (@missing_year_column
           (more_samples.backend_of sample.income_frame more_samples.balance_without_year)
           more_samples.source_world sample.income_frame more_samples.balance_without_year).
  - split; vm_compute; reflexivity.
  - apply (bool_decide_unpack _). vm_compute. exact I.
  - right. apply (bool_decide_unpack _). vm_compute. exact I.
Defined.



(** ** Rows of the join *)

Section JoinRows.
Implicit Types (ys zs : list Z) (y : Z) (k : nat) (d m : DataFrame) (c : column).

Lemma matches_length y k zs : length (matches y k zs) = occurrences y zs.
Proof.
  unfold occurrences. revert k. induction zs as [|z zs IH]; intros k; [done|].
  rewrite matches_cons. destruct (decide (y = z)) as [->|Hne].
  - rewrite filter_cons_True by done. cbn. by rewrite IH.
  - rewrite filter_cons_False by done. apply IH.
Qed.

Lemma fst_pair_replicate {A} k (l : list (nat * A)) :
  ((λ p, (k, p.1)) <$> l).*1 = replicate (length l) k.
Proof. induction l as [|x l IH]; [done|]. cbn. by f_equal. Qed.

Lemma omap_lookup_replicate {A} (l : list A) k x n :
  l !! k = Some x → omap (λ i, l !! i) (replicate n k) = replicate n x.
Proof. intros Hk. induction n as [|n IH]; [done|]. cbn. by rewrite Hk, IH. Qed.

(** The income years of the joined rows, for any balance years. *)
Lemma take_rows_years_repeated ys zs :
  pd.take_rows (pd.join_positions (I64 <$> ys) (I64 <$> zs)).*1 (IntCol ys)
  = IntCol (ys ≫= λ y, replicate (occurrences y zs) y).
Proof.
  cbn [pd.take_rows]. f_equal. unfold pd.join_positions, pd.enumerate.
  fold (enumerate_from 0 (I64 <$> ys)). fold (enumerate_from 0 (I64 <$> zs)).
  match goal with |- context [mbind ?f _] => set (F := f) end.
  assert (∀ k y, F (k, I64 y) = (λ p, (k, p.1)) <$> matches y 0 zs) as HF by done.
  clearbody F.
  enough (∀ pre,
    omap (λ i, (pre ++ ys) !! i) (enumerate_from (length pre) (I64 <$> ys) ≫= F).*1
    = ys ≫= λ y, replicate (occurrences y zs) y) as Hgen by apply (Hgen []).
  induction ys as [|y ys IH]; intros pre; [done|].
  rewrite fmap_cons, enumerate_from_cons, !bind_cons, HF, fmap_app, omap_app.
  rewrite fst_pair_replicate, matches_length.
  rewrite (omap_lookup_replicate _ _ y) by (by rewrite list_lookup_middle).
  f_equal. specialize (IH (pre ++ [y])).
  rewrite <- app_assoc, length_app, Nat.add_1_r in IH. exact IH.
Qed.

Lemma join_positions_none ys zs :
  (∀ y, y ∈ ys → y ∉ zs) → pd.join_positions (I64 <$> ys) (I64 <$> zs) = [].
Proof.
  intros Hdis. unfold pd.join_positions, pd.enumerate.
  fold (enumerate_from 0 (I64 <$> ys)). fold (enumerate_from 0 (I64 <$> zs)).
  match goal with |- context [mbind ?f _] => set (F := f) end.
  assert (∀ k y, F (k, I64 y) = (λ p, (k, p.1)) <$> matches y 0 zs) as HF by done.
  clearbody F. generalize 0%nat.
  induction ys as [|y ys IH]; intros k; [done|].
  rewrite fmap_cons, enumerate_from_cons, bind_cons, HF.
  rewrite matches_absent by (apply Hdis; by left). cbn [fmap list_fmap app].
  apply IH. intros y' Hy'. apply Hdis. by right.
Qed.

Lemma cells_take_rows_nil c : cells (pd.take_rows [] c) = [].
Proof. by destruct c. Qed.

Lemma cells_col_truediv_nil (x y : column) : cells x = [] → cells (pd.col_truediv x y) = [].
Proof.
  intros Hx. unfold pd.col_truediv. cbn [cells].
  assert (to_floats x = []) as ->; [|done].
  destruct x as [xs|xs]; destruct xs; by cbn in *.
Qed.

Lemma cells_col_sub_nil (x y : column) : cells x = [] → cells (pd.col_sub x y) = [].
Proof.
  intros Hx. destruct x as [[|x xs]|[|x xs]], y as [ys|ys]; by cbn in *.
Qed.

Lemma select_elem_of d n c : select d n = [c] → (n, c) ∈ d.
Proof.
  unfold select. intros Hs.
  assert (c ∈ (filter (λ p, p.1 = n) d).*2) as Hin by (rewrite Hs; by left).
  apply list_elem_of_fmap in Hin as ([l x] & -> & [Hl Hin]%list_elem_of_filter).
  cbn in Hl. by subst l.
Qed.

Lemma Forall_setitem (P : string * column → Prop) d t c :
  Forall P d → P (t, c) → Forall P (pd.setitem d t c).
Proof.
  intros Hd Hc. unfold pd.setitem. case_bool_decide.
  - apply Forall_fmap. eapply Forall_impl; [exact Hd|].
    intros p Hp. cbn. by case_bool_decide.
  - apply Forall_app. split; [done|]. by apply Forall_cons.
Qed.

(** A property of all columns that [/] and [-] preserve holds for the
    frame after the ten assignments. *)
Lemma Forall_with_kpis (Q : column → Prop) m s :
  (∀ x y : column, Q x → Q y → Q (pd.col_truediv x y)) →
  (∀ x y : column, Q x → Q y → Q (pd.col_sub x y)) →
  sources_of m s → Forall (λ p, Q p.2) m →
  Forall (λ p, Q p.2) (with_kpis m s).
Proof.
  intros Hdiv Hsub Hs Hm.
  assert (∀ n c, select m n = [c] → Q c) as Hq.
  { intros n c Hc%select_elem_of. rewrite Forall_forall in Hm. exact (Hm _ Hc). }
  destruct Hs as (?&?&?&?&?&?&?&?&?&?&?). unfold with_kpis.
  repeat (apply Forall_setitem; [|cbn [snd]; eauto 10]). done.
Qed.

End JoinRows.

Section Rectangular.
Implicit Types (d m : DataFrame) (c : column) (pos : list nat).

Lemma elem_of_enumerate {A} (l : list A) i x :
  (i, x) ∈ pd.enumerate l → (i < length l)%nat.
Proof.
  unfold pd.enumerate. intros Hin%elem_of_zip_l. apply elem_of_seq in Hin. lia.
Qed.

Lemma join_positions_bounds (lk rk : list cell) :
  Forall (λ p, (p.1 < length lk)%nat ∧ (p.2 < length rk)%nat) (pd.join_positions lk rk).
Proof.
  apply Forall_forall. intros [i j]. unfold pd.join_positions.
  intros ([i' k] & Hin & Hik)%list_elem_of_bind.
  apply list_elem_of_fmap in Hin as ([j' k'] & Heq & [_ Hjk]%list_elem_of_filter).
  cbn in Heq. injection Heq as -> ->. cbn. split; by eapply elem_of_enumerate.
Qed.

Lemma length_omap_lookup {A} (xs : list A) pos :
  Forall (λ i, (i < length xs)%nat) pos →
  length (omap (λ i, xs !! i) pos) = length pos.
Proof.
  induction 1 as [|i pos Hi _ IH]; [done|]. cbn.
  destruct (lookup_lt_is_Some_2 xs i Hi) as [x ->]. cbn. by rewrite IH.
Qed.

Lemma nrows_take_rows pos c :
  Forall (λ i, (i < nrows c)%nat) pos → nrows (pd.take_rows pos c) = length pos.
Proof.
  unfold nrows. destruct c as [xs|xs]; cbn; rewrite !length_fmap;
    apply length_omap_lookup.
Qed.

Lemma length_to_floats c : length (to_floats c) = nrows c.
Proof. unfold nrows. destruct c; cbn; by rewrite ?length_fmap. Qed.

Lemma nrows_col_truediv (x y : column) n :
  nrows x = n → nrows y = n → nrows (pd.col_truediv x y) = n.
Proof.
  intros Hx Hy. unfold pd.col_truediv, nrows. cbn [cells].
  rewrite length_fmap, length_zip_with, !length_to_floats. lia.
Qed.

Lemma nrows_col_sub (x y : column) n :
  nrows x = n → nrows y = n → nrows (pd.col_sub x y) = n.
Proof.
  intros Hx Hy.
  assert (nrows (pd.col_sub x y) = (nrows x `min` nrows y)%nat) as ->; [|lia].
  unfold nrows. destruct x as [xs|xs], y as [ys|ys]; cbn;
    by rewrite ?length_fmap, ?length_zip_with, ?length_fmap.
Qed.

Lemma rectangular_joined on left right (pos : list (nat * nat)) nl nr :
  rectangular left nl → rectangular right nr →
  Forall (λ p, (p.1 < nl)%nat ∧ (p.2 < nr)%nat) pos →
  rectangular (joined on left right pos) (length pos).
Proof.
  unfold rectangular. intros Hl Hr Hpos. unfold joined. apply Forall_app. split.
  - apply Forall_fmap. eapply Forall_impl; [exact Hl|]. intros [l c] Hc. cbn in *.
    rewrite nrows_take_rows, length_fmap; [done|].
    apply Forall_fmap. eapply Forall_impl; [exact Hpos|]. cbn. intros p [? _]. lia.
  - apply Forall_fmap. unfold without.
    apply Forall_forall. intros [l c] [_ Hin]%list_elem_of_filter.
    rewrite Forall_forall in Hr. specialize (Hr _ Hin). cbn in *.
    rewrite nrows_take_rows, length_fmap; [done|].
    apply Forall_fmap. eapply Forall_impl; [exact Hpos|]. cbn. intros p [_ ?]. lia.
Qed.

Lemma rectangular_rename d n : rectangular d n → rectangular (pd.rename renaming d) n.
Proof.
  unfold rectangular. intros Hd. rewrite rename_fmap. apply Forall_fmap.
  eapply Forall_impl; [exact Hd|]. by intros [l c].
Qed.

Lemma rectangular_column d n l c : rectangular d n → select d l = [c] → nrows c = n.
Proof.
  unfold rectangular. intros Hd Hc%select_elem_of.
  rewrite Forall_forall in Hd. exact (Hd _ Hc).
Qed.

End Rectangular.

(** X5. The join multiplies rows, it does not deduplicate: with unique
    income years, each income year appears in the table as many times as
    the balance sheet has rows for it (not at all when it has none), in
    the row order of the income statement. *)
Theorem repeated_balance_years `{Backend} w income balance ys zs d w' :
  loaded w income balance →
  int_years income ys → int_years balance zs →
  NoDup ys →
  visualize_trends.build_kpi_table w = (Ok d, w') →
  int_years d (ys ≫= λ y, replicate (occurrences y zs) y).
Proof.
  unfold int_years. intros Hl Hys Hzs _ Hb.
  apply (build_kpi_table_Ok _ _ _ _ _ Hl) in Hb as [Hk _].
  apply kpi_frame_Ok in Hk as (m & s & Hm & Hs & ->).
  apply merge_Ok in Hm as (lk & rk & Hlk & Hrk & ->).
  rewrite select_rename_other in Hrk
    by (rewrite !not_elem_of_cons; split_and!; try discriminate; apply not_elem_of_nil).
  rewrite Hys in Hlk. rewrite Hzs in Hrk. simplify_eq. cbn [cells].
  rewrite select_with_kpis_source
    by (unfold derived_columns; rewrite !not_elem_of_cons;
        split_and!; try discriminate; apply not_elem_of_nil).
  rewrite select_joined; [|done|done|rewrite elem_of_overlap; tauto].
  rewrite Hys, (select_absent (without _ _)) by (rewrite labels_without; tauto).
  cbn [fmap list_fmap app]. f_equal. apply take_rows_years_repeated.
Qed.

Lemma repeated_balance_years_witness :
  ∃ d w',
    @visualize_trends.build_kpi_table
      (more_samples.backend_of sample.income_frame more_samples.restated_balance)
      more_samples.source_world = (Ok d, w') ∧
    int_years d [2021; 2021; 2022] ∧
    select d "TotalAssets" = [IntCol [200; 210; 220]].
Proof.
  eexists _, _. split; [vm_compute; reflexivity|]. split.
  - apply (@repeated_balance_years
             (more_samples.backend_of sample.income_frame more_samples.restated_balance)
             more_samples.source_world sample.income_frame more_samples.restated_balance
             [2021; 2022; 2023] [2021; 2022; 2021] _
             (@visualize_trends.build_kpi_table
                (more_samples.backend_of sample.income_frame more_samples.restated_balance)
                more_samples.source_world).2).
    + split; vm_compute; reflexivity.
    + vm_compute. reflexivity.
    + vm_compute. reflexivity.
    + apply (bool_decide_unpack _). vm_compute. exact I.
    + vm_compute. reflexivity.
  - vm_compute. reflexivity.
Defined.

(** X6. When the two inputs have no year in common the builder still
    succeeds where it would otherwise: the table it returns (and
    persists) has all its columns, none of which has a row. *)
Theorem no_common_year `{Backend} w income balance ys zs d w' :
  loaded w income balance →
  int_years income ys → int_years balance zs →
  Forall (λ y, y ∉ zs) ys →
  visualize_trends.build_kpi_table w = (Ok d, w') →
  Forall (λ p, cells p.2 = []) d ∧
  derived_columns ⊆ labels d ∧
  fs w' !! kpi_path = Some (format_csv d).
Proof.
  unfold int_years. intros Hl Hys Hzs Hdis Hb.
  apply (build_kpi_table_Ok _ _ _ _ _ Hl) in Hb as [Hk ->].
  apply kpi_frame_Ok in Hk as (m & s & Hm & Hs & ->).
  split_and!.
  - apply merge_Ok in Hm as (lk & rk & Hlk & Hrk & Hm).
    rewrite select_rename_other in Hrk
      by (rewrite !not_elem_of_cons; split_and!; try discriminate; apply not_elem_of_nil).
    rewrite Hys in Hlk. rewrite Hzs in Hrk. simplify_eq. cbn [cells] in Hs |- *.
    rewrite join_positions_none in Hs |- * by (by apply Forall_forall).
    apply (Forall_with_kpis (λ c, cells c = [])); [| |done|].
    + intros x y Hx _. by apply cells_col_truediv_nil.
    + intros x y Hx _. by apply cells_col_sub_nil.
    + unfold joined. apply Forall_app. split; apply Forall_fmap, Forall_forall;
        intros [l c] _; apply cells_take_rows_nil.
  - intros t Ht. by apply labels_with_kpis_derived.
  - cbn. by rewrite lookup_insert_eq.
Qed.

Lemma no_common_year_witness :
  ∃ d w',
    @visualize_trends.build_kpi_table
      (more_samples.backend_of sample.income_frame more_samples.later_balance)
      more_samples.source_world = (Ok d, w') ∧
    Forall (λ p, cells p.2 = []) d ∧ length d = 22%nat.
Proof.
  eexists _, _. split; [vm_compute; reflexivity|]. split.
  - eapply (@no_common_year
              (more_samples.backend_of sample.income_frame more_samples.later_balance)
              more_samples.source_world sample.income_frame more_samples.later_balance
              [2021; 2022; 2023] [2030; 2031]).
    + split; vm_compute; reflexivity.
    + vm_compute. reflexivity.
    + vm_compute. reflexivity.
    + apply (bool_decide_unpack _). vm_compute. exact I.
    + vm_compute. reflexivity.
  - vm_compute. reflexivity.
Defined.

(** X7. The table is a frame: when all columns of the income statement
    have the same number of rows, and all columns of the balance sheet
    too, every column of the table returned has as many rows as the join
    on [Year] has row pairs, the derived columns included. *)
Theorem table_is_rectangular `{Backend} w income balance ni nb d w' :
  loaded w income balance →
  rectangular income ni → rectangular balance nb →
  visualize_trends.build_kpi_table w = (Ok d, w') →
  ∃ lk rk,
    select income "Year" = [lk] ∧ select balance "Year" = [rk] ∧
    rectangular d (length (pd.join_positions (cells lk) (cells rk))).
Proof.
  intros Hl Hi Hb Hrun.
  apply (build_kpi_table_Ok _ _ _ _ _ Hl) in Hrun as [Hk _].
  apply kpi_frame_Ok in Hk as (m & s & Hm & Hs & ->).
  apply merge_Ok in Hm as (lk & rk & Hlk & Hrk & ->).
  rewrite select_rename_other in Hrk
    by (rewrite !not_elem_of_cons; split_and!; try discriminate; apply not_elem_of_nil).
  exists lk, rk. split_and!; [done..|].
  set (pos := pd.join_positions (cells lk) (cells rk)) in *.
  assert (rectangular (joined "Year" income (pd.rename renaming balance) pos) (length pos))
    as Hm.
  { apply (rectangular_joined _ _ _ _ ni nb); [done|by apply rectangular_rename|].
    rewrite <- (rectangular_column income ni "Year" lk Hi Hlk).
    rewrite <- (rectangular_column balance nb "Year" rk Hb Hrk).
    apply join_positions_bounds. }
  apply (Forall_with_kpis (λ c, nrows c = length pos)); [| |done|done].
  - intros x y. apply nrows_col_truediv.
  - intros x y. apply nrows_col_sub.
Qed.

Lemma table_is_rectangular_witness : rectangular sample.kpi_table 2.
Proof.
  destruct (@table_is_rectangular sample.backend sample.fresh_world
              sample.income_frame sample.balance_frame 3 2 sample.kpi_table
              (@visualize_trends.build_kpi_table sample.backend sample.fresh_world).2)
    as (lk & rk & Hlk & Hrk & Hrect).
  - split; vm_compute; reflexivity.
  - apply (bool_decide_unpack _). vm_compute. exact I.
  - apply (bool_decide_unpack _). vm_compute. exact I.
  - vm_compute. reflexivity.
  - apply (bool_decide_unpack _). vm_compute. exact I.
Defined.

(** ** Which files are written *)

Section Footprint.
Context `{Backend}.
Implicit Types (w : world) (d : DataFrame) (paths : list string).

Lemma touches_only_mono {A} (m : M A) paths paths' :
  paths ⊆ paths' → touches_only m paths → touches_only m paths'.
Proof. intros Hsub Hm w p Hp. apply Hm. intros Hin. by apply Hp, Hsub. Qed.

Lemma touches_only_bind {A B} (m : M A) (k : A → M B) paths :
  touches_only m paths → (∀ a, touches_only (k a) paths) →
  touches_only (m ≫= k) paths.
Proof.
  intros Hm Hk w p Hp. unfold mbind, M_bind. specialize (Hm w p Hp).
  destruct (m w) as [[a|e] w1]; cbn in *; [|done]. by rewrite (Hk a w1 p Hp).
Qed.

Lemma touches_only_ret {A} (a : A) paths : touches_only (mret a) paths.
Proof. by intros w p _. Qed.

Lemma touches_only_raise {A} e paths : touches_only (raise e : M A) paths.
Proof. by intros w p _. Qed.

Lemma touches_only_lift {A} (r : result A) paths : touches_only (lift r) paths.
Proof. by intros w p _. Qed.

Lemma touches_only_print view paths : touches_only (print view) paths.
Proof. by intros w p _. Qed.

Lemma touches_only_path_exists path paths : touches_only (path_exists path) paths.
Proof. by intros w p _. Qed.

Lemma touches_only_read_csv path paths : touches_only (read_csv path) paths.
Proof. intros w p _. unfold read_csv. by destruct (fs w !! path). Qed.

Lemma touches_only_to_csv d path : touches_only (to_csv d path) [path].
Proof.
  intros w p Hp. unfold to_csv. cbn. apply lookup_insert_ne.
  intros ->. apply Hp. by left.
Qed.

Lemma touches_only_savefig fig path : touches_only (savefig fig path) [path].
Proof.
  intros w p Hp. unfold savefig. cbn. apply lookup_insert_ne.
  intros ->. apply Hp. by left.
Qed.

Lemma touches_only_build_kpi_table :
  touches_only visualize_trends.build_kpi_table [kpi_path].
Proof.
  intros w p Hp.
  assert (p ≠ kpi_path) as Hne by (intros ->; apply Hp; by left).
  assert ((visualize_trends.build_kpi_table w).2 = (build_outcome w).2) as ->.
  { rewrite build_kpi_table_run. by destruct (build_outcome w) as [[l|e] w1]. }
  rewrite build_outcome_fs. destruct (build_outcome w).1; by rewrite ?lookup_insert_ne.
Qed.

Lemma touches_only_script : touches_only calculate_kpis.script [kpi_path].
Proof.
  intros w p Hp.
  assert (p ≠ kpi_path) as Hne by (intros ->; apply Hp; by left).
  destruct (script_outcome w) as (_ & -> & _).
  rewrite build_outcome_fs. destruct (build_outcome w).1; by rewrite ?lookup_insert_ne.
Qed.

Lemma touches_only_load_or_build :
  touches_only visualize_trends.load_or_build_kpi_table [kpi_path].
Proof.
  unfold visualize_trends.load_or_build_kpi_table. cbv zeta.
  apply touches_only_bind; [apply touches_only_path_exists|].
  intros [|]; [apply touches_only_read_csv|apply touches_only_build_kpi_table].
Qed.

Lemma touches_only_plot_trend d kpi_column ylabel output_filename :
  touches_only (visualize_trends.plot_trend d kpi_column ylabel output_filename)
    [path_join OUTPUT_DIR output_filename].
Proof.
  unfold visualize_trends.plot_trend.
  destruct (negb _); [apply touches_only_raise|].
  destruct (negb _); [apply touches_only_raise|].
  apply touches_only_bind; [apply touches_only_lift|]. intros x.
  apply touches_only_bind; [apply touches_only_lift|]. intros y.
  apply touches_only_savefig.
Qed.

Lemma touches_only_for_each_chart d (cs : list visualize_trends.chart) :
  touches_only
    (visualize_trends.for_each cs
       (λ chart, visualize_trends.plot_trend d (visualize_trends.chart_column chart)
                   (visualize_trends.chart_ylabel chart)
                   (visualize_trends.chart_filename chart)))
    (chart_path <$> cs).
Proof.
  induction cs as [|c cs IH]; [apply touches_only_ret|].
  cbn [visualize_trends.for_each]. apply touches_only_bind.
  - eapply touches_only_mono; [|apply touches_only_plot_trend].
    intros p Hp. apply list_elem_of_singleton in Hp as ->. rewrite fmap_cons. by left.
  - intros _. eapply touches_only_mono; [|exact IH].
    intros p Hp. rewrite fmap_cons. by right.
Qed.

Lemma touches_only_generate_trend_charts d :
  touches_only (visualize_trends.generate_trend_charts d) chart_paths.
Proof. apply touches_only_for_each_chart. Qed.

Lemma touches_only_main :
  touches_only visualize_trends.main (kpi_path :: chart_paths).
Proof.
  unfold visualize_trends.main. apply touches_only_bind.
  - eapply touches_only_mono; [|apply touches_only_load_or_build].
    intros p Hp. apply list_elem_of_singleton in Hp as ->. by left.
  - intros d. apply touches_only_bind.
    + eapply touches_only_mono; [|apply touches_only_generate_trend_charts].
      intros p Hp. by right.
    + intros _. apply touches_only_bind; [apply touches_only_lift|].
      intros view. apply touches_only_print.
Qed.

End Footprint.

(** X8. Whatever happens, the two entry points write nothing but their
    own artifacts: [calculate_kpis.py] changes no file other than the KPI
    table, and the [__main__] block of [visualize_trends.py] changes no
    file other than the KPI table and the four charts.  In particular
    neither ever changes the two source files. *)
Theorem entry_points_footprint `{Backend} :
  touches_only calculate_kpis.script [kpi_path] ∧
  touches_only visualize_trends.main (kpi_path :: chart_paths) ∧
  (∀ d, touches_only (visualize_trends.generate_trend_charts d) chart_paths) ∧
  ∀ w, fs (calculate_kpis.script w).2 !! income_path = fs w !! income_path ∧
       fs (calculate_kpis.script w).2 !! balance_path = fs w !! balance_path ∧
       fs (visualize_trends.main w).2 !! income_path = fs w !! income_path ∧
       fs (visualize_trends.main w).2 !! balance_path = fs w !! balance_path.
Proof.
  split_and!.
  - apply touches_only_script.
  - apply touches_only_main.
  - apply touches_only_generate_trend_charts.
  - intros w. split_and!.
    + apply touches_only_script. apply (bool_decide_unpack _). by vm_compute.
    + apply touches_only_script. apply (bool_decide_unpack _). by vm_compute.
    + apply touches_only_main. apply (bool_decide_unpack _). by vm_compute.
    + apply touches_only_main. apply (bool_decide_unpack _). by vm_compute.
Qed.



(** ** The reporter, end to end *)

Section MainRuns.
Context `{Backend}.
Implicit Types (w : world) (d : DataFrame).

Lemma loaded_logged w events income balance :
  loaded w income balance → loaded (logged w events) income balance.
Proof.
  intros [Hi Hb]. split.
  - change (read_result (logged w events) income_path = Ok income).
    by rewrite (read_result_fs w (logged w events)).
  - change (read_result (logged w events) balance_path = Ok balance).
    by rewrite (read_result_fs w (logged w events)).
Qed.

(** [generate_trend_charts], as a pair. *)
Lemma generate_trend_charts_run d w :
  "Year" ∈ labels d →
  ∃ w', visualize_trends.generate_trend_charts d w =
        (match first_missing d visualize_trends.charts with
         | None => Ok ()
         | Some column => Raise (missing_column column)
         end, w') ∧
        trace w' = trace w ++ main_charts d ∧
        ∀ p, p ∉ chart_paths → fs w' !! p = fs w !! p.
Proof.
  intros Hy.
  destruct (for_each_chart_outcome d visualize_trends.charts w Hy chart_paths_distinct)
    as (Hr & Ht & _).
  pose proof (touches_only_generate_trend_charts d w) as Hf.
  unfold visualize_trends.generate_trend_charts in *.
  destruct (visualize_trends.for_each _ _ w) as [r w']. cbn in *. subst r. eauto.
Qed.

Lemma bind_run {A B} (m : M A) (k : A → M B) w :
  (m ≫= k) w = match m w with
               | (Ok a, w') => k a w'
               | (Raise e, w') => (Raise e, w')
               end.
Proof. reflexivity. Qed.

(** The [__main__] block once it has its table, from world [w1]. *)
Lemma main_after_load d w1 :
  "Year" ∈ labels d →
  let rest :=
    (_ ← visualize_trends.generate_trend_charts d;
     view ← lift (pd.getitem_list d main_view_columns);
     print view) w1 in
  rest.1 = main_result d ∧
  trace rest.2 = trace w1 ++ main_charts d ++ main_print d ∧
  ∀ p, p ∉ chart_paths → fs rest.2 !! p = fs w1 !! p.
Proof.
  intros Hy. cbv zeta. rewrite bind_run.
  destruct (generate_trend_charts_run d w1 Hy) as (w2 & Hrun & Ht & Hf). rewrite Hrun.
  unfold main_result, main_print.
  destruct (first_missing d visualize_trends.charts) as [column|].
  - cbn [fst snd]. rewrite app_nil_r. by split_and!.
  - rewrite lift_bind. destruct (pd.getitem_list d main_view_columns) as [view|e].
    + unfold print, log. cbn [fst snd trace fs]. rewrite Ht, <- app_assoc. by split_and!.
    + cbn [fst snd]. rewrite app_nil_r. by split_and!.
Qed.

Lemma main_run w :
  visualize_trends.main w =
  match visualize_trends.load_or_build_kpi_table w with
  | (Ok d, w1) =>
      (_ ← visualize_trends.generate_trend_charts d;
       view ← lift (pd.getitem_list d main_view_columns);
       print view) w1
  | (Raise e, w1) => (Raise e, w1)
  end.
Proof. reflexivity. Qed.

Lemma first_missing_none d (cs : list visualize_trends.chart) :
  Forall (λ c, visualize_trends.chart_column c ∈ labels d) cs →
  first_missing d cs = None ∧ charts_before_failure d cs = cs.
Proof.
  induction 1 as [|c cs Hc _ [IH1 IH2]]; [done|]. cbn.
  rewrite bool_decide_eq_true_2 by done. by rewrite IH1, IH2.
Qed.

Lemma getitem_list_present d names :
  Forall (λ n, n ∈ labels d) names → ∃ view, pd.getitem_list d names = Ok view.
Proof.
  intros Hn. unfold pd.getitem_list.
  rewrite (filter_nil_Forall (λ n, n ∉ labels d)); [by eexists|].
  eapply Forall_impl; [exact Hn|]. cbn. tauto.
Qed.

Lemma kpi_path_not_chart : kpi_path ∉ chart_paths.
Proof. apply (bool_decide_unpack _). vm_compute. exact I. Qed.

End MainRuns.

(** X10. On a table that has [Year] and the four chart columns,
    [generate_trend_charts] succeeds, and afterwards each of the four
    chart files holds the rendering of its own figure: the chart written
    for one ratio is not overwritten by a later one. *)
Theorem charts_written `{Backend} d w :
  "Year" ∈ labels d →
  Forall (λ c, visualize_trends.chart_column c ∈ labels d) visualize_trends.charts →
  let out := visualize_trends.generate_trend_charts d w in
  out.1 = Ok () ∧
  trace out.2 = trace w ++ (EvWrite <$> chart_paths) ∧
  ∀ c, c ∈ visualize_trends.charts →
       ∃ x y, pd.getitem d "Year" = Ok x ∧
              pd.getitem d (visualize_trends.chart_column c) = Ok y ∧
              fs out.2 !! chart_path c
              = Some (render_png (trend_figure x y (visualize_trends.chart_column c)
                                    (visualize_trends.chart_ylabel c))).
Proof.
  intros Hy Hall. cbv zeta. unfold visualize_trends.generate_trend_charts.
  pose proof chart_paths_distinct as Hnd. revert w.
  assert (∀ cs : list visualize_trends.chart,
            EvWrite <$> (chart_path <$> cs) = (EvWrite ∘ chart_path) <$> cs) as Hcomp
    by (intros cs; by rewrite <- list_fmap_compose).
  unfold chart_paths. rewrite Hcomp.
  induction Hall as [|c cs Hc Hall IH]; intros w.
  - cbn. rewrite app_nil_r. split_and!; [done..|]. by intros c ?%elem_of_nil.
  - rewrite fmap_cons, NoDup_cons in Hnd. destruct Hnd as [Hfresh Hnd].
    rewrite chart_step by done. rewrite bool_decide_eq_true_2 by done.
    destruct (getitem_present d "Year" Hy) as [x Hx].
    destruct (getitem_present d _ Hc) as [y Hcy]. rewrite Hx, Hcy.
    match goal with |- context [visualize_trends.for_each cs ?f ?w1] =>
      destruct (IH Hnd w1) as (Hr & Ht & Hfs);
      pose proof (touches_only_for_each_chart d cs w1 (chart_path c) Hfresh) as Hkeep
    end.
    split_and!.
    + exact Hr.
    + rewrite Ht. cbn [trace fmap list_fmap compose]. by rewrite <- app_assoc.
    + intros c' [->|Hin]%elem_of_cons.
      * exists x, y. split_and!; [done..|]. rewrite Hkeep. cbn [fs].
        by rewrite lookup_insert_eq.
      * rewrite <- Hx. by apply Hfs.
Qed.

Lemma charts_written_witness :
  fs (@visualize_trends.generate_trend_charts sample.backend sample.kpi_table
        sample.fresh_world).2 !! "output/operating_margin_trend.png"
  = Some "OperatingMargin Trend Over Time".
Proof.
  destruct (@charts_written sample.backend sample.kpi_table sample.fresh_world)
    as (_ & _ & Hfiles).
  - apply (bool_decide_unpack _). vm_compute. exact I.
  - apply (bool_decide_unpack _). vm_compute. exact I.
  - destruct (Hfiles (visualize_trends.Chart "OperatingMargin" "Operating Margin"
                        "operating_margin_trend.png")) as (x & y & _ & _ & Hfile).
    + unfold visualize_trends.charts. by left.
    + vm_compute. reflexivity.
Defined.

(** X11. From the two source files alone, with the spec's schemas and
    no KPI table on disk, the [__main__] block of [visualize_trends.py]
    succeeds: it builds and persists the table, writes the four charts
    in order and prints the view of six columns. *)
Theorem main_builds_and_reports `{Backend} w income balance :
  loaded w income balance →
  valid_inputs income balance →
  fs w !! kpi_path = None →
  ∃ d view w',
    kpi_frame income balance = Ok d ∧
    pd.getitem_list d main_view_columns = Ok view ∧
    visualize_trends.main w = (Ok (), w') ∧
    trace w' = trace w
               ++ [EvExists kpi_path; EvRead income_path; EvRead balance_path;
                   EvWrite kpi_path]
               ++ (EvWrite <$> chart_paths) ++ [EvPrint view] ∧
    fs w' !! kpi_path = Some (format_csv d).
Proof.
  intros Hl Hv Hnone.
  destruct (valid_inputs_merge _ _ Hv) as (lk & rk & m & s & Hlk & _ & Hm & Hmerge & Hs & _).
  assert (kpi_frame income balance = Ok (with_kpis m s)) as Hk
    by (apply kpi_frame_Ok; eauto).
  assert ("Year" ∈ labels (with_kpis m s)) as Hy.
  { apply labels_with_kpis_mono. subst m. apply labels_joined_left; [done| |].
    - by eapply select_singleton_in.
    - rewrite elem_of_overlap. tauto. }
  assert (∀ t, t ∈ derived_columns → t ∈ labels (with_kpis m s)) as Hder
    by (intros t Ht; by apply labels_with_kpis_derived).
  revert Hk Hy Hder. generalize (with_kpis m s). clear m s Hm Hmerge Hs Hlk lk rk.
  intros d Hk Hy Hder.
  assert (Forall (λ c, visualize_trends.chart_column c ∈ labels d) visualize_trends.charts)
    as Hcharts.
  { unfold visualize_trends.charts. rewrite !Forall_cons, Forall_nil.
    cbn [visualize_trends.chart_column].
    split_and!; [..|done]; apply Hder; unfold derived_columns; rewrite !elem_of_cons; tauto. }
  destruct (getitem_list_present d main_view_columns) as [view Hview].
  { unfold main_view_columns. rewrite !Forall_cons, Forall_nil.
    split_and!; [exact Hy|..|done]; apply Hder; unfold derived_columns;
      rewrite !elem_of_cons; tauto. }
  destruct (first_missing_none d _ Hcharts) as [Hfm Hcb].
  exists d, view. rewrite main_run, load_or_build_kpi_table_run.
  rewrite bool_decide_eq_false_2 by (rewrite Hnone; by intros [? ?]).
  rewrite (build_kpi_table_valid _ income balance d (loaded_logged _ _ _ _ Hl) Hk).
  match goal with |- context [(mbind ?k ?g) ?w1] =>
    pose proof (main_after_load d w1 Hy) as Hmain; cbv zeta in Hmain;
    set (rest := (mbind k g) w1) in *
  end.
  destruct Hmain as (Hr & Ht & Hf). exists rest.2.
  unfold main_result, main_print, main_charts in Hr, Ht. rewrite Hfm, Hview in Hr, Ht.
  rewrite Hcb in Ht.
  split_and!; [done..| | |].
  - rewrite <- Hr. apply surjective_pairing.
  - rewrite Ht. unfold chart_paths, logged. cbn [trace].
    rewrite <- (list_fmap_compose chart_path EvWrite). by rewrite <- !app_assoc.
  - rewrite (Hf kpi_path kpi_path_not_chart). unfold logged. cbn [fs].
    by rewrite lookup_insert_eq.
Qed.

Lemma main_builds_and_reports_witness :
  (@visualize_trends.main sample.backend sample.fresh_world).1 = Ok () ∧
  length (trace (@visualize_trends.main sample.backend sample.fresh_world).2) = 9%nat.
Proof.
  destruct (@main_builds_and_reports sample.backend sample.fresh_world
              sample.income_frame sample.balance_frame)
    as (d & view & w' & _ & _ & Hrun & Ht & _).
  - split; vm_compute; reflexivity.
  - apply (bool_decide_unpack _). vm_compute. exact I.
  - vm_compute. reflexivity.
  - rewrite Hrun. split; [reflexivity|]. cbn [snd]. rewrite Ht. reflexivity.
Defined.

(** X12. With a KPI table on disk the [__main__] block trusts it: the
    sources are not read (they may be absent) and the table is not
    rewritten.  If the cached table lacks the column of a chart, the
    run raises after the charts before it; if it has the chart columns
    but lacks a column of the printed view (only [ROA] can be missing
    then), all four charts are written and the run raises the
    [KeyError] of the view afterwards. *)
Theorem main_trusts_cache `{Backend} w bytes d :
  fs w !! kpi_path = Some bytes →
  parse_csv bytes = Ok d →
  "Year" ∈ labels d →
  let out := visualize_trends.main w in
  out.1 = main_result d ∧
  trace out.2 = trace w ++ [EvExists kpi_path; EvRead kpi_path]
                ++ main_charts d ++ main_print d ∧
  fs out.2 !! kpi_path = Some bytes ∧
  (first_missing d visualize_trends.charts = None → "ROA" ∉ labels d →
   out.1 = Raise (KeyErrorNotInIndex ["ROA"]) ∧
   main_charts d = EvWrite <$> chart_paths).
Proof.
  intros Hb Hd Hy. cbv zeta.
  rewrite main_run, load_or_build_kpi_table_run.
  rewrite bool_decide_eq_true_2 by (rewrite Hb; eauto).
  unfold read_csv, logged. cbn [fs trace]. rewrite Hb, Hd.
  match goal with |- context [(mbind ?k ?g) ?w1] =>
    destruct (main_after_load d w1 Hy) as (Hr & Ht & Hf) end.
  split_and!.
  - exact Hr.
  - rewrite Ht. cbn [trace]. by rewrite <- !app_assoc.
  - rewrite (Hf kpi_path kpi_path_not_chart). exact Hb.
  - intros Hfm Hroa. rewrite Hr. unfold main_result, main_charts. rewrite Hfm.
    assert (Forall (λ c, visualize_trends.chart_column c ∈ labels d) visualize_trends.charts)
      as Hall.
    { unfold visualize_trends.charts in *. cbn [first_missing] in Hfm.
      rewrite !Forall_cons, Forall_nil.
      repeat (case_bool_decide; [|done]). by split_and!. }
    destruct (first_missing_none d _ Hall) as [_ ->].
    split; [|unfold chart_paths; by rewrite <- list_fmap_compose].
    unfold visualize_trends.charts in Hall.
    apply Forall_cons in Hall as [Hom Hall]. apply Forall_cons in Hall as [Hnm Hall].
    apply Forall_cons in Hall as [Hroe Hall]. apply Forall_cons in Hall as [Hde _].
    cbn in Hom, Hnm, Hroe, Hde.
    unfold pd.getitem_list, main_view_columns.
    rewrite !filter_cons_False by (intros Hn; by apply Hn).
    rewrite filter_cons_True by done.
    by rewrite !filter_cons_False, filter_nil by (intros Hn; by apply Hn).
Qed.

Lemma main_trusts_cache_witness :
  (@visualize_trends.main more_samples.cache_backend more_samples.cache_only_world).1
  = Raise (KeyErrorNotInIndex ["ROA"]).
Proof.
  destruct (@main_trusts_cache more_samples.cache_backend more_samples.cache_only_world
              "cache" more_samples.cached_without_roa) as (_ & _ & _ & Hroa).
  - vm_compute. reflexivity.
  - vm_compute. reflexivity.
  - apply (bool_decide_unpack _). vm_compute. exact I.
  - apply Hroa.
    + vm_compute. reflexivity.
    + apply (bool_decide_unpack _). vm_compute. exact I.
Defined.

(** ** The header of the table and the printed view *)

Section Header.
Context `{Backend}.
Implicit Types (w : world) (d : DataFrame).

Lemma labels_without_filter on d :
  labels (without on d) = filter (λ l, l ≠ on) (labels d).
Proof.
  unfold without. induction d as [|[l c] d IH]; [done|]. rewrite labels_cons.
  destruct (decide (l = on)) as [Hl|Hl].
  - by rewrite !filter_cons_False by (cbn; tauto).
  - rewrite !filter_cons_True by done. by rewrite labels_cons, IH.
Qed.

Lemma labels_relabel (g : column → column) d :
  labels ((λ p, (p.1, g p.2)) <$> d) = labels d.
Proof. unfold labels. rewrite <- list_fmap_compose. by apply list_fmap_ext. Qed.

Lemma renamed_idemp l : renamed (renamed l) = renamed l.
Proof.
  destruct (renamed_cases l) as [[-> ->]|[[-> ->]|(_ & _ & Hl)]];
    [by vm_compute..|by rewrite !Hl].
Qed.

Lemma rename_idemp d : pd.rename renaming (pd.rename renaming d) = pd.rename renaming d.
Proof.
  rewrite !rename_fmap, <- list_fmap_compose. apply list_fmap_ext.
  intros i [l c] _. cbn. by rewrite renamed_idemp.
Qed.

(** [rename] keeps distinct labels distinct when no column carries one
    of the new names. *)
Lemma renamed_inj_on (ls : list string) l1 l2 :
  "CurrentAssets" ∉ ls → "CurrentLiabilities" ∉ ls →
  l1 ∈ ls → l2 ∈ ls → renamed l1 = renamed l2 → l1 = l2.
Proof.
  intros Hca Hcl H1 H2.
  destruct (renamed_cases l1) as [[-> ->]|[[-> ->]|(? & ? & ->)]],
           (renamed_cases l2) as [[-> ->]|[[-> ->]|(? & ? & ->)]];
    try done; intros Heq; subst; done.
Qed.

Lemma NoDup_renamed (ls : list string) :
  "CurrentAssets" ∉ ls → "CurrentLiabilities" ∉ ls →
  NoDup ls → NoDup (renamed <$> ls).
Proof.
  intros Hca Hcl Hnd. apply NoDup_fmap_2_strong; [|done].
  intros l1 l2 H1 H2. by apply (renamed_inj_on ls).
Qed.

(** A label that selects one column is the label of one pair. *)
Lemma filter_singleton d n c :
  select d n = [c] → filter (λ p, p.1 = n) d = [(n, c)].
Proof.
  unfold select. destruct (filter (λ p, p.1 = n) d) as [|[l c'] [|q r]] eqn:Hf; try done.
  cbn. intros [= ->]. f_equal. f_equal.
  assert ((l, c) ∈ filter (λ p, p.1 = n) d) as Hin by (rewrite Hf; left).
  by apply list_elem_of_filter in Hin as [Hl _].
Qed.

(** The merged frame of valid inputs, and its labels. *)
Lemma valid_inputs_header income balance m :
  valid_inputs income balance →
  pd.merge income (pd.rename renaming balance) "Year" = Ok m →
  labels m = labels income ++ filter (λ n, n ≠ "Year") (renamed <$> labels balance) ∧
  NoDup (labels m).
Proof.
  intros Hv Hm. pose proof Hv as (Hni & Hnb & Hci & Hcb & Hd & Hca & Hcl).
  destruct (valid_inputs_merge _ _ Hv) as (lk & rk & m' & s & _ & _ & -> & Hm' & _).
  rewrite Hm' in Hm. injection Hm as <-.
  rewrite joined_disjoint by (by apply disjoint_overlap).
  rewrite labels_app, !labels_relabel, labels_without_filter, labels_rename.
  split; [done|].
  apply NoDup_app. split_and!; [done| |].
  - intros l Hl [Hne Hin]%list_elem_of_filter. rewrite Forall_forall in Hd.
    apply Hne, (Hd l Hl). by rewrite labels_rename.
  - apply NoDup_filter. by apply NoDup_renamed.
Qed.

End Header.

(** X13. The header of the KPI table.  On inputs with the spec's schemas
    that carry none of the ten derived labels, the table has the columns
    of the income statement in their order, then those of the balance
    sheet other than [Year] in their order (the two current columns under
    their new names), then the ten ratios; no label is repeated, and none
    carries a merge suffix. *)
Theorem table_header `{Backend} w income balance :
  loaded w income balance →
  valid_inputs income balance →
  Forall (λ t, (t ∉ labels income) ∧ (t ∉ labels balance)) derived_columns →
  ∃ d w',
    visualize_trends.build_kpi_table w = (Ok d, w') ∧
    labels d = labels income
               ++ filter (λ n, n ≠ "Year") (renamed <$> labels balance)
               ++ derived_columns ∧
    NoDup (labels d).
Proof.
  intros Hl Hv Hfresh.
  destruct (valid_inputs_merge _ _ Hv) as (lk & rk & m & s & _ & _ & _ & Hm & Hs & _).
  destruct (valid_inputs_header _ _ _ Hv Hm) as [Hlab Hnd].
  pose proof (derived_fresh_in_merge _ _ _ Hm Hfresh) as Hf.
  exists (with_kpis m s). eexists. split_and!.
  - apply (build_kpi_table_valid _ income balance); [done|]. apply kpi_frame_Ok. eauto.
  - by rewrite labels_with_kpis_fresh, Hlab, <- app_assoc.
  - rewrite labels_with_kpis_fresh by done. apply NoDup_app. split_and!; [done| |].
    + intros l Hl' Hder. rewrite Forall_forall in Hf. by apply (Hf l Hder).
    + apply (bool_decide_unpack _). by vm_compute.
Qed.

Lemma table_header_witness :
  labels sample.kpi_table =
  ["Year"; "Revenue"; "OperatingIncome"; "NetIncome"; "InterestExpense";
   "TotalAssets"; "TotalEquity"; "TotalLiabilities"; "Inventory"; "AccountsReceivable";
   "CurrentAssets"; "CurrentLiabilities"] ++ derived_columns.
Proof.
  destruct (@table_header sample.backend sample.fresh_world
              sample.income_frame sample.balance_frame) as (d & w' & Hb & Hlab & _).
  - split; vm_compute; reflexivity.
  - apply (bool_decide_unpack _). vm_compute. exact I.
  - apply (bool_decide_unpack _). vm_compute. exact I.
  - assert (d = sample.kpi_table) as <-.
    { apply (f_equal fst) in Hb. cbn [fst] in Hb.
      assert (Ok d = Ok sample.kpi_table) as Heq; [|by injection Heq].
      rewrite <- Hb. vm_compute. reflexivity. }
    rewrite Hlab. vm_compute. reflexivity.
Defined.

(** X14. [calculate_kpis.py] ends by printing a view of the table: on
    inputs with the spec's schemas the last operation of the run is that
    print, and the view has exactly the five columns Year,
    OperatingMargin, NetMargin, ROA, ROE, in this order, each being the
    column of that label in the table. *)
Theorem script_prints_view `{Backend} w income balance :
  loaded w income balance →
  valid_inputs income balance →
  ∃ l view w',
    calculate_kpis.script w = (Ok l, w') ∧
    last (trace w') = Some (EvPrint view) ∧
    labels view = script_view_columns ∧
    ∀ n, n ∈ script_view_columns →
         ∃ c, select (df l) n = [c] ∧ select view n = [c].
Proof.
  intros Hl Hv.
  destruct (valid_inputs_merge _ _ Hv)
    as (lk & rk & m & s & Hlk & Hrk & Hm & Hmerge & Hs & Hlen).
  assert (kpi_frame income balance = Ok (with_kpis m s)) as Hk
    by (apply kpi_frame_Ok; eauto).
  assert (∃ c, select (with_kpis m s) "Year" = [c]) as [cy Hcy].
  { rewrite select_with_kpis_source
      by (unfold derived_columns; rewrite !not_elem_of_cons;
          split_and!; try discriminate; apply not_elem_of_nil).
    destruct Hv as (_ & _ & _ & _ & Hd & _). subst m.
    rewrite select_joined;
      [|done|done|rewrite (disjoint_overlap _ _ Hd); apply not_elem_of_nil].
    rewrite Hlk, (select_absent (without _ _)); [by eexists|].
    rewrite labels_without. by intros [_ ?]. }
  assert (∀ t c, (t, c) ∈ kpi_columns s → select (with_kpis m s) t = [c]) as Hkpi.
  { intros t c Hin. apply select_kpis_once; [|done].
    rewrite Forall_forall in Hlen. apply Hlen.
    unfold kpi_columns in Hin. unfold derived_columns.
    rewrite !elem_of_cons, elem_of_nil in Hin. rewrite !elem_of_cons.
    intuition (simplify_eq; tauto). }
  revert Hk Hcy Hkpi. generalize (with_kpis m s). intros d Hk Hcy Hkpi.
  pose proof (Hkpi "OperatingMargin" _ ltac:(unfold kpi_columns; rewrite !elem_of_cons; tauto))
    as Hom.
  pose proof (Hkpi "NetMargin" _ ltac:(unfold kpi_columns; rewrite !elem_of_cons; tauto))
    as Hnm.
  pose proof (Hkpi "ROA" _ ltac:(unfold kpi_columns; rewrite !elem_of_cons; tauto)) as Hroa.
  pose proof (Hkpi "ROE" _ ltac:(unfold kpi_columns; rewrite !elem_of_cons; tauto)) as Hroe.
  clear Hkpi.
  set (view := [("Year", cy);
                ("OperatingMargin", pd.col_truediv (OperatingIncome s) (Revenue s));
                ("NetMargin", pd.col_truediv (NetIncome s) (Revenue s));
                ("ROA", pd.col_truediv (NetIncome s) (TotalAssets s));
                ("ROE", pd.col_truediv (NetIncome s) (TotalEquity s))]).
  assert (pd.getitem_list d ["Year"; "OperatingMargin"; "NetMargin"; "ROA"; "ROE"]
          = Ok view) as Hview.
  { unfold pd.getitem_list.
    rewrite !filter_cons_False, filter_nil
      by (intros Hn; apply Hn; by eapply select_singleton_in).
    cbn [mbind list_bind app]. f_equal.
    by rewrite (filter_singleton _ _ _ Hcy), (filter_singleton _ _ _ Hom),
      (filter_singleton _ _ _ Hnm), (filter_singleton _ _ _ Hroa),
      (filter_singleton _ _ _ Hroe). }
  eexists _, view, _. split_and!.
  - rewrite script_run, (build_outcome_loaded _ _ _ Hl), Hk. cbn [df]. by rewrite Hview.
  - unfold logged. cbn [trace]. by rewrite last_snoc.
  - done.
  - intros n Hn. unfold script_view_columns in Hn. cbn [df].
    rewrite !elem_of_cons, elem_of_nil in Hn.
    destruct Hn as [->|[->|[->|[->|[->|[]]]]]]; eexists; (split; [eassumption|]);
      by vm_compute.
Qed.

Lemma script_prints_view_witness :
  ∃ view, last (trace (@calculate_kpis.script sample.backend sample.fresh_world).2)
          = Some (EvPrint view) ∧
          labels view = ["Year"; "OperatingMargin"; "NetMargin"; "ROA"; "ROE"].
Proof.
  destruct (@script_prints_view sample.backend sample.fresh_world
              sample.income_frame sample.balance_frame)
    as (l & view & w' & Hrun & Hlast & Hlab & _).
  - split; vm_compute; reflexivity.
  - apply (bool_decide_unpack _). vm_compute. exact I.
  - exists view. rewrite Hrun. by split.
Defined.

(** ** Failed builds, short names and missing values *)

Section Failures.
Context `{Backend}.
Implicit Types (w : world) (d : DataFrame).

(** A failed build has only read. *)
Lemma build_outcome_Raise w e :
  (build_outcome w).1 = Raise e →
  ∃ reads, (build_outcome w).2 = logged w reads ∧
           (reads = [EvRead income_path] ∨ reads = [EvRead income_path; EvRead balance_path]).
Proof.
  unfold build_outcome.
  destruct (read_result w income_path) as [income|]; [|by eauto].
  destruct (read_result w balance_path) as [balance|]; [|by eauto].
  destruct (kpi_frame income balance) as [d|]; [done|by eauto].
Qed.

(** IEEE 754: a quotient with a NaN operand is NaN. *)
Lemma div_nan x y :
  PrimFloat.is_nan x = true ∨ PrimFloat.is_nan y = true →
  PrimFloat.is_nan (x / y)%float = true.
Proof.
  intros Hxy. apply is_nan_spec. rewrite FloatAxioms.div_spec. unfold SF64div, SFdiv.
  destruct Hxy as [Hx%is_nan_spec|Hy%is_nan_spec].
  - by rewrite Hx.
  - rewrite Hy. by destruct (Prim2SF x).
Qed.

Lemma cell_truediv_missing a b :
  is_missing a = true ∨ is_missing b = true →
  ∃ f, cell_truediv a b = F64 f ∧ PrimFloat.is_nan f = true.
Proof.
  intros Hab. eexists; split; [done|]. apply div_nan.
  destruct Hab as [Ha|Hb]; [left; by destruct a|right; by destruct b].
Qed.

End Failures.

(** X15. When no KPI table is on disk and the build fails, the
    [__main__] block of [visualize_trends.py] stops there with the
    builder's error: it has tested for the table and read one or both
    source files, and every file is as before (no table, no chart). *)
Theorem main_stops_at_failed_build `{Backend} w e :
  fs w !! kpi_path = None →
  (visualize_trends.build_kpi_table w).1 = Raise e →
  let out := visualize_trends.main w in
  out.1 = Raise e ∧
  fs out.2 = fs w ∧
  ∃ reads, trace out.2 = trace w ++ EvExists kpi_path :: reads ∧
           (reads = [EvRead income_path] ∨
            reads = [EvRead income_path; EvRead balance_path]).
Proof.
  intros Hnone Hfail. cbv zeta.
  rewrite main_run, load_or_build_kpi_table_run.
  rewrite bool_decide_eq_false_2 by (rewrite Hnone; by intros [? ?]).
  rewrite build_kpi_table_run in Hfail |- *.
  destruct (build_outcome_ext w (logged w [EvExists kpi_path]) eq_refl eq_refl) as [Hsame _].
  assert ((build_outcome w).1 = Raise e) as Hout
    by (destruct (build_outcome w) as [[l|e'] w']; [done|by injection Hfail as ->]).
  rewrite Hout in Hsame.
  destruct (build_outcome_Raise _ _ Hsame) as (reads & Hw & Hreads).
  destruct (build_outcome (logged w [EvExists kpi_path])) as [r w1].
  cbn [fst snd] in Hsame, Hw. subst r w1. cbn [fst snd].
  split_and!; [done..|]. exists reads. split; [|done].
  unfold logged. cbn [trace]. by rewrite <- app_assoc.
Qed.

Lemma main_stops_at_failed_build_witness :
  (@visualize_trends.main sample.backend sample.incomplete_world).1
  = Raise (KeyError "CurrentAssets") ∧
  fs (@visualize_trends.main sample.backend sample.incomplete_world).2
  = fs sample.incomplete_world.
Proof.
  destruct (@main_stops_at_failed_build sample.backend sample.incomplete_world
              (KeyError "CurrentAssets")) as (Hr & Hfs & _).
  - vm_compute. reflexivity.
  - vm_compute. reflexivity.
  - by split.
Defined.

(** X16. A balance sheet that already uses the short names is accepted:
    renaming is idempotent, so a run whose balance sheet has
    [CurrentAssets] and [CurrentLiabilities] in place of the two
    [TotalCurrent...] labels has the same outcome, the same table or the
    same error, as a run on the sheet with the long names. *)
Theorem renamed_balance_accepted `{Backend} w1 w2 income balance :
  loaded w1 income balance →
  loaded w2 income (pd.rename renaming balance) →
  (visualize_trends.build_kpi_table w2).1 = (visualize_trends.build_kpi_table w1).1 ∧
  (calculate_kpis.script w2).1 = (calculate_kpis.script w1).1.
Proof.
  intros Hl1 Hl2.
  assert (kpi_frame income (pd.rename renaming balance) = kpi_frame income balance) as Hk
    by (unfold kpi_frame; by rewrite rename_idemp).
  rewrite !build_kpi_table_run, !script_run.
  rewrite (build_outcome_loaded _ _ _ Hl1), (build_outcome_loaded _ _ _ Hl2), Hk.
  rewrite rename_idemp.
  destruct (kpi_frame income balance) as [d|e]; [|done]. cbn [df].
  split; [done|]. by destruct (pd.getitem_list d _).
Qed.

Lemma renamed_balance_accepted_witness :
  (@visualize_trends.build_kpi_table more_samples.short_names_backend
     more_samples.short_names_world).1
  = (@visualize_trends.build_kpi_table more_samples.short_names_backend
       more_samples.source_world).1.
Proof.
  apply (@renamed_balance_accepted more_samples.short_names_backend
           more_samples.source_world more_samples.short_names_world
           sample.income_frame sample.balance_frame).
  - split; vm_compute; reflexivity.
  - split; vm_compute; reflexivity.
Defined.

(** X17. Missing values propagate and rows are kept: on inputs with the
    spec's schemas, in every row where the numerator or the denominator
    of a ratio is missing (NaN) the ratio is NaN; the builder neither
    fills nor drops such a row. *)
Theorem missing_value_propagates `{Backend} w income balance :
  loaded w income balance →
  valid_inputs income balance →
  ∃ d w',
    visualize_trends.build_kpi_table w = (Ok d, w') ∧
    (∀ t n1 n2 i a b,
       (t, n1, n2) ∈ ratio_table →
       value d n1 i = Some a → value d n2 i = Some b →
       is_missing a = true ∨ is_missing b = true →
       ∃ f, value d t i = Some (F64 f) ∧ PrimFloat.is_nan f = true) ∧
    (∀ i x y z,
       value d "CurrentAssets" i = Some x → value d "Inventory" i = Some y →
       value d "CurrentLiabilities" i = Some z → is_missing z = true →
       ∃ f, value d "QuickRatio" i = Some (F64 f) ∧ PrimFloat.is_nan f = true).
Proof.
  intros Hl Hv.
  destruct (valid_inputs_merge _ _ Hv) as (lk & rk & m & s & _ & _ & _ & Hmerge & Hs & Hlen).
  exists (with_kpis m s). eexists. split_and!.
  - apply (build_kpi_table_valid _ income balance); [done|]. apply kpi_frame_Ok. eauto.
  - intros t n1 n2 i a b Hin Ha Hb Hmiss.
    rewrite (ratio_table_rows _ i t n1 n2); [|by apply with_kpis_rows|done].
    unfold ratio_at. rewrite Ha, Hb. cbn.
    destruct (cell_truediv_missing a b Hmiss) as (f & -> & Hf). eauto.
  - intros i x y z Hx Hy Hz Hmiss.
    destruct (with_kpis_rows m s i Hs Hlen) as (_&_&_&_&_&->&_).
    unfold diff_ratio_at. rewrite Hx, Hy, Hz. cbn.
    destruct (cell_truediv_missing (cell_sub x y) z (or_intror Hmiss)) as (f & -> & Hf).
    eauto.
Qed.

Lemma missing_value_propagates_witness :
  ∃ d f, (@visualize_trends.build_kpi_table
            (more_samples.backend_of more_samples.income_with_gap sample.balance_frame)
            more_samples.source_world).1 = Ok d ∧
         value d "NetIncome" 1 = Some (F64 nan) ∧
         value d "ROE" 1 = Some (F64 f) ∧ PrimFloat.is_nan f = true.
Proof.
  destruct (@missing_value_propagates
              (more_samples.backend_of more_samples.income_with_gap sample.balance_frame)
              more_samples.source_world more_samples.income_with_gap sample.balance_frame)
    as (d & w' & Hb & Hratio & _).
  - split; vm_compute; reflexivity.
  - apply (bool_decide_unpack _). vm_compute. exact I.
  - assert (value d "NetIncome" 1 = Some (F64 nan) ∧
            value d "TotalEquity" 1 = Some (I64 90)) as [Hn He].
    { apply (f_equal fst) in Hb. cbn [fst] in Hb. revert Hb. vm_compute.
      intros [= <-]. by split. }
    destruct (Hratio "ROE" "NetIncome" "TotalEquity" 1%nat (F64 nan) (I64 90))
      as (f & Hf & Hnan); [|done|done|by left|].
    + unfold ratio_table. rewrite !elem_of_cons. tauto.
    + exists d, f. rewrite Hb. by split_and!.
Defined.

(** ** One script after the other *)

Section Sequence.
Context `{Backend}.
Implicit Types (w : world) (d : DataFrame).

(** Every table the builder returns has [Year] and the ten ratios. *)
Lemma kpi_frame_columns income balance d :
  kpi_frame income balance = Ok d →
  "Year" ∈ labels d ∧ ∀ t, t ∈ derived_columns → t ∈ labels d.
Proof.
  intros (m & s & Hm & Hs & ->)%kpi_frame_Ok.
  apply merge_Ok in Hm as (lk & rk & Hlk & _ & ->). split.
  - apply labels_with_kpis_mono, labels_joined_left; [done| |].
    + by eapply select_singleton_in.
    + rewrite elem_of_overlap. tauto.
  - intros t Ht. by apply labels_with_kpis_derived.
Qed.

Lemma kpi_frame_reports income balance d :
  kpi_frame income balance = Ok d →
  first_missing d visualize_trends.charts = None ∧
  charts_before_failure d visualize_trends.charts = visualize_trends.charts ∧
  ∃ view, pd.getitem_list d main_view_columns = Ok view.
Proof.
  intros [Hy Hder]%kpi_frame_columns.
  assert (Forall (λ c, visualize_trends.chart_column c ∈ labels d) visualize_trends.charts)
    as Hcharts.
  { unfold visualize_trends.charts. rewrite !Forall_cons, Forall_nil.
    cbn [visualize_trends.chart_column].
    split_and!; [..|done]; apply Hder; unfold derived_columns; rewrite !elem_of_cons; tauto. }
  destruct (first_missing_none d _ Hcharts) as [Hfm Hcb]. split_and!; [done..|].
  apply getitem_list_present. unfold main_view_columns. rewrite !Forall_cons, Forall_nil.
  split_and!; [exact Hy|..|done]; apply Hder; unfold derived_columns;
    rewrite !elem_of_cons; tauto.
Qed.

(** The [__main__] block on a world that holds a KPI table. *)
Lemma main_cached_run w bytes d :
  fs w !! kpi_path = Some bytes →
  parse_csv bytes = Ok d →
  "Year" ∈ labels d →
  (visualize_trends.main w).1 = main_result d ∧
  trace (visualize_trends.main w).2
  = trace w ++ [EvExists kpi_path; EvRead kpi_path] ++ main_charts d ++ main_print d ∧
  fs (visualize_trends.main w).2 !! kpi_path = Some bytes.
Proof.
  intros Hb Hd Hy.
  rewrite main_run, load_or_build_kpi_table_run.
  rewrite bool_decide_eq_true_2 by (rewrite Hb; eauto).
  unfold read_csv, logged. cbn [fs trace]. rewrite Hb, Hd.
  match goal with |- context [(mbind ?k ?g) ?w1] =>
    destruct (main_after_load d w1 Hy) as (Hr & Ht & Hf) end.
  split_and!.
  - exact Hr.
  - rewrite Ht. cbn [trace]. by rewrite <- !app_assoc.
  - rewrite (Hf kpi_path kpi_path_not_chart). exact Hb.
Qed.

End Sequence.

(** X18. The two scripts in sequence.  After a successful run of
    [calculate_kpis.py], and provided the table it saved reads back as
    it was, the [__main__] block of [visualize_trends.py] does not build
    again: it tests for the table, reads it (not the two sources), writes
    the four charts and prints its view, and the table file still holds
    what the first script wrote. *)
Theorem script_then_main `{Backend} w income balance d :
  loaded w income balance →
  kpi_frame income balance = Ok d →
  parse_csv (format_csv d) = Ok d →
  ∃ l w1 w2 view,
    calculate_kpis.script w = (Ok l, w1) ∧ df l = d ∧
    visualize_trends.main w1 = (Ok (), w2) ∧
    pd.getitem_list d main_view_columns = Ok view ∧
    trace w2 = trace w1 ++ [EvExists kpi_path; EvRead kpi_path]
               ++ (EvWrite <$> chart_paths) ++ [EvPrint view] ∧
    fs w2 !! kpi_path = Some (format_csv d).
Proof.
  intros Hl Hk Hround.
  destruct (kpi_frame_view _ _ _ Hk) as [view5 Hview5].
  destruct (kpi_frame_reports _ _ _ Hk) as (Hfm & Hcb & view & Hview).
  destruct (kpi_frame_columns _ _ _ Hk) as [Hy _].
  eexists _, _, (visualize_trends.main _).2, view. split_and!.
  - rewrite script_run, (build_outcome_loaded _ _ _ Hl), Hk. cbn [df]. by rewrite Hview5.
  - done.
  - match goal with |- visualize_trends.main ?w1 = _ =>
      destruct (main_cached_run w1 (format_csv d) d) as (Hr & _ & _);
        [unfold logged; cbn [fs]; by rewrite lookup_insert_eq|done..|] end.
    unfold main_result in Hr. rewrite Hfm, Hview in Hr. rewrite <- Hr.
    apply surjective_pairing.
  - done.
  - match goal with |- trace (visualize_trends.main ?w1).2 = _ =>
      destruct (main_cached_run w1 (format_csv d) d) as (_ & Ht & _);
        [unfold logged; cbn [fs]; by rewrite lookup_insert_eq|done..|] end.
    rewrite Ht. unfold main_charts, main_print. rewrite Hfm, Hview, Hcb.
    unfold chart_paths. by rewrite <- (list_fmap_compose chart_path EvWrite).
  - match goal with |- fs (visualize_trends.main ?w1).2 !! _ = _ =>
      destruct (main_cached_run w1 (format_csv d) d) as (_ & _ & Hf);
        [unfold logged; cbn [fs]; by rewrite lookup_insert_eq|done..|] end.
    exact Hf.
Qed.

Lemma script_then_main_witness :
  ∃ l w1, @calculate_kpis.script more_samples.round_trip_backend more_samples.source_world
          = (Ok l, w1) ∧
          (@visualize_trends.main more_samples.round_trip_backend w1).1 = Ok ().
Proof.
  destruct (@script_then_main more_samples.round_trip_backend more_samples.source_world
              sample.income_frame sample.balance_frame sample.kpi_table)
    as (l & w1 & w2 & view & Hs & _ & Hm & _).
  - split; vm_compute; reflexivity.
  - vm_compute. reflexivity.
  - vm_compute. reflexivity.
  - exists l, w1. split; [exact Hs|]. by rewrite Hm.
Defined.
